(** * io_board: frame codec, command dispatcher and payload decoders

    A shallow embedding of the Python package [io_board] (protocol.py,
    serial_comm.py, io_board.py, deadbolt.py, loadcell.py, system.py) and the
    properties of its specification.

    Conventions of the embedding.
    - A Python [bytes] value is a list of integers; every element of a real
      [bytes] lies in 0..255 ([wf_bytes]).  A Python [str] is a list of code
      points.
    - Python exceptions are values of [exn]; a computation that may raise
      returns a [result].  Code that talks to the serial port, sleeps or logs
      runs in the state monad [M] over a [World].
    - Durations (timeouts, delays) are Python floats the code only stores and
      forwards; every finite float is a rational, so they are values of [Q]. *)

From Stdlib Require Import ZArith QArith.QArith_base String.
From stdpp Require Import base tactics option list numbers.

Local Open Scope Z_scope.

(** ** Python values *)

Abbreviation bytes := (list Z).
Abbreviation pystr := (list Z).
Abbreviation seconds := Q.

Definition wf_bytes (b : bytes) : Prop := Forall (λ x, 0 ≤ x < 256) b.

(** [b"MC"]: the bytes of an ASCII literal. *)
Definition bytes_of (s : string) : bytes :=
  map (λ a, Z.of_N (Ascii.N_of_ascii a)) (list_ascii_of_string s).

(** ** Exceptions *)

(** The texts of the [FrameError]s raised by [Frame.parse], with the values
    their f-strings interpolate. *)
Inductive frame_msg :=
  | FrameTooShort (n : nat)          (* "Frame too short: {n} bytes" *)
  | InvalidSTX (got : Z)             (* "Invalid STX: expected 0x02, got 0x.." *)
  | EtxPositionTooShort (n : nat)    (* "Frame too short for valid ETX position: .." *)
  | EtxNotFound                      (* "ETX (0x03) not found in frame" *)
  | UnknownCommand (b : bytes)       (* "Unknown command: {cmd_bytes}" *)
  | UnknownSubcommand (b : bytes).   (* "Unknown subcommand: {subcmd_bytes}" *)

Inductive exn :=
  (* exceptions.py: subclasses of IOBoardError *)
  | CommunicationError (msg : string)
  | ConnectionError (msg : string)
  | TimeoutError (msg : string)
  | FrameError (msg : frame_msg)
  | LRCError (expected actual : Z)
  | ResponseError (data : bytes)
  (* pyserial *)
  | SerialException (msg : string)
  | SerialTimeoutException (msg : string)
  (* Python built-ins *)
  | IndexError
  | KeyError
  | ValueError
  | AttributeError
  | UnicodeDecodeError
  | UnicodeEncodeError.

(** [isinstance(e, IOBoardError)]. *)
Definition is_IOBoardError (e : exn) : bool :=
  match e with
  | CommunicationError _ | ConnectionError _ | TimeoutError _
  | FrameError _ | LRCError _ _ | ResponseError _ => true
  | _ => false
  end.

Inductive result (A : Type) :=
  | Return (a : A)
  | Raise (e : exn).
Arguments Return {A} a.
Arguments Raise {A} e.

#[global] Instance result_ret : MRet result := @Return.
#[global] Instance result_bind : MBind result := λ A B f r,
  match r with
  | Return a => f a
  | Raise e => Raise e
  end.

(** [try: body / except <handled>: handler]: [handler e] is [None] for an
    exception the clause does not name. *)
Definition try_except {A} (body : result A) (handler : exn → option (result A))
  : result A :=
  match body with
  | Return a => Return a
  | Raise e => default (Raise e) (handler e)
  end.

(** ** Indexing and slicing *)

(** [l[i]], negative indices counted from the end. *)
Definition py_index {A} (l : list A) (i : Z) : result A :=
  let j := if bool_decide (i < 0) then i + Z.of_nat (length l) else i in
  if bool_decide (j < 0) then Raise IndexError
  else match l !! Z.to_nat j with
       | Some x => Return x
       | None => Raise IndexError
       end.

(** A slice bound brought into [0, len]. *)
Definition slice_bound (len : nat) (i : Z) : nat :=
  if bool_decide (i < 0) then Z.to_nat (Z.max 0 (i + Z.of_nat len))
  else Nat.min (Z.to_nat i) len.

(** [l[lo:hi]], [l[lo:]] and [l[:hi]]. *)
Definition py_slice {A} (l : list A) (lo hi : Z) : list A :=
  let a := slice_bound (length l) lo in
  let b := slice_bound (length l) hi in
  take (b - a) (drop a l).
Definition py_slice_from {A} (l : list A) (lo : Z) : list A :=
  drop (slice_bound (length l) lo) l.
Definition py_slice_to {A} (l : list A) (hi : Z) : list A :=
  take (slice_bound (length l) hi) l.

(** [range(start, stop, -1)] and [range(n)]. *)
Definition py_range_down (start stop : Z) : list Z :=
  map (λ k, start - Z.of_nat k) (seq 0 (Z.to_nat (start - stop))).
Definition py_range (n : Z) : list Z :=
  map Z.of_nat (seq 0 (Z.to_nat n)).

(** ** protocol.py *)

Definition STX : Z := 0x02.
Definition ETX : Z := 0x03.

Inductive Command := MC | RQ.
Inductive SubCommand := DC | ID | IW | LZ | MI | ER | EZ | WP | PD | RT.

#[global] Instance Command_eq_dec : EqDecision Command.
Proof. solve_decision. Defined.
#[global] Instance SubCommand_eq_dec : EqDecision SubCommand.
Proof. solve_decision. Defined.

Definition Command_value (c : Command) : bytes :=
  match c with
  | MC => bytes_of "MC"
  | RQ => bytes_of "RQ"
  end.

Definition SubCommand_value (s : SubCommand) : bytes :=
  match s with
  | DC => bytes_of "DC" | ID => bytes_of "ID"
  | IW => bytes_of "IW" | LZ => bytes_of "LZ"
  | MI => bytes_of "MI" | ER => bytes_of "ER" | EZ => bytes_of "EZ"
  | WP => bytes_of "WP" | PD => bytes_of "PD" | RT => bytes_of "RT"
  end.

Definition Command_members : list Command := [MC; RQ].
Definition SubCommand_members : list SubCommand :=
  [DC; ID; IW; LZ; MI; ER; EZ; WP; PD; RT].

(** [Enum(value)]: the first member with that value, else [ValueError]. *)
Definition enum_of_value {E} (members : list E) (value : E → bytes) (b : bytes)
  : result E :=
  match find (λ m, bool_decide (value m = b)) members with
  | Some m => Return m
  | None => Raise ValueError
  end.

Definition Command_of_value : bytes → result Command :=
  enum_of_value Command_members Command_value.
Definition SubCommand_of_value : bytes → result SubCommand :=
  enum_of_value SubCommand_members SubCommand_value.

(** [calculate_lrc]: the running XOR over [data[1:]]. *)
Definition calculate_lrc (data : bytes) : Z :=
  fold_left (λ lrc byte, Z.lxor lrc byte) (py_slice_from data 1) 0.

Module Frame.

Record t := mk {
  command : Command;
  subcommand : SubCommand;
  data : bytes;
}.

Definition build (self : t) : bytes :=
  let frame : bytes := [] in
  let frame := frame ++ [STX] in
  let frame := frame ++ Command_value (command self) in
  let frame := frame ++ SubCommand_value (subcommand self) in
  let frame := frame ++ data self in
  let frame := frame ++ [ETX] in
  let lrc := calculate_lrc frame in
  frame ++ [lrc].

(** The fallback loop of [parse]:
    [for i in range(len(raw) - 2, 4, -1): if raw[i] == ETX: etx_pos = i; break]
    started with [etx_pos = -1]. *)
Fixpoint scan_etx (raw : bytes) (indices : list Z) : result Z :=
  match indices with
  | [] => Return (-1)
  | i :: rest =>
      b ← py_index raw i;
      if bool_decide (b = ETX) then Return i else scan_etx raw rest
  end.

(** The ETX search of [parse] (source lines 96-115). *)
Definition locate_etx (raw : bytes) : result Z :=
  let len := Z.of_nat (length raw) in
  let etx_pos := len - 2 in
  if bool_decide (etx_pos < 5) then
    Raise (FrameError (EtxPositionTooShort (length raw)))
  else
    b ← py_index raw etx_pos;
    if bool_decide (b ≠ ETX) then
      etx_pos ← scan_etx raw (py_range_down (len - 2) 4);
      if bool_decide (etx_pos = -1) then Raise (FrameError EtxNotFound)
      else Return etx_pos
    else Return etx_pos.

(** The optional checksum validation of [parse] (source lines 117-123). *)
Definition check_lrc (raw : bytes) (etx_pos : Z) : result unit :=
  let frame_for_lrc := py_slice_to raw (etx_pos + 1) in
  let expected_lrc := calculate_lrc frame_for_lrc in
  actual_lrc ←
    (if bool_decide (etx_pos + 1 < Z.of_nat (length raw))
     then py_index raw (etx_pos + 1) else Return 0);
  if bool_decide (expected_lrc ≠ actual_lrc)
  then Raise (LRCError expected_lrc actual_lrc)
  else Return ().

Definition parse (raw : bytes) (validate_lrc : bool) : result (t * bytes) :=
  if bool_decide (length raw < 7)%nat then
    Raise (FrameError (FrameTooShort (length raw)))
  else
    b0 ← py_index raw 0;
    if bool_decide (b0 ≠ STX) then Raise (FrameError (InvalidSTX b0))
    else
      etx_pos ← locate_etx raw;
      (if validate_lrc then check_lrc raw etx_pos else Return ());;
      let cmd_bytes := py_slice raw 1 3 in
      let subcmd_bytes := py_slice raw 3 5 in
      command ← try_except (Command_of_value cmd_bytes) (λ e,
        match e with
        | ValueError => Some (Raise (FrameError (UnknownCommand cmd_bytes)))
        | _ => None
        end);
      subcommand ← try_except (SubCommand_of_value subcmd_bytes) (λ e,
        match e with
        | ValueError => Some (Raise (FrameError (UnknownSubcommand subcmd_bytes)))
        | _ => None
        end);
      let data := py_slice raw 5 etx_pos in
      Return (mk command subcommand data, data).

End Frame.

Definition build_command_frame (command : Command) (subcommand : SubCommand)
  (data : bytes) : bytes :=
  Frame.build (Frame.mk command subcommand data).

(** [key in d] and [d[key]] for a dict with string keys, as an association
    list in the order of the literal. *)
Definition dict_lookup {V} (d : list (string * V)) (key : string) : option V :=
  match find (λ kv, String.eqb kv.1 key) d with
  | Some kv => Some kv.2
  | None => None
  end.

(** The pre-built command frames. *)
Definition FRAMES : list (string * bytes) :=
  [ ("DC_OPEN"%string, build_command_frame MC DC (bytes_of "O"));
    ("DC_CLOSE"%string, build_command_frame MC DC (bytes_of "C"));
    ("ID"%string, build_command_frame RQ ID []);
    ("IW"%string, build_command_frame RQ IW []);
    ("LZ"%string, build_command_frame MC LZ []);
    ("MI"%string, build_command_frame RQ MI []);
    ("ER"%string, build_command_frame RQ ER []);
    ("EZ"%string, build_command_frame MC EZ []);
    ("PD"%string, build_command_frame MC PD []);
    ("RT"%string, build_command_frame MC RT []) ].

(** ** The world: serial port, clock and logger *)

(** What the device behind the port does is not part of the package: the
    [n]-th [write] and the [n]-th [read(1)] of a run are answered by a
    [Device], and so is every [reset_input_buffer], [reset_output_buffer]
    and [flush], by its position in the trace of the run. *)
Inductive write_reply :=
  | WriteOk (written : Z)
  | WriteTimeout (msg : string)      (* serial.SerialTimeoutException *)
  | WriteError (msg : string).       (* serial.SerialException *)

Inductive read_reply :=
  | ReadByte (b : Z)
  | ReadNothing                      (* the read timeout elapsed: b'' *)
  | ReadError (msg : string).        (* serial.SerialException *)

Inductive port_reply :=
  | PortOk
  | PortTimeout (msg : string)       (* serial.SerialTimeoutException *)
  | PortError (msg : string).        (* serial.SerialException *)

Record Device := {
  on_write : nat → bytes → write_reply;
  on_read : nat → read_reply;
  on_reset_input : nat → port_reply;
  on_reset_output : nat → port_reply;
  on_flush : nat → port_reply;
}.

(** The effects a run leaves behind, oldest first. *)
Inductive event :=
  | ResetInput
  | ResetOutput
  | Write (data : bytes)
  | Flush
  | Read (size : Z)
  | Sleep (d : seconds).

Inductive level := DEBUG | INFO | WARNING | ERROR.

(** Log messages, with the values their f-strings interpolate. *)
Inductive log_msg :=
  (* serial_comm.py *)
  | LogTx (written : Z) (data : bytes)
  | LogPartialData (n : nat)
  | LogResponseTooShort (n : nat)
  | LogRxInvalidSTX (got : Z)
  | LogRx (data : bytes)
  (* io_board.py *)
  | LogSending (c : Command) (s : SubCommand) (tx_frame : bytes)
  | LogSubcommandMismatch (expected got : SubCommand)
  | LogResponse (data : bytes)
  | LogFrameParseError (e : exn)
  | LogTimeoutOnAttempt (attempt retry_count : Z)
  | LogCommunicationError (attempt : Z) (e : exn)
  | LogCommandFailed (retry_count : Z) (last_error : option exn)
  (* deadbolt.py *)
  | LogDoorQueryFailed
  | LogShortResponse (n : nat) (data : bytes)
  | LogUnknownDoorByte (b : Z)
  | LogUnknownLockByte (b : Z)
  | LogDoorLock (door lock : string)
  | LogDoorParseFailed (e : exn)
  (* loadcell.py *)
  | LogWeightQueryFailed
  | LogIncompleteData (n : nat)
  | LogEmptyValue (channel : Z)
  | LogInvalidNumeric (channel : Z) (raw_str : pystr)
  | LogChannelParseFailed (channel : Z) (e : exn)
  | LogReadings (channels : list Z)
  (* system.py *)
  | LogInfoQueryFailed
  | LogSystemInfo (production_number : pystr)
  | LogInfoParseFailed (e : exn)
  | LogEmptyProductionNumber
  | LogNonAsciiProductionNumber (number : pystr)
  | LogProductionNumberSet (number : pystr)
  | LogSetProductionNumberFailed
  | LogErrorHistoryQueryFailed
  | LogErrorEntryParseFailed (index : Z) (e : exn)
  | LogErrorHistory (codes : list (Z * pystr))
  | LogErrorHistoryEmpty
  | LogErrorHistoryCleared
  | LogClearErrorHistoryFailed
  | LogFactoryResetWarning
  | LogFactoryResetDone
  | LogFactoryResetFailed
  | LogSystemResetDone
  | LogSystemResetFailed
  (* serial_comm.py, disconnect *)
  | LogDisconnected (port : string)
  | LogCloseError (e : exn)
  (* io_board.py, send_raw *)
  | LogRawCommandFailed (e : exn)
  (* deadbolt.py, open and close *)
  | LogDeadBoltOpened
  | LogDeadBoltOpenFailed
  | LogDeadBoltClosed
  | LogDeadBoltCloseFailed
  (* loadcell.py, zero_calibration *)
  | LogZeroCalibrationDone
  | LogZeroCalibrationFailed.

(** [SerialConnection._serial] when it is not [None]. *)
Record Serial := {
  is_open : bool;
  timeout : seconds;
}.

Record World := {
  device : Device;
  serial : option Serial;
  writes_done : nat;
  reads_done : nat;
  trace : list event;
  log : list (level * log_msg);
  (* the calls a [MagicMock] dispatcher of the tests has recorded *)
  calls : list (Command * SubCommand * bytes * option seconds);
}.

Definition add_event (e : event) (w : World) : World :=
  {| device := device w; serial := serial w; writes_done := writes_done w;
     reads_done := reads_done w; trace := trace w ++ [e]; log := log w;
     calls := calls w |}.
Definition add_log (r : level * log_msg) (w : World) : World :=
  {| device := device w; serial := serial w; writes_done := writes_done w;
     reads_done := reads_done w; trace := trace w; log := log w ++ [r];
     calls := calls w |}.
Definition add_call (c : Command * SubCommand * bytes * option seconds)
  (w : World) : World :=
  {| device := device w; serial := serial w; writes_done := writes_done w;
     reads_done := reads_done w; trace := trace w; log := log w;
     calls := calls w ++ [c] |}.
Definition set_serial (s : option Serial) (w : World) : World :=
  {| device := device w; serial := s; writes_done := writes_done w;
     reads_done := reads_done w; trace := trace w; log := log w;
     calls := calls w |}.
Definition tick_write (w : World) : World :=
  {| device := device w; serial := serial w; writes_done := S (writes_done w);
     reads_done := reads_done w; trace := trace w; log := log w;
     calls := calls w |}.
Definition tick_read (w : World) : World :=
  {| device := device w; serial := serial w; writes_done := writes_done w;
     reads_done := S (reads_done w); trace := trace w; log := log w;
     calls := calls w |}.

(** ** The monad of effectful code *)

Definition M (A : Type) : Type := World → result A * World.

#[global] Instance M_ret : MRet M := λ A a w, (Return a, w).
#[global] Instance M_bind : MBind M := λ A B f m w,
  match m w with
  | (Return a, w') => f a w'
  | (Raise e, w') => (Raise e, w')
  end.

Definition raise {A} (e : exn) : M A := λ w, (Raise e, w).
Definition lift {A} (r : result A) : M A := λ w, (r, w).
Definition modify (f : World → World) : M unit := λ w, (Return (), f w).
Definition logger (lvl : level) (msg : log_msg) : M unit :=
  modify (add_log (lvl, msg)).
Definition emit (e : event) : M unit := modify (add_event e).

(** [try: body / except ...: handler]. *)
Definition try_exceptM {A} (body : M A) (handler : exn → option (M A)) : M A :=
  λ w, match body w with
       | (Return a, w') => (Return a, w')
       | (Raise e, w') =>
           match handler e with
           | Some h => h w'
           | None => (Raise e, w')
           end
       end.

(** [try: body / finally: cleanup]. *)
Definition try_finally {A} (body : M A) (cleanup : M unit) : M A :=
  λ w, match body w with
       | (r, w') =>
           match cleanup w' with
           | (Return _, w'') => (r, w'')
           | (Raise e, w'') => (Raise e, w'')
           end
       end.

(** [time.sleep]: a negative length is refused with [ValueError]. *)
Definition time_sleep (d : seconds) : M unit :=
  if Qle_bool 0 d then emit (Sleep d) else raise ValueError.

(** *** pyserial's [Serial] object *)

(** A call of the port that returns nothing: it is recorded as [ev], and
    the device says whether it went through. *)
Definition port_call (ev : event) (reply : Device → nat → port_reply) : M unit := λ w,
  let w' := add_event ev w in
  match reply (device w) (length (trace w)) with
  | PortOk => (Return (), w')
  | PortTimeout msg => (Raise (SerialTimeoutException msg), w')
  | PortError msg => (Raise (SerialException msg), w')
  end.

Definition serial_reset_input_buffer : M unit := port_call ResetInput on_reset_input.
Definition serial_reset_output_buffer : M unit := port_call ResetOutput on_reset_output.
Definition serial_flush : M unit := port_call Flush on_flush.

Definition serial_write (data : bytes) : M Z := λ w,
  let w' := tick_write (add_event (Write data) w) in
  match on_write (device w) (writes_done w) data with
  | WriteOk n => (Return n, w')
  | WriteTimeout msg => (Raise (SerialTimeoutException msg), w')
  | WriteError msg => (Raise (SerialException msg), w')
  end.

(** [_serial.read(1)]. *)
Definition serial_read (size : Z) : M bytes := λ w,
  let w' := tick_read (add_event (Read size) w) in
  match on_read (device w) (reads_done w) with
  | ReadByte b => (Return [b], w')
  | ReadNothing => (Return [], w')
  | ReadError msg => (Raise (SerialException msg), w')
  end.

Definition serial_get_timeout : M seconds := λ w,
  match serial w with
  | Some s => (Return (timeout s), w)
  | None => (Raise AttributeError, w)     (* [None] has no [timeout] *)
  end.
Definition serial_set_timeout (t : seconds) : M unit := λ w,
  match serial w with
  | Some s => (Return (), set_serial (Some {| is_open := is_open s; timeout := t |}) w)
  | None => (Raise AttributeError, w)
  end.

(** ** serial_comm.py *)

Module SerialConnection.

(** [self._serial is not None and self._serial.is_open]. *)
Definition is_connected : M bool := λ w,
  (Return (match serial w with Some s => is_open s | None => false end), w).

(** [send]; the lock is held by the only thread of the model. *)
Definition send (data : bytes) : M Z :=
  connected ← is_connected;
  if negb connected then raise (CommunicationError "Not connected to serial port")
  else
    try_exceptM
      (serial_reset_input_buffer;;
       serial_reset_output_buffer;;
       bytes_written ← serial_write data;
       serial_flush;;
       logger DEBUG (LogTx bytes_written data);;
       mret bytes_written)
      (λ e, match e with
            | SerialTimeoutException _ => Some (raise (TimeoutError "Write timeout"))
            | SerialException msg =>
                Some (raise (CommunicationError ("Failed to send data: " ++ msg)))
            | _ => None
            end).

Definition max_buffer_size : nat := 500.
Definition min_frame_size : nat := 7.

(** The [while len(data) < max_buffer_size] loop of [receive_until_etx].
    Every iteration that continues has appended one byte to [data], so
    [fuel] = [max_buffer_size - len(data)] iterations are all there are. *)
Fixpoint receive_loop (fuel : nat) (data : bytes) (etx_received : bool)
  : M bytes :=
  match fuel with
  | O => mret data
  | S fuel' =>
      if bool_decide (length data < max_buffer_size)%nat then
        byte ← serial_read 1;
        if bool_decide (byte = []) then
          if bool_decide (data = []) then
            raise (TimeoutError "No response received (timeout)")
          else
            logger WARNING (LogPartialData (length data));;
            mret data
        else
          let data := data ++ byte in
          b ← lift (py_index byte 0);
          if bool_decide (b = 0x03) then receive_loop fuel' data true
          else if etx_received then mret data
          else receive_loop fuel' data etx_received
      else mret data
  end.

Definition receive_until_etx (timeout : option seconds) : M bytes :=
  connected ← is_connected;
  if negb connected then raise (CommunicationError "Not connected to serial port")
  else
    original_timeout ← serial_get_timeout;
    match timeout with
    | Some t => serial_set_timeout t
    | None => mret ()
    end;;
    try_finally
      (try_exceptM
         (data ← receive_loop max_buffer_size [] false;
          (if bool_decide (length data < min_frame_size)%nat
           then logger WARNING (LogResponseTooShort (length data))
           else mret ());;
          match data with
          | b0 :: _ =>
              if bool_decide (b0 ≠ 0x02) then logger WARNING (LogRxInvalidSTX b0)
              else mret ()
          | [] => mret ()
          end;;
          logger DEBUG (LogRx data);;
          mret data)
         (λ e, match e with
               | SerialException msg | SerialTimeoutException msg =>
                   Some (raise (CommunicationError ("Failed to receive data: " ++ msg)))
               | _ => None
               end))
      (serial_set_timeout original_timeout).

(** [_serial.close()]. *)
Definition serial_close : M unit := λ w,
  match serial w with
  | Some s => (Return (), set_serial (Some {| is_open := false; timeout := timeout s |}) w)
  | None => (Raise AttributeError, w)
  end.

(** [disconnect]; [port] is [self.port]. *)
Definition disconnect (port : string) : M unit := λ w,
  match serial w with
  | Some s =>
      try_finally
        (try_exceptM
           (if is_open s then
              serial_close;;
              logger INFO (LogDisconnected port)
            else mret ())
           (λ e, Some (logger ERROR (LogCloseError e))))
        (modify (set_serial None)) w
  | None => (Return (), w)
  end.

End SerialConnection.

(** ** str and bytes methods *)

(** [str.isspace] of one character. *)
Definition py_isspace (c : Z) : bool :=
  bool_decide (0x09 ≤ c ≤ 0x0D) || bool_decide (0x1C ≤ c ≤ 0x20)
  || bool_decide (c = 0x85) || bool_decide (c = 0xA0) || bool_decide (c = 0x1680)
  || bool_decide (0x2000 ≤ c ≤ 0x200A) || bool_decide (c = 0x2028)
  || bool_decide (c = 0x2029) || bool_decide (c = 0x202F)
  || bool_decide (c = 0x205F) || bool_decide (c = 0x3000).

Fixpoint py_lstrip (s : pystr) : pystr :=
  match s with
  | c :: s' => if py_isspace c then py_lstrip s' else s
  | [] => []
  end.
Definition py_rstrip (s : pystr) : pystr := rev (py_lstrip (rev s)).
Definition py_strip (s : pystr) : pystr := py_rstrip (py_lstrip s).

Definition is_ascii (s : list Z) : bool := forallb (λ c, bool_decide (c < 128)) s.

(** [bytes.decode('ascii')], [bytes.decode('ascii', errors='replace')] and
    [str.encode('ascii')]. *)
Definition decode_ascii (b : bytes) : result pystr :=
  if is_ascii b then Return b else Raise UnicodeDecodeError.
Definition decode_ascii_replace (b : bytes) : pystr :=
  map (λ x, if bool_decide (x < 128) then x else 0xFFFD) b.
Definition encode_ascii (s : pystr) : result bytes :=
  if is_ascii s then Return s else Raise UnicodeEncodeError.

(** ** io_board.py *)

(** The object the decoders hold as [self._io]: anything with a
    [send_command] method ([data] defaults to [b''], [timeout] to [None]). *)
Class Dispatcher (T : Type) :=
  send_command : T → Command → SubCommand → bytes → option seconds → M (bool * bytes).

Module IOBoard.

Record t := mk {
  port : string;
  baudrate : Z;
  timeout : seconds;
  retry_count : Z;
  retry_delay : seconds;
  validate_lrc : bool;
}.

Definition is_connected (self : t) : M bool := SerialConnection.is_connected.

(** One pass through the body of [for attempt in range(self.retry_count)]:
    [inl response_data] when the body returns [True, response_data],
    [inr last_error] when it falls through to the next iteration. *)
Definition attempt_body (self : t) (subcommand : SubCommand) (tx_frame : bytes)
  (timeout : option seconds) (attempt : Z) : M (bytes + option exn) :=
  r ← try_exceptM
        (SerialConnection.send tx_frame;;
         let rx_timeout := default (IOBoard.timeout self) timeout in
         rx_data ← SerialConnection.receive_until_etx (Some rx_timeout);
         try_exceptM
           ('(frame, response_data) ← lift (Frame.parse rx_data (validate_lrc self));
            (if bool_decide (Frame.subcommand frame ≠ subcommand)
             then logger WARNING
                    (LogSubcommandMismatch subcommand (Frame.subcommand frame))
             else mret ());;
            logger DEBUG (LogResponse response_data);;
            mret (inl response_data))
           (λ e, if is_IOBoardError e
                 then Some (logger WARNING (LogFrameParseError e);;
                            mret (inr (Some e)))
                 else None))
        (λ e, match e with
              | TimeoutError _ =>
                  Some (logger WARNING
                          (LogTimeoutOnAttempt (attempt + 1) (retry_count self));;
                        mret (inr (Some e)))
              | CommunicationError _ =>
                  Some (logger WARNING (LogCommunicationError (attempt + 1) e);;
                        mret (inr (Some e)))
              | _ => None
              end);
  match r with
  | inl response_data => mret (inl response_data)
  | inr last_error =>
      (if bool_decide (attempt < retry_count self - 1)
       then time_sleep (retry_delay self) else mret ());;
      mret (inr last_error)
  end.

Fixpoint attempts (self : t) (subcommand : SubCommand) (tx_frame : bytes)
  (timeout : option seconds) (indices : list Z) (last_error : option exn)
  : M (bytes + option exn) :=
  match indices with
  | [] => mret (inr last_error)
  | attempt :: rest =>
      r ← attempt_body self subcommand tx_frame timeout attempt;
      match r with
      | inl response_data => mret (inl response_data)
      | inr last_error => attempts self subcommand tx_frame timeout rest last_error
      end
  end.

Definition send_command (self : t) (command : Command) (subcommand : SubCommand)
  (data : bytes) (timeout : option seconds) : M (bool * bytes) :=
  connected ← is_connected self;
  if negb connected then raise (CommunicationError "Not connected to IO board")
  else
    let tx_frame := build_command_frame command subcommand data in
    logger DEBUG (LogSending command subcommand tx_frame);;
    r ← attempts self subcommand tx_frame timeout (py_range (retry_count self)) None;
    match r with
    | inl response_data => mret (true, response_data)
    | inr last_error =>
        logger ERROR (LogCommandFailed (retry_count self) last_error);;
        mret (false, [])
    end.

Definition disconnect (self : t) : M unit :=
  SerialConnection.disconnect (port self).

Definition send_raw (self : t) (frame_key : string) (timeout : option seconds)
  : M (bool * bytes) :=
  match dict_lookup FRAMES frame_key with
  | None => raise ValueError
  | Some tx_frame =>
      connected ← is_connected self;
      if negb connected then raise (CommunicationError "Not connected to IO board")
      else
        try_exceptM
          (SerialConnection.send tx_frame;;
           rx_data ← SerialConnection.receive_until_etx
                       (Some (default (IOBoard.timeout self) timeout));
           '(_, response_data) ← lift (Frame.parse rx_data (validate_lrc self));
           mret (true, response_data))
          (λ e, if is_IOBoardError e
                then Some (logger ERROR (LogRawCommandFailed e);; mret (false, []))
                else None)
  end.

Definition write_production_number (self : t) (number : pystr) : M bool :=
  data ← lift (encode_ascii number);
  '(success, _) ← send_command self MC WP data None;
  mret (success : bool).

End IOBoard.

#[global] Instance IOBoard_dispatcher : Dispatcher IOBoard.t := IOBoard.send_command.

(** The dispatcher of the unit tests: [MagicMock()] with
    [send_command.return_value] set; it records its calls. *)
Record MagicMock := { return_value : bool * bytes }.

#[global] Instance MagicMock_dispatcher : Dispatcher MagicMock :=
  λ self command subcommand data timeout w,
    (Return (return_value self), add_call (command, subcommand, data, timeout) w).

(** ** deadbolt.py *)

Inductive DoorStatus := OPENED | CLOSED | DOOR_UNKNOWN.
Inductive LockStatus := LOCKED | UNLOCKED | LOCK_UNKNOWN.

Definition DoorStatus_value (d : DoorStatus) : string :=
  match d with OPENED => "OPENED" | CLOSED => "CLOSED" | DOOR_UNKNOWN => "UNKNOWN" end.
Definition LockStatus_value (l : LockStatus) : string :=
  match l with LOCKED => "LOCK" | UNLOCKED => "UNLOCK" | LOCK_UNKNOWN => "UNKNOWN" end.

#[global] Instance DoorStatus_eq_dec : EqDecision DoorStatus.
Proof. solve_decision. Defined.
#[global] Instance LockStatus_eq_dec : EqDecision LockStatus.
Proof. solve_decision. Defined.

(** The module-level dicts, as association lists. *)
Definition DOOR_STATUS_MAP : list (Z * DoorStatus) :=
  [(0x4F, OPENED); (0x43, CLOSED)].
Definition LOCK_STATUS_MAP : list (Z * LockStatus) :=
  [(0x4C, LOCKED); (0x55, UNLOCKED)].

(** [d.get(key, default)]. *)
Definition dict_get {V} (d : list (Z * V)) (key : Z) (dflt : V) : V :=
  match find (λ kv, bool_decide (kv.1 = key)) d with
  | Some kv => kv.2
  | None => dflt
  end.

Module DeadBolt.
Section with_io.
Context {T : Type} `{Dispatcher T} (io : T).

Definition MIN_RESPONSE_LENGTH : nat := 7.

(** The body of the [try] of [get_status]. *)
Definition get_status_try (data : bytes) : M (DoorStatus * LockStatus) :=
  door_byte ← lift (py_index data 0);
  let door_status := dict_get DOOR_STATUS_MAP door_byte DOOR_UNKNOWN in
  (if bool_decide (door_status = DOOR_UNKNOWN)
   then logger WARNING (LogUnknownDoorByte door_byte) else mret ());;
  lock_byte ← lift (py_index data 6);
  let lock_status := dict_get LOCK_STATUS_MAP lock_byte LOCK_UNKNOWN in
  (if bool_decide (lock_status = LOCK_UNKNOWN)
   then logger WARNING (LogUnknownLockByte lock_byte) else mret ());;
  logger INFO (LogDoorLock (DoorStatus_value door_status)
                           (LockStatus_value lock_status));;
  mret (door_status, lock_status).

Definition get_status : M (DoorStatus * LockStatus) :=
  '(success, data) ← send_command io RQ ID [] None;
  if negb success then
    logger ERROR LogDoorQueryFailed;;
    mret (DOOR_UNKNOWN, LOCK_UNKNOWN)
  else if bool_decide (length data < MIN_RESPONSE_LENGTH)%nat then
    logger WARNING (LogShortResponse (length data) data);;
    mret (DOOR_UNKNOWN, LOCK_UNKNOWN)
  else
    try_exceptM (get_status_try data)
      (λ e, match e with
            | IndexError | KeyError =>
                Some (logger ERROR (LogDoorParseFailed e);;
                      raise (ResponseError data))
            | _ => None
            end).

Definition open : M bool :=
  '(success, _) ← send_command io MC DC (bytes_of "O") None;
  (if (success : bool) then logger INFO LogDeadBoltOpened
   else logger ERROR LogDeadBoltOpenFailed);;
  mret success.

Definition close : M bool :=
  '(success, _) ← send_command io MC DC (bytes_of "C") None;
  (if (success : bool) then logger INFO LogDeadBoltClosed
   else logger ERROR LogDeadBoltCloseFailed);;
  mret success.

Definition is_door_open : M bool :=
  '(door_status, _) ← get_status;
  mret (bool_decide (door_status = OPENED)).

Definition is_door_closed : M bool :=
  '(door_status, _) ← get_status;
  mret (bool_decide (door_status = CLOSED)).

Definition is_locked : M bool :=
  '(_, lock_status) ← get_status;
  mret (bool_decide (lock_status = LOCKED)).

Definition is_unlocked : M bool :=
  '(_, lock_status) ← get_status;
  mret (bool_decide (lock_status = UNLOCKED)).

End with_io.
End DeadBolt.

(** ** loadcell.py *)

Definition NUM_CHANNELS : Z := 10.
Definition BYTES_PER_CHANNEL : Z := 6.
Definition TOTAL_DATA_BYTES : Z := NUM_CHANNELS * BYTES_PER_CHANNEL.

Module LoadCell.
Section with_float.
(** Python's [float] type, the literal [0.0] and the built-in [float(str)]
    ([None]: it raises [ValueError]) are the language's, not the
    package's. *)
Context {float : Type} (float_zero : float) (py_float : pystr → option float).

Record LoadCellReading := {
  channel : Z;
  value : float;
  raw : pystr;
}.

(** The fields of a [LoadCell] object other than [_io]. *)
Record t := { _last_readings : option (list LoadCellReading) }.

(** The body of [for ch in range(NUM_CHANNELS)] of [read_all]: the
    reading it appends. *)
Definition read_channel_body (data : bytes) (ch : Z) : M LoadCellReading :=
  let start_idx := ch * BYTES_PER_CHANNEL in
  let end_idx := start_idx + BYTES_PER_CHANNEL in
  try_exceptM
    (let raw_bytes := py_slice data start_idx end_idx in
     let raw_str := py_strip (decode_ascii_replace raw_bytes) in
     if bool_decide (raw_str = []) then
       logger DEBUG (LogEmptyValue (ch + 1));;
       mret {| channel := ch + 1; value := float_zero; raw := [] |}
     else
       value ← match py_float raw_str with
               | Some v => mret v
               | None =>
                   logger WARNING (LogInvalidNumeric (ch + 1) raw_str);;
                   mret float_zero
               end;
       mret {| channel := ch + 1; value := value; raw := raw_str |})
    (λ e, match e with
          | IndexError | UnicodeDecodeError =>
              Some (logger WARNING (LogChannelParseFailed (ch + 1) e);;
                    mret {| channel := ch + 1; value := float_zero; raw := [] |})
          | _ => None
          end).

Fixpoint read_channels (data : bytes) (chs : list Z)
  (readings : list LoadCellReading) : M (list LoadCellReading) :=
  match chs with
  | [] => mret readings
  | ch :: rest =>
      reading ← read_channel_body data ch;
      read_channels data rest (readings ++ [reading])
  end.

Context {T : Type} `{Dispatcher T} (io : T).

(** [read_all]: the list returned and the object after the call. *)
Definition read_all (self : t) : M (list LoadCellReading * t) :=
  '(success, data) ← send_command io RQ IW [] None;
  if negb success then
    logger ERROR LogWeightQueryFailed;;
    mret ([], self)
  else
    (if bool_decide (Z.of_nat (length data) < TOTAL_DATA_BYTES)
     then logger WARNING (LogIncompleteData (length data)) else mret ());;
    readings ← read_channels data (py_range NUM_CHANNELS) [];
    let self := {| _last_readings := Some readings |} in
    logger DEBUG (LogReadings (map channel readings));;
    mret (readings, self).

(** [read_channel]: the reading returned ([None] as [None]) and the object
    after the call. *)
Definition read_channel (self : t) (channel : Z) : M (option LoadCellReading * t) :=
  if negb (bool_decide (1 ≤ channel ≤ NUM_CHANNELS)) then raise ValueError
  else
    '(readings, self) ← read_all self;
    if bool_decide (readings ≠ []) && bool_decide (Z.of_nat (length readings) >= channel)
    then
      reading ← lift (py_index readings (channel - 1));
      mret (Some reading, self)
    else mret (None, self).

Definition get_last_readings (self : t) : option (list LoadCellReading) :=
  _last_readings self.

Definition zero_calibration : M bool :=
  '(success, _) ← send_command io MC LZ [] None;
  (if (success : bool) then logger INFO LogZeroCalibrationDone
   else logger ERROR LogZeroCalibrationFailed);;
  mret success.

Definition get_channel_values (self : t) : M (list float * t) :=
  '(readings, self) ← read_all self;
  mret (map value readings, self).

End with_float.
End LoadCell.

(** ** system.py *)

Definition PRODUCTION_NUMBER_LENGTH : Z := 11.

Module SystemManager.

Record SystemInfo := {
  production_number : pystr;
  raw : bytes;
}.

Definition ERROR_HISTORY_COUNT : Z := 4.
Definition ERROR_ENTRY_SIZE : Z := 4.

Module ErrorEntry.
Record t := {
  index : Z;
  code : pystr;
  raw : bytes;
}.
End ErrorEntry.

Record ErrorHistory := {
  entries : list ErrorEntry.t;
}.

(** The body of [for i in range(ERROR_HISTORY_COUNT)] of
    [get_error_history]: the entry it appends. *)
Definition error_entry_body (data : bytes) (i : Z) : M ErrorEntry.t :=
  let start_idx := i * ERROR_ENTRY_SIZE in
  let end_idx := start_idx + ERROR_ENTRY_SIZE in
  try_exceptM
    (let raw_bytes := py_slice data start_idx end_idx in
     decoded ← lift (decode_ascii raw_bytes);
     let code := py_strip decoded in
     mret {| ErrorEntry.index := i + 1; ErrorEntry.code := code;
             ErrorEntry.raw := raw_bytes |})
    (λ e, match e with
          | IndexError | UnicodeDecodeError =>
              Some (logger WARNING (LogErrorEntryParseFailed (i + 1) e);;
                    mret {| ErrorEntry.index := i + 1; ErrorEntry.code := [];
                            ErrorEntry.raw := [] |})
          | _ => None
          end).

Fixpoint error_entries (data : bytes) (indices : list Z)
  (entries : list ErrorEntry.t) : M (list ErrorEntry.t) :=
  match indices with
  | [] => mret entries
  | i :: rest =>
      entry ← error_entry_body data i;
      error_entries data rest (entries ++ [entry])
  end.

Section with_io.
Context {T : Type} `{Dispatcher T} (io : T).

Definition get_info : M SystemInfo :=
  '(success, data) ← send_command io RQ MI [] None;
  if negb success then
    logger ERROR LogInfoQueryFailed;;
    mret {| production_number := []; raw := [] |}
  else
    try_exceptM
      (let raw_bytes := py_slice_to data PRODUCTION_NUMBER_LENGTH in
       decoded ← lift (decode_ascii raw_bytes);
       let production_number := py_strip decoded in
       let info := {| production_number := production_number; raw := data |} in
       logger INFO (LogSystemInfo production_number);;
       mret info)
      (λ e, match e with
            | IndexError | UnicodeDecodeError =>
                Some (logger ERROR (LogInfoParseFailed e);;
                      raise (ResponseError data))
            | _ => None
            end).

Definition set_production_number (number : pystr) : M bool :=
  if bool_decide (number = []) then
    logger WARNING LogEmptyProductionNumber;;
    mret false
  else
    match encode_ascii number with
    | Return data =>
        '(success, _) ← send_command io MC WP data None;
        (if (success : bool) then logger INFO (LogProductionNumberSet number)
         else logger ERROR LogSetProductionNumberFailed);;
        mret success
    | Raise UnicodeEncodeError =>
        logger ERROR (LogNonAsciiProductionNumber number);;
        mret false
    | Raise e => raise e
    end.

Definition get_error_history : M ErrorHistory :=
  '(success, data) ← send_command io RQ ER [] None;
  if negb success then
    logger ERROR LogErrorHistoryQueryFailed;;
    mret {| entries := [] |}
  else
    entries ← error_entries data (py_range ERROR_HISTORY_COUNT) [];
    let history := {| entries := entries |} in
    let codes :=
      omap (λ e, if bool_decide (ErrorEntry.code e ≠ [])
                 then Some (ErrorEntry.index e, ErrorEntry.code e) else None)
        entries in
    (if bool_decide (codes ≠ []) then logger DEBUG (LogErrorHistory codes)
     else logger DEBUG LogErrorHistoryEmpty);;
    mret history.

Definition clear_error_history : M bool :=
  '(success, _) ← send_command io MC EZ [] None;
  (if (success : bool) then logger INFO LogErrorHistoryCleared
   else logger ERROR LogClearErrorHistoryFailed);;
  mret success.

Definition factory_reset : M bool :=
  logger WARNING LogFactoryResetWarning;;
  '(success, _) ← send_command io MC PD [] None;
  (if (success : bool) then logger INFO LogFactoryResetDone
   else logger ERROR LogFactoryResetFailed);;
  mret success.

Definition system_reset : M bool :=
  '(success, _) ← send_command io MC RT [] None;
  (if (success : bool) then logger INFO LogSystemResetDone
   else logger ERROR LogSystemResetFailed);;
  mret success.

End with_io.
End SystemManager.

(** * Vocabulary of the specification

    The notions the properties below are stated with.  None of them is
    code of the package. *)

(** ** Frames *)

(** The XOR of a run of bytes. *)
Definition xor_all (l : bytes) : Z := foldr Z.lxor 0 l.

(** What [build] emits between STX and the checksum: command, subcommand,
    payload and ETX. *)
Definition frame_body (f : Frame.t) : bytes :=
  Command_value (Frame.command f) ++ SubCommand_value (Frame.subcommand f)
  ++ Frame.data f ++ [ETX].

(** [p] is the last position of the window [5 .. len(raw) - 2] that holds
    the ETX value. *)
Definition last_etx_in_window (raw : bytes) (p : nat) : Prop :=
  (5 ≤ p ≤ length raw - 2)%nat ∧ raw !! p = Some ETX ∧
  ∀ j : nat, (p < j ≤ length raw - 2)%nat → raw !! j ≠ Some ETX.

(** No position of that window holds the ETX value. *)
Definition no_etx_in_window (raw : bytes) : Prop :=
  ∀ j : nat, (5 ≤ j ≤ length raw - 2)%nat → raw !! j ≠ Some ETX.

(** ** Worlds and devices *)

(** [w] after [nw] more writes, [nr] more reads, the events [evs] and the
    log records [logs]. *)
Definition extend (w : World) (nw nr : nat) (evs : list event)
  (logs : list (level * log_msg)) : World :=
  {| device := device w; serial := serial w;
     writes_done := writes_done w + nw; reads_done := reads_done w + nr;
     trace := trace w ++ evs; log := log w ++ logs; calls := calls w |}.

(** [SerialConnection.is_connected] holds in [w]. *)
Definition connected (w : World) : Prop :=
  ∃ s, serial w = Some s ∧ is_open s = true.


(** ** One attempt of the dispatcher, by how its [send] ends *)

(** The calls [send] makes at the port, in order. *)
Inductive send_stage := AtResetInput | AtResetOutput | AtWrite | AtFlush.

(** How a [send] ends: all four calls went through and [written] bytes were
    written, or the call at [stage] raised [SerialTimeoutException] or
    another [SerialException]. *)
Inductive send_reply :=
  | SendOk (written : Z)
  | SendTimeout (stage : send_stage) (msg : string)
  | SendError (stage : send_stage) (msg : string).

Definition port_failure (stage : send_stage) (r : port_reply) (ok : send_reply)
  : send_reply :=
  match r with
  | PortOk => ok
  | PortTimeout msg => SendTimeout stage msg
  | PortError msg => SendError stage msg
  end.

(** How the [send] of [tx] ends against device [d], when the trace holds
    [t] events and [nw] writes were made before. *)
Definition send_reply_of (d : Device) (t nw : nat) (tx : bytes) : send_reply :=
  port_failure AtResetInput (on_reset_input d t)
    (port_failure AtResetOutput (on_reset_output d (S t))
       match on_write d nw tx with
       | WriteOk n => port_failure AtFlush (on_flush d (S (S (S t)))) (SendOk n)
       | WriteTimeout msg => SendTimeout AtWrite msg
       | WriteError msg => SendError AtWrite msg
       end).

(** How the next [send] of [tx] ends in world [w]. *)
Definition next_send (w : World) (tx : bytes) : send_reply :=
  send_reply_of (device w) (length (trace w)) (writes_done w) tx.

(** The stage a [send] reached ([None]: it went through). *)
Definition failed_at (reply : send_reply) : option send_stage :=
  match reply with
  | SendOk _ => None
  | SendTimeout stage _ | SendError stage _ => Some stage
  end.

(** What [send] returns or raises. *)
Definition send_result (reply : send_reply) : result Z :=
  match reply with
  | SendOk n => Return n
  | SendTimeout _ _ => Raise (TimeoutError "Write timeout")
  | SendError _ msg => Raise (CommunicationError ("Failed to send data: " ++ msg))
  end.

(** What [send] does at the port, the [write] calls among it, and what it
    logs. *)
Definition send_events (tx : bytes) (reply : send_reply) : list event :=
  match failed_at reply with
  | Some AtResetInput => [ResetInput]
  | Some AtResetOutput => [ResetInput; ResetOutput]
  | Some AtWrite => [ResetInput; ResetOutput; Write tx]
  | Some AtFlush | None => [ResetInput; ResetOutput; Write tx; Flush]
  end.

Definition send_writes (reply : send_reply) : nat :=
  match failed_at reply with
  | Some AtResetInput | Some AtResetOutput => 0
  | _ => 1
  end.

Definition send_logs (tx : bytes) (reply : send_reply) : list (level * log_msg) :=
  match reply with SendOk n => [(DEBUG, LogTx n tx)] | _ => [] end.





(** The frames written, the [send] calls begun (each starts by resetting
    the input buffer) and the delays slept in a run of events. *)
Definition writes_of (evs : list event) : list bytes :=
  omap (λ e, match e with Write data => Some data | _ => None end) evs.
Definition sends_of (evs : list event) : nat :=
  length (omap (λ e, match e with ResetInput => Some () | _ => None end) evs).
Definition sleeps_of (evs : list event) : list seconds :=
  omap (λ e, match e with Sleep d => Some d | _ => None end) evs.

(** ** Devices, worlds and boards to run the code with *)

(** A device whose port never fails, that accepts every write and never
    answers. *)
Definition mute_device : Device :=
  {| on_write := λ _ data, WriteOk (Z.of_nat (length data));
     on_read := λ _, ReadNothing;
     on_reset_input := λ _, PortOk; on_reset_output := λ _, PortOk;
     on_flush := λ _, PortOk |}.


(** A device whose port never fails, that accepts every write and answers
    the reads of a run with the bytes of [response], then with nothing. *)
Definition scripted_device (response : bytes) : Device :=
  {| on_write := λ _ data, WriteOk (Z.of_nat (length data));
     on_read := λ n, match response !! n with
                     | Some b => ReadByte b
                     | None => ReadNothing
                     end;
     on_reset_input := λ _, PortOk; on_reset_output := λ _, PortOk;
     on_flush := λ _, PortOk |}.

(** A device whose input buffer cannot be reset. *)
Definition jammed_device : Device :=
  {| on_write := λ _ data, WriteOk (Z.of_nat (length data));
     on_read := λ _, ReadNothing;
     on_reset_input := λ _, PortError "Input/output error";
     on_reset_output := λ _, PortOk;
     on_flush := λ _, PortOk |}.

(** The world after [connect()] on a fresh connection. *)
Definition opened (d : Device) : World :=
  {| device := d; serial := Some {| is_open := true; timeout := 1%Q |};
     writes_done := 0; reads_done := 0; trace := []; log := []; calls := [] |}.

(** [IOBoard(port='COM3')] with its defaults: three attempts, 0.1 s apart. *)
Definition default_board : IOBoard.t :=
  IOBoard.mk "COM3" 38400 1%Q 3 (1 # 10)%Q false.

(** ** Exceptions of a computation *)

(** Every exception [m] raises satisfies [P]. *)
Definition raises_only {A} (P : exn → Prop) (m : M A) : Prop :=
  ∀ w e w', m w = (Raise e, w') → P e.

(** [m] returns in every world. *)
Definition never_raises {A} (m : M A) : Prop :=
  ∀ w, ∃ a w', m w = (Return a, w').

(** [TimeoutError] or [CommunicationError], the two [send_command] catches
    around an attempt. *)
Definition timeout_or_communication (e : exn) : Prop :=
  (∃ msg, e = TimeoutError msg) ∨ (∃ msg, e = CommunicationError msg).

(** ** Decoded payloads *)

(** The status bytes as the specification reads them. *)
Definition door_of_byte (b : Z) : DoorStatus :=
  if bool_decide (b = 0x4F) then OPENED          (* 'O' *)
  else if bool_decide (b = 0x43) then CLOSED     (* 'C' *)
  else DOOR_UNKNOWN.
Definition lock_of_byte (b : Z) : LockStatus :=
  if bool_decide (b = 0x4C) then LOCKED          (* 'L' *)
  else if bool_decide (b = 0x55) then UNLOCKED   (* 'U' *)
  else LOCK_UNKNOWN.

(** A stand-in for [float(str)] to run examples with: unsigned decimal
    integers, valued in [Z]; every other string is rejected. *)
Definition digits_value (s : pystr) : Z :=
  fold_left (λ acc c, 10 * acc + (c - 48)) s 0.
Definition digits_float (s : pystr) : option Z :=
  if bool_decide (s ≠ []) && forallb (λ c, bool_decide (48 ≤ c ≤ 57)) s
  then Some (digits_value s) else None.

Section loadcell_vocabulary.
Context {float : Type} (float_zero : float) (py_float : pystr → option float).

(** The reading of channel [ch + 1]: its 6-byte field decoded, stripped and
    parsed. *)
Definition field_reading (data : bytes) (ch : Z)
  : LoadCell.LoadCellReading (float := float) :=
  let raw_str := py_strip (decode_ascii_replace (py_slice data (ch * 6) (ch * 6 + 6))) in
  if bool_decide (raw_str = []) then
    {| LoadCell.channel := ch + 1; LoadCell.value := float_zero; LoadCell.raw := [] |}
  else
    {| LoadCell.channel := ch + 1;
       LoadCell.value := default float_zero (py_float raw_str);
       LoadCell.raw := raw_str |}.

(** The reading reported for a channel without data. *)
Definition default_reading (ch : Z) : LoadCell.LoadCellReading (float := float) :=
  {| LoadCell.channel := ch + 1; LoadCell.value := float_zero; LoadCell.raw := [] |}.

End loadcell_vocabulary.

(** ** The device's stream and the receive loop *)

(** The reads of a run from the [from]-th on are answered with the bytes of
    [stream], then with nothing. *)
Definition answers (d : Device) (from : nat) (stream : bytes) : Prop :=
  ∀ i : nat,
    on_read d (from + i)
    = match stream !! i with Some b => ReadByte b | None => ReadNothing end.

(** What the receive loop keeps of a stream: everything up to the first
    byte that is not ETX and comes after an ETX. *)
Fixpoint frame_cut (etx_received : bool) (stream : bytes) : bytes :=
  match stream with
  | [] => []
  | b :: rest =>
      b :: (if bool_decide (b = ETX) then frame_cut true rest
            else if etx_received then [] else frame_cut false rest)
  end.

(** The [read(1)] calls the loop makes on a stream, the empty one that ends
    an exhausted stream included. *)
Fixpoint frame_reads (etx_received : bool) (stream : bytes) : nat :=
  match stream with
  | [] => 1
  | b :: rest =>
      S (if bool_decide (b = ETX) then frame_reads true rest
         else if etx_received then 0 else frame_reads false rest)
  end.

(** The world in which the loop runs: the port's time-out is the one asked
    for, when one is. *)
Definition with_timeout (t : option seconds) (w : World) : World :=
  match t, serial w with
  | Some t0, Some s => set_serial (Some {| is_open := is_open s; timeout := t0 |}) w
  | _, _ => w
  end.

(** What [receive_until_etx] makes of the loop's outcome. *)
Definition receive_finish (r : result bytes) : result bytes :=
  match r with
  | Raise (SerialException msg) | Raise (SerialTimeoutException msg) =>
      Raise (CommunicationError ("Failed to receive data: " ++ msg))
  | _ => r
  end.

(** What it logs after the loop. *)
Definition receive_finish_logs (r : result bytes) : list (level * log_msg) :=
  match r with
  | Return data =>
      (if bool_decide (length data < SerialConnection.min_frame_size)%nat
       then [(WARNING, LogResponseTooShort (length data))] else [])
      ++ match data with
         | b0 :: _ => if bool_decide (b0 ≠ 0x02) then [(WARNING, LogRxInvalidSTX b0)] else []
         | [] => []
         end
      ++ [(DEBUG, LogRx data)]
  | Raise _ => []
  end.

(** ** Traces and results of computations *)

(** The buffer resets of the port never fail. *)
Definition resets_succeed (d : Device) : Prop :=
  ∀ n, on_reset_input d n = PortOk ∧ on_reset_output d n = PortOk.

(** A run of [m] from [w] leaves the port object, the device and the
    recorded calls alone, begins [n] sends, writes nothing but copies of
    [tx], at most one for each send and exactly one when the buffer resets
    never fail, and never sleeps. *)
Definition runs {A} (n : nat) (tx : bytes) (m : M A) (w : World) : Prop :=
  ∀ r w', m w = (r, w') →
    serial w' = serial w ∧ device w' = device w ∧ calls w' = calls w
    ∧ ∃ (evs : list event) (j : nat),
        trace w' = trace w ++ evs
        ∧ sends_of evs = n
        ∧ writes_of evs = replicate j tx
        ∧ (j ≤ n)%nat
        ∧ (resets_succeed (device w) → j = n)
        ∧ writes_done w' = (writes_done w + j)%nat
        ∧ sleeps_of evs = [].

(** [m] sends nothing and never sleeps, wherever it runs. *)
Definition quiet {A} (m : M A) : Prop := ∀ w tx, runs 0 tx m w.


(** Every value [m] returns satisfies [Q]. *)
Definition returns_only {A} (Q : A → Prop) (m : M A) : Prop :=
  ∀ w a w', m w = (Return a, w') → Q a.


(** ** Decoded payloads of the status and error-history queries *)

(** The payload of a status answer holds byte [b] at position [i]; a failed
    dispatch or a payload shorter than 7 bytes holds nothing. *)
Definition status_byte (success : bool) (data : bytes) (i : nat) (b : Z) : bool :=
  success && bool_decide (7 ≤ length data)%nat && bool_decide (data !! i = Some b).

(** The entry of error slot [i + 1]: its 4-byte field, decoded and stripped
    when it is ASCII, blank otherwise. *)
Definition error_entry (data : bytes) (i : Z) : SystemManager.ErrorEntry.t :=
  let raw_bytes := py_slice data (i * 4) (i * 4 + 4) in
  if is_ascii raw_bytes then
    {| SystemManager.ErrorEntry.index := i + 1;
       SystemManager.ErrorEntry.code := py_strip raw_bytes;
       SystemManager.ErrorEntry.raw := raw_bytes |}
  else
    {| SystemManager.ErrorEntry.index := i + 1;
       SystemManager.ErrorEntry.code := [];
       SystemManager.ErrorEntry.raw := [] |}.

(** * Properties *)

(** ** The frames of the test suite *)

Example build_rq_id : build_command_frame RQ ID [] = [2; 82; 81; 73; 68; 3; 13].
Proof. reflexivity. Qed.

Example parse_mc_dc :
  Frame.parse [0x02; 0x4D; 0x43; 0x44; 0x43; 0x03; 0x00] false
  = Return (Frame.mk MC DC [], []).
Proof. reflexivity. Qed.

Example parse_missing_etx :
  Frame.parse [0x02; 0x4D; 0x43; 0x44; 0x43; 0x00; 0x00] false
  = Raise (FrameError EtxNotFound).
Proof. reflexivity. Qed.

(** ** Indexing, slicing and ranges *)

Lemma py_index_nat {A} (l : list A) (n : nat) (x : A) :
  l !! n = Some x → py_index l (Z.of_nat n) = Return x.
Proof.
  intros Hn. unfold py_index.
  rewrite (bool_decide_eq_false_2 (Z.of_nat n < 0)) by lia. simpl.
  rewrite bool_decide_eq_false_2 by lia.
  by rewrite Nat2Z.id, Hn.
Qed.

Lemma py_index_Z {A} (l : list A) (i : Z) (x : A) :
  0 ≤ i → l !! Z.to_nat i = Some x → py_index l i = Return x.
Proof.
  intros Hi Hx. rewrite <- (Z2Nat.id i) by done. by apply py_index_nat.
Qed.

Lemma py_index_in_range {A} (l : list A) (i : Z) :
  0 ≤ i < Z.of_nat (length l) → ∃ x, l !! Z.to_nat i = Some x ∧ py_index l i = Return x.
Proof.
  intros Hi. destruct (lookup_lt_is_Some_2 l (Z.to_nat i)) as [x Hx]; [lia|].
  exists x. split; [done|]. apply py_index_Z; [lia|done].
Qed.

Lemma slice_bound_nat (len n : nat) : slice_bound len (Z.of_nat n) = Nat.min n len.
Proof.
  unfold slice_bound. rewrite bool_decide_eq_false_2 by lia. by rewrite Nat2Z.id.
Qed.

Lemma py_slice_nat {A} (l : list A) (a b : nat) :
  (a ≤ length l)%nat → (b ≤ length l)%nat →
  py_slice l (Z.of_nat a) (Z.of_nat b) = take (b - a) (drop a l).
Proof.
  intros Ha Hb. unfold py_slice. rewrite !slice_bound_nat.
  by rewrite !Nat.min_l by done.
Qed.

Lemma py_slice_to_nat {A} (l : list A) (b : nat) :
  py_slice_to l (Z.of_nat b) = take b l.
Proof.
  unfold py_slice_to. rewrite slice_bound_nat.
  destruct (decide (b ≤ length l)%nat).
  - by rewrite Nat.min_l.
  - rewrite Nat.min_r by lia. by rewrite !take_ge by lia.
Qed.

Lemma py_slice_from_1 {A} (x : A) (l : list A) : py_slice_from (x :: l) 1 = l.
Proof. unfold py_slice_from, slice_bound. simpl. by rewrite drop_0. Qed.

Lemma py_range_down_cons (start stop : Z) :
  stop < start → py_range_down start stop = start :: py_range_down (start - 1) stop.
Proof.
  intros Hlt. unfold py_range_down.
  replace (Z.to_nat (start - stop)) with (S (Z.to_nat (start - 1 - stop))) by lia.
  simpl. f_equal; [lia|].
  rewrite <- seq_shift, map_map. apply map_ext. intros k. lia.
Qed.

Lemma py_range_down_nil (start stop : Z) :
  start ≤ stop → py_range_down start stop = [].
Proof.
  intros Hle. unfold py_range_down.
  by replace (Z.to_nat (start - stop)) with 0%nat by lia.
Qed.

(** ** protocol.py: the checksum *)

Lemma fold_left_lxor (l : bytes) (acc : Z) :
  fold_left (λ lrc byte, Z.lxor lrc byte) l acc = Z.lxor acc (xor_all l).
Proof.
  revert acc. induction l as [|b l IH]; intros acc; simpl.
  - by rewrite Z.lxor_0_r.
  - by rewrite IH, Z.lxor_assoc.
Qed.

Lemma calculate_lrc_cons (b : Z) (l : bytes) : calculate_lrc (b :: l) = xor_all l.
Proof.
  unfold calculate_lrc. rewrite py_slice_from_1, fold_left_lxor.
  apply Z.lxor_0_l.
Qed.

Lemma build_layout (f : Frame.t) :
  Frame.build f = STX :: frame_body f ++ [xor_all (frame_body f)].
Proof.
  unfold Frame.build, frame_body. simpl.
  rewrite <- !app_assoc. rewrite calculate_lrc_cons. done.
Qed.

(** Steps of the exception monad, leaving constants such as [ETX] folded. *)
Ltac rsimpl :=
  unfold mbind, result_bind, mret, result_ret; cbv beta iota.

(** ** protocol.py: the closed enumerations *)

Lemma Command_value_length (c : Command) : length (Command_value c) = 2%nat.
Proof. by destruct c. Qed.

Lemma SubCommand_value_length (s : SubCommand) : length (SubCommand_value s) = 2%nat.
Proof. by destruct s. Qed.

Lemma Command_of_value_value (c : Command) :
  Command_of_value (Command_value c) = Return c.
Proof. by destruct c. Qed.

Lemma SubCommand_of_value_value (s : SubCommand) :
  SubCommand_of_value (SubCommand_value s) = Return s.
Proof. by destruct s. Qed.

(** ** protocol.py: locating ETX *)

Lemma scan_etx_range (raw : bytes) (stop : Z) (n : nat) :
  ∀ start : Z,
    Z.to_nat (start - stop) = n → -1 ≤ stop → start < Z.of_nat (length raw) →
    (Frame.scan_etx raw (py_range_down start stop) = Return (-1) ∧
     ∀ i : Z, stop < i ≤ start → raw !! Z.to_nat i ≠ Some ETX)
    ∨ (∃ p : Z, Frame.scan_etx raw (py_range_down start stop) = Return p ∧
         stop < p ≤ start ∧ raw !! Z.to_nat p = Some ETX ∧
         ∀ i : Z, p < i ≤ start → raw !! Z.to_nat i ≠ Some ETX).
Proof.
  induction n as [|n IH]; intros start Hn Hstop Hstart.
  - left. rewrite py_range_down_nil by lia. split; [done|]. intros i Hi. lia.
  - rewrite py_range_down_cons by lia. cbn [Frame.scan_etx].
    destruct (py_index_in_range raw start) as (b & Hb & ->); [lia|]. rsimpl.
    case_bool_decide as Hetx.
    + right. exists start. subst b. repeat split; [lia|lia|done|]. intros i Hi. lia.
    + destruct (IH (start - 1)) as [[Hscan Hnone]|(p & Hscan & Hp & Hpetx & Hafter)];
        [lia|lia|lia| |].
      * left. split; [done|]. intros i Hi.
        destruct (decide (i = start)) as [->|]; [by rewrite Hb; intros [= ?]|]. apply Hnone. lia.
      * right. exists p. repeat split; [done|lia|lia|done|]. intros i Hi.
        destruct (decide (i = start)) as [->|]; [by rewrite Hb; intros [= ?]|].
        apply Hafter. lia.
Qed.

Lemma locate_etx_found (raw : bytes) (p : nat) :
  (7 ≤ length raw)%nat → last_etx_in_window raw p →
  Frame.locate_etx raw = Return (Z.of_nat p).
Proof.
  intros Hlen (Hp & Hetx & Hlast). unfold Frame.locate_etx. cbv zeta.
  rewrite bool_decide_eq_false_2 by lia.
  destruct (py_index_in_range raw (Z.of_nat (length raw) - 2)) as (b & Hb & ->); [lia|].
  rsimpl. replace (Z.to_nat (Z.of_nat (length raw) - 2)) with (length raw - 2)%nat in Hb by lia.
  case_bool_decide as Hne.
  - destruct (scan_etx_range raw 4 (Z.to_nat (Z.of_nat (length raw) - 2 - 4))
                (Z.of_nat (length raw) - 2))
      as [[_ Hnone]|(q & -> & Hq & Hqetx & Hafter)]; [done|lia|lia| |].
    + exfalso. apply (Hnone (Z.of_nat p)); [lia|]. by rewrite Nat2Z.id.
    + rsimpl. rewrite bool_decide_eq_false_2 by lia. f_equal.
      destruct (Z.lt_trichotomy q (Z.of_nat p)) as [Hlt|[Heq|Hgt]]; [|done|].
      * exfalso. apply (Hafter (Z.of_nat p)); [lia|]. by rewrite Nat2Z.id.
      * exfalso. apply (Hlast (Z.to_nat q)); [lia|done].
  - subst b. f_equal.
    destruct (decide (p = length raw - 2)%nat) as [->|Hpne]; [lia|].
    exfalso. apply (Hlast (length raw - 2)%nat); [lia|done].
Qed.

Lemma locate_etx_not_found (raw : bytes) :
  (7 ≤ length raw)%nat → no_etx_in_window raw →
  Frame.locate_etx raw = Raise (FrameError EtxNotFound).
Proof.
  intros Hlen Hnone. unfold Frame.locate_etx. cbv zeta.
  rewrite bool_decide_eq_false_2 by lia.
  destruct (py_index_in_range raw (Z.of_nat (length raw) - 2)) as (b & Hb & ->); [lia|].
  rsimpl. replace (Z.to_nat (Z.of_nat (length raw) - 2)) with (length raw - 2)%nat in Hb by lia.
  rewrite bool_decide_eq_true_2.
  2:{ intros ->. apply (Hnone (length raw - 2)%nat); [lia|done]. }
  destruct (scan_etx_range raw 4 (Z.to_nat (Z.of_nat (length raw) - 2 - 4))
              (Z.of_nat (length raw) - 2))
    as [[-> _]|(q & _ & Hq & Hqetx & _)]; [done|lia|lia| |].
  - done.
  - exfalso. apply (Hnone (Z.to_nat q)); [lia|done].
Qed.

(** One of the two always holds. *)
Lemma etx_window_cases (raw : bytes) :
  (7 ≤ length raw)%nat → no_etx_in_window raw ∨ ∃ p, last_etx_in_window raw p.
Proof.
  intros Hlen.
  destruct (scan_etx_range raw 4 (Z.to_nat (Z.of_nat (length raw) - 2 - 4))
              (Z.of_nat (length raw) - 2))
    as [[_ Hnone]|(q & _ & Hq & Hqetx & Hafter)]; [done|lia|lia| |].
  - left. intros j Hj. specialize (Hnone (Z.of_nat j)). rewrite Nat2Z.id in Hnone.
    apply Hnone. lia.
  - right. exists (Z.to_nat q). repeat split; [lia|lia|done|].
    intros j Hj. specialize (Hafter (Z.of_nat j)). rewrite Nat2Z.id in Hafter.
    apply Hafter. lia.
Qed.

(** ** protocol.py: [Frame.parse] *)

Lemma py_index_0 {A} (l : list A) (x : A) :
  l !! 0%nat = Some x → py_index l 0 = Return x.
Proof. apply (py_index_nat l 0). Qed.

Lemma parse_too_short (raw : bytes) (validate_lrc : bool) :
  (length raw < 7)%nat →
  Frame.parse raw validate_lrc = Raise (FrameError (FrameTooShort (length raw))).
Proof. intros Hlen. unfold Frame.parse. by rewrite bool_decide_eq_true_2. Qed.

Lemma parse_bad_start (raw : bytes) (validate_lrc : bool) (b : Z) :
  (7 ≤ length raw)%nat → raw !! 0%nat = Some b → b ≠ STX →
  Frame.parse raw validate_lrc = Raise (FrameError (InvalidSTX b)).
Proof.
  intros Hlen Hb Hne. unfold Frame.parse.
  rewrite bool_decide_eq_false_2 by lia.
  rewrite (py_index_0 raw b Hb). rsimpl.
  by rewrite bool_decide_eq_true_2.
Qed.

(** Past the length and STX checks, [parse] is the ETX search followed by
    the rest of its body. *)
Lemma parse_unfold (raw : bytes) (validate_lrc : bool) :
  (7 ≤ length raw)%nat → raw !! 0%nat = Some STX →
  Frame.parse raw validate_lrc =
    (etx_pos ← Frame.locate_etx raw;
     (if validate_lrc then Frame.check_lrc raw etx_pos else Return ());;
     command ← try_except (Command_of_value (py_slice raw 1 3)) (λ e,
       match e with
       | ValueError => Some (Raise (FrameError (UnknownCommand (py_slice raw 1 3))))
       | _ => None
       end);
     subcommand ← try_except (SubCommand_of_value (py_slice raw 3 5)) (λ e,
       match e with
       | ValueError => Some (Raise (FrameError (UnknownSubcommand (py_slice raw 3 5))))
       | _ => None
       end);
     Return (Frame.mk command subcommand (py_slice raw 5 etx_pos),
             py_slice raw 5 etx_pos)).
Proof.
  intros Hlen Hb. unfold Frame.parse.
  rewrite bool_decide_eq_false_2 by lia.
  rewrite (py_index_0 raw STX Hb). rsimpl.
  by rewrite bool_decide_eq_false_2 by (intros Hne; by apply Hne).
Qed.

Lemma parse_etx_not_found (raw : bytes) (validate_lrc : bool) :
  (7 ≤ length raw)%nat → raw !! 0%nat = Some STX → no_etx_in_window raw →
  Frame.parse raw validate_lrc = Raise (FrameError EtxNotFound).
Proof.
  intros Hlen Hb Hnone. rewrite parse_unfold by done.
  by rewrite locate_etx_not_found.
Qed.

Lemma check_lrc_ok (raw : bytes) (p : nat) :
  raw !! S p = Some (calculate_lrc (take (S p) raw)) →
  Frame.check_lrc raw (Z.of_nat p) = Return ().
Proof.
  intros Hlrc. unfold Frame.check_lrc. cbv zeta.
  replace (Z.of_nat p + 1) with (Z.of_nat (S p)) by lia.
  rewrite py_slice_to_nat.
  rewrite bool_decide_eq_true_2 by (apply lookup_lt_Some in Hlrc; lia).
  rewrite (py_index_nat _ _ _ Hlrc). rsimpl.
  by rewrite bool_decide_eq_false_2 by (intros Hne; by apply Hne).
Qed.

Lemma parse_found (raw : bytes) (validate_lrc : bool) (p : nat)
    (c : Command) (s : SubCommand) :
  (7 ≤ length raw)%nat → raw !! 0%nat = Some STX → last_etx_in_window raw p →
  (validate_lrc = true → raw !! S p = Some (calculate_lrc (take (S p) raw))) →
  py_slice raw 1 3 = Command_value c →
  py_slice raw 3 5 = SubCommand_value s →
  Frame.parse raw validate_lrc
  = Return (Frame.mk c s (py_slice raw 5 (Z.of_nat p)), py_slice raw 5 (Z.of_nat p)).
Proof.
  intros Hlen Hb Hp Hlrc Hc Hs. rewrite parse_unfold by done.
  rewrite (locate_etx_found raw p) by done. rsimpl.
  assert ((if validate_lrc then Frame.check_lrc raw (Z.of_nat p) else Return ())
          = Return ()) as ->.
  { destruct validate_lrc; [|done]. apply check_lrc_ok. by apply Hlrc. }
  rewrite Hc, Hs, Command_of_value_value, SubCommand_of_value_value. done.
Qed.

(** Whatever [parse] returns, its payload is the slice between index 5 and
    the position [locate_etx] found. *)
Lemma parse_returns_inv (raw : bytes) (validate_lrc : bool) (f : Frame.t) (d : bytes) :
  Frame.parse raw validate_lrc = Return (f, d) →
  ∃ etx_pos, Frame.locate_etx raw = Return etx_pos
             ∧ d = py_slice raw 5 etx_pos ∧ Frame.data f = d.
Proof.
  unfold Frame.parse. case_bool_decide; [done|].
  destruct (py_index raw 0) as [b0|]; [|done]. rsimpl.
  case_bool_decide; [done|].
  destruct (Frame.locate_etx raw) as [etx_pos|]; [|done]. rsimpl.
  destruct (if validate_lrc then _ else _); [|done].
  destruct (try_except (Command_of_value _) _) as [c|]; [|done].
  destruct (try_except (SubCommand_of_value _) _) as [s|]; [|done].
  intros [= <- <-]. by exists etx_pos.
Qed.

(** [parse] raises nothing but [FrameError] and [LRCError]. *)
Lemma enum_of_value_raises {E} (members : list E) (value : E → bytes) (b : bytes) (e : exn) :
  enum_of_value members value b = Raise e → e = ValueError.
Proof. unfold enum_of_value. destruct (find _ _); by intros [= <-]. Qed.

(** ** protocol.py: decoding what [build] encodes *)

Lemma build_shape (f : Frame.t) :
  ∃ a b a' b' : Z,
    Command_value (Frame.command f) = [a; b]
    ∧ SubCommand_value (Frame.subcommand f) = [a'; b']
    ∧ Frame.build f
      = [STX; a; b; a'; b'] ++ Frame.data f ++ [ETX; xor_all (frame_body f)].
Proof.
  rewrite build_layout. unfold frame_body.
  destruct f as [c s d]. simpl.
  destruct c, s; do 4 eexists; (split; [reflexivity|split; [reflexivity|]]);
    simpl; by rewrite <- !app_assoc.
Qed.

Lemma parse_build (f : Frame.t) (validate_lrc : bool) :
  Frame.parse (Frame.build f) validate_lrc = Return (f, Frame.data f).
Proof.
  destruct (build_shape f) as (a & b & a' & b' & Hc & Hs & Hraw).
  set (n := length (Frame.data f)).
  assert (length (Frame.build f) = 7 + n)%nat as Hlen.
  { rewrite Hraw. rewrite !length_app. simpl. lia. }
  assert (py_slice (Frame.build f) 5 (Z.of_nat (5 + n)) = Frame.data f) as Hdata.
  { change 5 with (Z.of_nat 5). rewrite py_slice_nat by lia.
    rewrite Hraw. rewrite drop_app_length' by done.
    replace (5 + n - 5)%nat with n by lia. unfold n. by rewrite take_app_length. }
  rewrite (parse_found _ _ (5 + n) (Frame.command f) (Frame.subcommand f)).
  - rewrite Hdata. by destruct f.
  - lia.
  - by rewrite Hraw.
  - split; [lia|]. split; [|intros j Hj; lia].
    rewrite Hraw. rewrite lookup_app_r by (simpl; lia).
    rewrite lookup_app_r by (simpl; lia).
    by replace (5 + n - length [STX; a; b; a'; b'] - length (Frame.data f))%nat
      with 0%nat by (simpl; lia).
  - intros _. rewrite build_layout, app_comm_cons.
    replace (S (5 + n)) with (length (STX :: frame_body f)).
    2:{ unfold frame_body. simpl. rewrite !length_app, Hc, Hs. simpl. lia. }
    rewrite (take_app_length (STX :: frame_body f)).
    rewrite (lookup_app_r (STX :: frame_body f)) by done.
    rewrite Nat.sub_diag. simpl. by rewrite calculate_lrc_cons.
  - rewrite Hraw, Hc. done.
  - rewrite Hraw, Hs. done.
Qed.

(** C1. Encode/decode round trip: for every frame whose command and
    subcommand are members of the enumerations and whose payload holds no ETX
    byte, parsing the bytes [build] emits succeeds and returns the frame
    together with its payload, with checksum validation on or off. *)
Theorem roundtrip_parse_build (f : Frame.t) (validate_lrc : bool) :
  ETX ∉ Frame.data f →
  Frame.parse (Frame.build f) validate_lrc = Return (f, Frame.data f).
Proof. intros _. apply parse_build. Qed.

Lemma roundtrip_parse_build_witness :
  Frame.parse (Frame.build (Frame.mk MC WP (bytes_of "PROD1234567"))) true
  = Return (Frame.mk MC WP (bytes_of "PROD1234567"), bytes_of "PROD1234567").
Proof.
  apply (roundtrip_parse_build (Frame.mk MC WP (bytes_of "PROD1234567")) true).
  compute_done.
Defined.

Lemma build_etx_at (f : Frame.t) :
  Frame.build f !! (5 + length (Frame.data f))%nat = Some ETX.
Proof.
  destruct (build_shape f) as (a & b & a' & b' & _ & _ & ->).
  rewrite lookup_app_r by (simpl; lia).
  rewrite lookup_app_r by (simpl; lia).
  by replace (5 + _ - _ - _)%nat with 0%nat by (simpl; lia).
Qed.

(** C5. The checksum leaves the STX byte out: two buffers that differ only
    in their first byte have the same [calculate_lrc], and the last byte
    [build] emits is the XOR of the bytes of the frame from index 1 through
    the ETX byte, that is of command, subcommand, payload and ETX. *)
Theorem checksum_excludes_stx :
  (∀ (stx stx' : Z) (rest : bytes),
     calculate_lrc (stx :: rest) = calculate_lrc (stx' :: rest))
  ∧ (∀ f : Frame.t,
       let frame := Frame.build f in
       let n := length frame in
       frame !! (n - 2)%nat = Some ETX
       ∧ py_slice frame 1 (Z.of_nat n - 1)
         = Command_value (Frame.command f) ++ SubCommand_value (Frame.subcommand f)
           ++ Frame.data f ++ [ETX]
       ∧ frame !! (n - 1)%nat = Some (xor_all (py_slice frame 1 (Z.of_nat n - 1)))).
Proof.
  split.
  - intros stx stx' rest. by rewrite !calculate_lrc_cons.
  - intros f frame n.
    assert (length (frame_body f) = 5 + length (Frame.data f))%nat as Hbody.
    { unfold frame_body. rewrite !length_app, Command_value_length,
        SubCommand_value_length. simpl. lia. }
    assert (n = 2 + length (frame_body f))%nat as Hn.
    { unfold n, frame. rewrite build_layout. simpl. rewrite length_app. simpl. lia. }
    assert (py_slice frame 1 (Z.of_nat n - 1) = frame_body f) as Hslice.
    { replace (Z.of_nat n - 1) with (Z.of_nat (n - 1)) by lia.
      change 1 with (Z.of_nat 1). rewrite py_slice_nat by lia.
      unfold frame. rewrite build_layout. cbn [drop].
      replace (n - 1 - 1)%nat with (length (frame_body f)) by lia.
      by rewrite drop_0, take_app_length. }
    split; [|split].
    + replace (n - 2)%nat with (5 + length (Frame.data f))%nat by lia.
      apply build_etx_at.
    + by rewrite Hslice.
    + rewrite Hslice. unfold frame. rewrite build_layout, app_comm_cons.
      rewrite lookup_app_r by (cbn [length]; lia).
      by replace (n - 1 - length (STX :: frame_body f))%nat with 0%nat
        by (cbn [length]; lia).
Qed.

(** C7, as the code has it: a buffer of at least 7 bytes whose first byte is
    not STX fails with the bad-start frame error, whatever the rest of it
    holds. *)
Theorem bad_start_rejected (raw : bytes) (validate_lrc : bool) (b : Z) :
  (7 ≤ length raw)%nat → raw !! 0%nat = Some b → b ≠ STX →
  Frame.parse raw validate_lrc = Raise (FrameError (InvalidSTX b)).
Proof. apply parse_bad_start. Qed.

Lemma bad_start_rejected_witness :
  Frame.parse [0x00; 0x4D; 0x43; 0x44; 0x43; 0x03; 0x00] false
  = Raise (FrameError (InvalidSTX 0x00)).
Proof.
  apply (bad_start_rejected [0x00; 0x4D; 0x43; 0x44; 0x43; 0x03; 0x00] false 0x00).
  - simpl. lia.
  - reflexivity.
  - unfold STX. lia.
Defined.

(** C7 as stated fails: the length check comes first, so a short buffer that
    does not start with STX is rejected as too short. *)
Lemma bad_start_counterexample :
  ¬ (∀ (raw : bytes) (validate_lrc : bool) (b : Z),
       raw !! 0%nat = Some b → b ≠ STX →
       ∃ got, Frame.parse raw validate_lrc = Raise (FrameError (InvalidSTX got))).
Proof.
  intros Hclaim.
  destruct (Hclaim [0x00; 0x4D; 0x43] false 0x00) as [got Hgot].
  - reflexivity.
  - unfold STX. lia.
  - discriminate Hgot.
Qed.

(** C4. Where [parse] takes ETX to be, for a buffer of at least 7 bytes that
    starts with STX: the expected position [len(raw) - 2] when it holds ETX;
    otherwise the last position of the window [5 .. len(raw) - 2] that holds
    ETX; and when the window holds none, the parse fails with the
    ETX-not-found frame error.  The payload returned is [raw[5:etxPos]]. *)
Theorem etx_location (raw : bytes) (validate_lrc : bool) :
  (7 ≤ length raw)%nat → raw !! 0%nat = Some STX →
  (raw !! (length raw - 2)%nat = Some ETX →
   Frame.locate_etx raw = Return (Z.of_nat (length raw - 2)))
  ∧ (∀ p : nat, last_etx_in_window raw p →
       Frame.locate_etx raw = Return (Z.of_nat p)
       ∧ (∀ f d, Frame.parse raw validate_lrc = Return (f, d) →
            d = py_slice raw 5 (Z.of_nat p) ∧ Frame.data f = d)
       ∧ (∀ c s,
            (validate_lrc = true →
             raw !! S p = Some (calculate_lrc (take (S p) raw))) →
            py_slice raw 1 3 = Command_value c →
            py_slice raw 3 5 = SubCommand_value s →
            Frame.parse raw validate_lrc
            = Return (Frame.mk c s (py_slice raw 5 (Z.of_nat p)),
                      py_slice raw 5 (Z.of_nat p))))
  ∧ (no_etx_in_window raw →
     Frame.locate_etx raw = Raise (FrameError EtxNotFound)
     ∧ Frame.parse raw validate_lrc = Raise (FrameError EtxNotFound))
  ∧ (no_etx_in_window raw ∨ ∃ p, last_etx_in_window raw p).
Proof.
  intros Hlen Hstx. split; [|split; [|split]].
  - intros Hetx. apply locate_etx_found; [done|].
    split; [lia|]. split; [done|]. intros j Hj. lia.
  - intros p Hp. split; [by apply locate_etx_found|]. split.
    + intros f d Hparse.
      destruct (parse_returns_inv _ _ _ _ Hparse) as (q & Hq & -> & Hf).
      rewrite (locate_etx_found raw p) in Hq by done.
      by injection Hq as <-.
    + intros c s Hlrc Hc Hs. by apply parse_found.
  - intros Hnone. split; [by apply locate_etx_not_found|].
    by apply parse_etx_not_found.
  - by apply etx_window_cases.
Qed.

(** A frame whose payload holds the ETX value and whose last two bytes do
    not: the fallback scan finds position 7, the last ETX. *)
Lemma etx_location_witness :
  Frame.parse [0x02; 0x4D; 0x43; 0x44; 0x43; 0x03; 0x4F; 0x03; 0x41; 0x42] false
  = Return (Frame.mk MC DC [0x03; 0x4F], [0x03; 0x4F]).
Proof.
  destruct (etx_location [0x02; 0x4D; 0x43; 0x44; 0x43; 0x03; 0x4F; 0x03; 0x41; 0x42]
              false) as (_ & Hfound & _).
  - simpl. lia.
  - reflexivity.
  - destruct (Hfound 7%nat) as (_ & _ & Hparse).
    + split; [simpl; lia|]. split; [reflexivity|].
      intros j Hj. simpl in Hj. assert (j = 8%nat) as -> by lia. discriminate.
    + apply (Hparse MC DC); [discriminate|reflexivity|reflexivity].
Defined.

(** ** The effects of a step on the world *)

Lemma extend_extend w nw nr evs logs nw' nr' evs' logs' :
  extend (extend w nw nr evs logs) nw' nr' evs' logs'
  = extend w (nw + nw') (nr + nr') (evs ++ evs') (logs ++ logs').
Proof.
  unfold extend. simpl. by rewrite !Nat.add_assoc, !app_assoc.
Qed.

Lemma extend_id w : extend w 0 0 [] [] = w.
Proof.
  destruct w. unfold extend. simpl. by rewrite !Nat.add_0_r, !app_nil_r.
Qed.

Lemma connected_extend w nw nr evs logs :
  connected w → connected (extend w nw nr evs logs).
Proof. done. Qed.

(** Unfolds the updates of a world down to its fields. *)
Ltac world_simpl :=
  unfold extend, add_log, add_event, add_call, set_serial, tick_write, tick_read;
  cbn [device serial writes_done reads_done trace log calls is_open timeout].

(** ** serial_comm.py on an open port *)

Lemma Build_World_eq d s nw nw' nr nr' tr tr' lg lg' cs :
  nw = nw' → nr = nr' → tr = tr' → lg = lg' →
  Build_World d s nw nr tr lg cs = Build_World d s nw' nr' tr' lg' cs.
Proof. by intros -> -> -> ->. Qed.

(** One call of [send] at the port, once the device's reply is known. *)
Ltac port_step :=
  world_simpl; rewrite ?length_app; cbn [length port_failure];
  rewrite ?Nat.add_1_r.

Lemma send_spec (w : World) (tx : bytes) :
  connected w →
  let reply := next_send w tx in
  SerialConnection.send tx w
  = (send_result reply,
     extend w (send_writes reply) 0 (send_events tx reply) (send_logs tx reply)).
Proof.
  intros (s & Hs & Hopen) reply. subst reply.
  destruct w as [d ser nw nr tr lg cs]. simpl in *. subst ser.
  unfold SerialConnection.send, SerialConnection.is_connected, extend, next_send,
    send_reply_of.
  cbv [mbind M_bind mret M_ret serial]. rewrite Hopen. cbn [negb].
  unfold try_exceptM, serial_reset_input_buffer, serial_reset_output_buffer,
    serial_write, serial_flush, port_call, logger, emit, modify, raise.
  cbv [mbind M_bind mret M_ret]. world_simpl.
  destruct (on_reset_input d (length tr)); port_step;
    [destruct (on_reset_output d (S (length tr))); port_step;
     [destruct (on_write d nw tx); port_step;
      [destruct (on_flush d (S (S (S (length tr))))); port_step|..]|..]|..];
    cbn [send_result send_writes send_events send_logs failed_at]; f_equal;
    apply Build_World_eq;
    by rewrite <- ?app_assoc, ?Nat.add_1_r, ?Nat.add_0_r, ?app_nil_r.
Qed.



(** ** io_board.py: an attempt against a device that never answers *)


Lemma writes_of_app evs evs' : writes_of (evs ++ evs') = writes_of evs ++ writes_of evs'.
Proof. apply omap_app. Qed.
Lemma sleeps_of_app evs evs' : sleeps_of (evs ++ evs') = sleeps_of evs ++ sleeps_of evs'.
Proof. apply omap_app. Qed.
Lemma sends_of_app evs evs' : sends_of (evs ++ evs') = (sends_of evs + sends_of evs')%nat.
Proof. unfold sends_of. by rewrite omap_app, length_app. Qed.



(** ** io_board.py: three attempts, then the failure pair *)




(** ** Which exceptions a computation can raise *)

Lemma never_raises_raises_only {A} (P : exn → Prop) (m : M A) :
  never_raises m → raises_only P m.
Proof.
  intros Hm w e w' Hrun. destruct (Hm w) as (a & w'' & Hret). congruence.
Qed.

Lemma never_raises_ret {A} (a : A) : never_raises (mret a).
Proof. intros w. by exists a, w. Qed.

Lemma never_raises_logger lvl msg : never_raises (logger lvl msg).
Proof. intros w. by eexists _, _. Qed.

Lemma never_raises_sleep d : (0 <= d)%Q → never_raises (time_sleep d).
Proof.
  intros Hd%Qle_bool_iff w. unfold time_sleep. rewrite Hd. by eexists _, _.
Qed.

(** [time.sleep] raises only on a negative length, and then [ValueError]. *)
Lemma raises_only_sleep d :
  raises_only (λ e, e = ValueError ∧ ¬ (0 <= d)%Q) (time_sleep d).
Proof.
  intros w e w' Hrun. unfold time_sleep in Hrun.
  destruct (Qle_bool 0 d) eqn:Hd; [done|].
  injection Hrun as <- _. split; [done|].
  intros Hle%Qle_bool_iff. congruence.
Qed.

Lemma never_raises_bind {A B} (m : M A) (f : A → M B) :
  never_raises m → (∀ a, never_raises (f a)) → never_raises (m ≫= f).
Proof.
  intros Hm Hf w. destruct (Hm w) as (a & w1 & Hrun).
  destruct (Hf a w1) as (b & w2 & Hrun2). exists b, w2.
  cbv [mbind M_bind]. by rewrite Hrun.
Qed.

Lemma raises_only_bind {A B} (P : exn → Prop) (m : M A) (f : A → M B) :
  raises_only P m → (∀ a, raises_only P (f a)) → raises_only P (m ≫= f).
Proof.
  intros Hm Hf w e w' Hrun. cbv [mbind M_bind] in Hrun.
  destruct (m w) as [[a|e1] w1] eqn:Hmw.
  - by apply (Hf a w1 e w').
  - injection Hrun as <- <-. by apply (Hm w e1 w1).
Qed.

Lemma raises_only_lift {A} (P : exn → Prop) (r : result A) :
  (∀ e, r = Raise e → P e) → raises_only P (lift r).
Proof. intros Hr w e w' [= Hrun _]. by apply Hr. Qed.

(** A [try] whose handlers cover whatever the body raises, and return. *)
Lemma never_raises_try {A} (P : exn → Prop) (body : M A)
    (handler : exn → option (M A)) :
  raises_only P body →
  (∀ e, P e → ∃ h, handler e = Some h ∧ never_raises h) →
  never_raises (try_exceptM body handler).
Proof.
  intros Hbody Hhandler w. unfold try_exceptM.
  destruct (body w) as [[a|e] w1] eqn:Hrun.
  - by exists a, w1.
  - destruct (Hhandler e (Hbody w e w1 Hrun)) as (h & -> & Hh). apply Hh.
Qed.

(** ** protocol.py: what [parse] raises *)

Lemma check_lrc_raises (raw : bytes) (p : nat) (e : exn) :
  Frame.check_lrc raw (Z.of_nat p) = Raise e → is_IOBoardError e = true.
Proof.
  unfold Frame.check_lrc. cbv zeta. case_bool_decide as Hp.
  - destruct (py_index_in_range raw (Z.of_nat p + 1)) as (x & _ & ->); [lia|].
    rsimpl. case_bool_decide; [|done]. by intros [= <-].
  - rsimpl. case_bool_decide; [|done]. by intros [= <-].
Qed.

Lemma parse_raises (raw : bytes) (validate_lrc : bool) (e : exn) :
  Frame.parse raw validate_lrc = Raise e → is_IOBoardError e = true.
Proof.
  destruct (decide (length raw < 7)%nat) as [Hshort|Hlen].
  { rewrite parse_too_short by done. by intros [= <-]. }
  destruct (lookup_lt_is_Some_2 raw 0) as [b0 Hb0]; [lia|].
  destruct (decide (b0 = STX)) as [->|Hstx].
  2:{ rewrite (parse_bad_start raw validate_lrc b0) by (done || lia).
      by intros [= <-]. }
  rewrite parse_unfold by (done || lia).
  destruct (etx_window_cases raw) as [Hnone|[p Hp]]; [lia| |].
  { rewrite locate_etx_not_found by (done || lia). by intros [= <-]. }
  rewrite (locate_etx_found raw p) by (done || lia). rsimpl.
  destruct (if validate_lrc then _ else _) as [[]|e1] eqn:Hcheck.
  2:{ intros [= <-]. destruct validate_lrc; [|done].
      by apply (check_lrc_raises raw p). }
  destruct (Command_of_value _) as [c|e1] eqn:Hc; cbn [try_except].
  2:{ apply enum_of_value_raises in Hc as ->. by intros [= <-]. }
  destruct (SubCommand_of_value _) as [s|e1] eqn:Hs; cbn [try_except].
  2:{ apply enum_of_value_raises in Hs as ->. by intros [= <-]. }
  done.
Qed.

(** ** serial_comm.py: what [send] and [receive_until_etx] raise *)

Lemma send_raises (tx : bytes) :
  raises_only timeout_or_communication (SerialConnection.send tx).
Proof.
  intros w e w' Hrun.
  destruct (serial w) as [s|] eqn:Hs; [destruct (is_open s) eqn:Hopen|].
  - rewrite send_spec in Hrun by (by exists s). injection Hrun as Hres _.
    destruct (next_send w tx); simplify_eq/=; [left|right]; eauto.
  - unfold SerialConnection.send, SerialConnection.is_connected in Hrun.
    cbv [mbind M_bind] in Hrun. rewrite Hs, Hopen in Hrun.
    injection Hrun as <- _. right. eauto.
  - unfold SerialConnection.send, SerialConnection.is_connected in Hrun.
    cbv [mbind M_bind] in Hrun. rewrite Hs in Hrun.
    injection Hrun as <- _. right. eauto.
Qed.

(** The receive loop leaves the port object alone and raises only the
    timeout of an empty read or the port's own exception. *)
Lemma receive_loop_outcome (fuel : nat) :
  ∀ (data : bytes) (etx_received : bool) (w : World),
    ∃ r w', SerialConnection.receive_loop fuel data etx_received w = (r, w')
            ∧ serial w' = serial w
            ∧ ∀ e, r = Raise e →
                (∃ msg, e = TimeoutError msg) ∨ (∃ msg, e = SerialException msg).
Proof.
  induction fuel as [|fuel IH]; intros data etx_received w.
  - eexists _, _. split; [reflexivity|]. split; [done|]. by intros e [=].
  - cbn [SerialConnection.receive_loop]. case_bool_decide as Hroom.
    2:{ eexists _, _. split; [reflexivity|]. split; [done|]. by intros e [=]. }
    cbv [mbind M_bind]. unfold serial_read.
    destruct (on_read (device w) (reads_done w)) as [b| |msg].
    + rewrite bool_decide_eq_false_2 by done.
      rewrite (py_index_0 [b] b eq_refl). unfold lift. cbv beta iota.
      case_bool_decide.
      * destruct (IH (data ++ [b]) true (tick_read (add_event (Read 1) w)))
          as (r & w' & -> & Hser & Hr).
        eexists _, _. split; [reflexivity|]. split; [exact Hser|exact Hr].
      * destruct etx_received.
        -- eexists _, _. split; [reflexivity|]. split; [done|]. by intros e [=].
        -- destruct (IH (data ++ [b]) false (tick_read (add_event (Read 1) w)))
             as (r & w' & -> & Hser & Hr).
           eexists _, _. split; [reflexivity|]. split; [exact Hser|exact Hr].
    + rewrite bool_decide_eq_true_2 by done. case_bool_decide.
      * eexists _, _. split; [reflexivity|]. split; [done|].
        intros e [= <-]. left. eauto.
      * eexists _, _. split; [reflexivity|]. split; [done|]. by intros e [=].
    + eexists _, _. split; [reflexivity|]. split; [done|].
      intros e [= <-]. right. eauto.
Qed.

#[local] Opaque SerialConnection.receive_loop.

Lemma receive_until_etx_raises (t : option seconds) :
  raises_only timeout_or_communication (SerialConnection.receive_until_etx t).
Proof.
  intros w e w' Hrun.
  unfold SerialConnection.receive_until_etx, SerialConnection.is_connected in Hrun.
  cbv [mbind M_bind] in Hrun.
  destruct (serial w) as [s|] eqn:Hs; [destruct (is_open s) eqn:Hopen|];
    cbn [negb] in Hrun.
  2,3: injection Hrun as <- _; right; eauto.
  unfold serial_get_timeout in Hrun. rewrite Hs in Hrun.
  set (w0 := match t with Some t0 => serial_set_timeout t0 | None => mret () end w)
    in Hrun.
  assert (∃ w1 s1, w0 = (Return (), w1) ∧ serial w1 = Some s1) as (w1 & s1 & Hw0 & Hs1).
  { subst w0. destruct t as [t0|].
    - unfold serial_set_timeout. rewrite Hs. by eexists _, _.
    - by exists w, s. }
  rewrite Hw0 in Hrun. clear w0 Hw0.
  unfold try_finally, try_exceptM in Hrun. cbv [mbind M_bind] in Hrun.
  destruct (receive_loop_outcome SerialConnection.max_buffer_size [] false w1)
    as (r & w2 & Hloop & Hser & Hr).
  rewrite Hloop in Hrun.
  destruct r as [data|e1].
  - (* the loop returned: only logging is left, then the cleanup *)
    unfold logger, modify, serial_set_timeout in Hrun. cbv [mret M_ret] in Hrun.
    destruct (bool_decide (length data < SerialConnection.min_frame_size)%nat);
      (destruct data as [|b0 data']; [|destruct (bool_decide (b0 ≠ 2))]);
      cbn [serial add_log] in Hrun; rewrite Hser, Hs1 in Hrun; discriminate Hrun.
  - destruct (Hr e1 eq_refl) as [[msg ->]|[msg ->]].
    + unfold serial_set_timeout in Hrun. rewrite Hser, Hs1 in Hrun.
      injection Hrun as <- _. left. eauto.
    + unfold raise, serial_set_timeout in Hrun. cbn [serial] in Hrun.
      rewrite Hser, Hs1 in Hrun. injection Hrun as <- _. right. eauto.
Qed.

#[local] Transparent SerialConnection.receive_loop.

(** ** io_board.py: what [send_command] raises *)

(** What the body of the [try] of an attempt does with exceptions: none
    leaves it. *)
Lemma attempt_try_never_raises (self : IOBoard.t) (subcommand : SubCommand)
    (tx : bytes) (timeout : option seconds)
    (handler : exn → option (M (bytes + option exn))) :
  (∀ e, timeout_or_communication e → ∃ h, handler e = Some h ∧ never_raises h) →
  never_raises
    (try_exceptM
       (SerialConnection.send tx;;
        rx_data ← SerialConnection.receive_until_etx
                    (Some (default (IOBoard.timeout self) timeout));
        try_exceptM
          ('(frame, response_data) ←
             lift (Frame.parse rx_data (IOBoard.validate_lrc self));
           (if bool_decide (Frame.subcommand frame ≠ subcommand)
            then logger WARNING
                   (LogSubcommandMismatch subcommand (Frame.subcommand frame))
            else mret ());;
           logger DEBUG (LogResponse response_data);;
           mret (inl response_data))
          (λ e, if is_IOBoardError e
                then Some (logger WARNING (LogFrameParseError e);;
                           mret (inr (Some e)))
                else None))
       handler).
Proof.
  intros Hhandler. apply (never_raises_try timeout_or_communication); [|exact Hhandler].
  apply raises_only_bind; [apply send_raises|]. intros _.
  apply raises_only_bind; [apply receive_until_etx_raises|]. intros rx_data.
  apply never_raises_raises_only.
  apply (never_raises_try (λ e, is_IOBoardError e = true)).
  - apply raises_only_bind; [apply raises_only_lift, parse_raises|].
    intros [frame response_data]. apply never_raises_raises_only.
    apply never_raises_bind.
    { case_bool_decide; [apply never_raises_logger|apply never_raises_ret]. }
    intros _. apply never_raises_bind; [apply never_raises_logger|].
    intros _. apply never_raises_ret.
  - intros e ->. eexists. split; [reflexivity|].
    apply never_raises_bind; [apply never_raises_logger|].
    intros _. apply never_raises_ret.
Qed.

(** The only exception that leaves an attempt is the [ValueError] of
    [time.sleep], raised for a negative [retry_delay]. *)
Lemma attempt_body_raises (self : IOBoard.t) (subcommand : SubCommand)
    (tx : bytes) (timeout : option seconds) (attempt : Z) :
  raises_only (λ e, e = ValueError ∧ ¬ (0 <= IOBoard.retry_delay self)%Q)
    (IOBoard.attempt_body self subcommand tx timeout attempt).
Proof.
  unfold IOBoard.attempt_body. apply raises_only_bind.
  - apply never_raises_raises_only, attempt_try_never_raises.
    intros e [[msg ->]|[msg ->]]; (eexists; split; [reflexivity|]);
      (apply never_raises_bind; [apply never_raises_logger|]);
      intros _; apply never_raises_ret.
  - intros [response_data|last_error];
      [apply never_raises_raises_only, never_raises_ret|].
    apply raises_only_bind;
      [|intros _; apply never_raises_raises_only, never_raises_ret].
    case_bool_decide;
      [apply raises_only_sleep|apply never_raises_raises_only, never_raises_ret].
Qed.

Lemma never_raises_from_raises_only {A} (P : exn → Prop) (m : M A) :
  raises_only P m → (∀ e, ¬ P e) → never_raises m.
Proof.
  intros Hm HP w. destruct (m w) as [[a|e] w'] eqn:Hrun; [by eexists _, _|].
  by destruct (HP e (Hm w e w' Hrun)).
Qed.

Lemma attempt_body_never_raises (self : IOBoard.t) (subcommand : SubCommand)
    (tx : bytes) (timeout : option seconds) (attempt : Z) :
  (0 <= IOBoard.retry_delay self)%Q →
  never_raises (IOBoard.attempt_body self subcommand tx timeout attempt).
Proof.
  intros Hdelay. eapply never_raises_from_raises_only; [apply attempt_body_raises|].
  by intros e [_ Hneg].
Qed.






(** ** deadbolt.py *)

Lemma door_status_map_get (b : Z) :
  dict_get DOOR_STATUS_MAP b DOOR_UNKNOWN = door_of_byte b.
Proof.
  unfold dict_get, DOOR_STATUS_MAP, door_of_byte. cbn [find fst snd].
  repeat case_bool_decide; done.
Qed.

Lemma lock_status_map_get (b : Z) :
  dict_get LOCK_STATUS_MAP b LOCK_UNKNOWN = lock_of_byte b.
Proof.
  unfold dict_get, LOCK_STATUS_MAP, lock_of_byte. cbn [find fst snd].
  repeat case_bool_decide; done.
Qed.

(** The [try] body of [get_status] returns whenever bytes 0 and 6 exist; it
    only logs. *)
Lemma get_status_try_returns (data : bytes) (b0 b6 : Z) (w : World) :
  data !! 0%nat = Some b0 → data !! 6%nat = Some b6 →
  ∃ logs,
    DeadBolt.get_status_try data w
    = (Return (door_of_byte b0, lock_of_byte b6), extend w 0 0 [] logs).
Proof.
  intros H0 H6. unfold DeadBolt.get_status_try.
  rewrite (py_index_0 data b0 H0), (py_index_Z data 6 b6 ltac:(lia) H6).
  unfold lift, logger, modify. cbv [mbind M_bind mret M_ret].
  rewrite door_status_map_get.
  exists ((if bool_decide (door_of_byte b0 = DOOR_UNKNOWN)
           then [(WARNING, LogUnknownDoorByte b0)] else [])
          ++ (if bool_decide (lock_of_byte b6 = LOCK_UNKNOWN)
              then [(WARNING, LogUnknownLockByte b6)] else [])
          ++ [(INFO, LogDoorLock (DoorStatus_value (door_of_byte b0))
                                 (LockStatus_value (lock_of_byte b6)))]).
  destruct w as [d ser nw nr tr lg cs].
  destruct (bool_decide (door_of_byte b0 = DOOR_UNKNOWN));
    rewrite lock_status_map_get;
    destruct (bool_decide (lock_of_byte b6 = LOCK_UNKNOWN));
    world_simpl; f_equal;
    apply Build_World_eq; rewrite <- ?app_assoc, ?app_nil_r; done || lia.
Qed.

Lemma get_status_long (T : Type) `{Dispatcher T} (io : T) (w w1 : World)
    (data : bytes) (b0 b6 : Z) :
  send_command io RQ ID [] None w = (Return (true, data), w1) →
  data !! 0%nat = Some b0 → data !! 6%nat = Some b6 →
  ∃ logs,
    DeadBolt.get_status io w
    = (Return (door_of_byte b0, lock_of_byte b6), extend w1 0 0 [] logs).
Proof.
  intros Hsend H0 H6. unfold DeadBolt.get_status. cbv [mbind M_bind].
  rewrite Hsend. cbn [negb].
  rewrite bool_decide_eq_false_2
    by (apply lookup_lt_Some in H6; unfold DeadBolt.MIN_RESPONSE_LENGTH; lia).
  destruct (get_status_try_returns data b0 b6 w1 H0 H6) as [logs Htry].
  exists logs. unfold try_exceptM. by rewrite Htry.
Qed.

Lemma get_status_short (T : Type) `{Dispatcher T} (io : T) (w w1 : World)
    (data : bytes) :
  send_command io RQ ID [] None w = (Return (true, data), w1) →
  (length data < 7)%nat →
  DeadBolt.get_status io w
  = (Return (DOOR_UNKNOWN, LOCK_UNKNOWN),
     add_log (WARNING, LogShortResponse (length data) data) w1).
Proof.
  intros Hsend Hlen. unfold DeadBolt.get_status. cbv [mbind M_bind].
  rewrite Hsend. cbn [negb].
  by rewrite bool_decide_eq_true_2 by (unfold DeadBolt.MIN_RESPONSE_LENGTH; lia).
Qed.

Lemma get_status_failed (T : Type) `{Dispatcher T} (io : T) (w w1 : World)
    (data : bytes) :
  send_command io RQ ID [] None w = (Return (false, data), w1) →
  DeadBolt.get_status io w
  = (Return (DOOR_UNKNOWN, LOCK_UNKNOWN), add_log (ERROR, LogDoorQueryFailed) w1).
Proof.
  intros Hsend. unfold DeadBolt.get_status. cbv [mbind M_bind].
  by rewrite Hsend.
Qed.

(** C6. Given a successful dispatch, [get_status] maps payload byte 0 to the
    door state ('O' Opened, 'C' Closed, else Unknown) and payload byte 6 to
    the lock state ('L' Locked, 'U' Unlocked, else Unknown); the payloads
    "O     U     " and "C     L     " give (Opened, Unlocked) and (Closed,
    Locked), and a payload shorter than 7 bytes gives (Unknown, Unknown)
    without raising. *)
Theorem get_status_decodes (T : Type) `{Dispatcher T} (io : T) (w w1 : World)
    (data : bytes) :
  send_command io RQ ID [] None w = (Return (true, data), w1) →
  (∀ b0 b6, data !! 0%nat = Some b0 → data !! 6%nat = Some b6 →
     ∃ w2, DeadBolt.get_status io w
           = (Return (door_of_byte b0, lock_of_byte b6), w2))
  ∧ (data = bytes_of "O     U     " →
     ∃ w2, DeadBolt.get_status io w = (Return (OPENED, UNLOCKED), w2))
  ∧ (data = bytes_of "C     L     " →
     ∃ w2, DeadBolt.get_status io w = (Return (CLOSED, LOCKED), w2))
  ∧ ((length data < 7)%nat →
     ∃ w2, DeadBolt.get_status io w = (Return (DOOR_UNKNOWN, LOCK_UNKNOWN), w2)).
Proof.
  intros Hsend. split; [|split; [|split]].
  - intros b0 b6 H0 H6.
    destruct (get_status_long T io w w1 data b0 b6 Hsend H0 H6) as [logs Hrun].
    eauto.
  - intros ->.
    destruct (get_status_long T io w w1 _ 0x4F 0x55 Hsend eq_refl eq_refl)
      as [logs Hrun].
    eauto.
  - intros ->.
    destruct (get_status_long T io w w1 _ 0x43 0x4C Hsend eq_refl eq_refl)
      as [logs Hrun].
    eauto.
  - intros Hlen. rewrite (get_status_short T io w w1 data Hsend Hlen). eauto.
Qed.

(** The same query end to end: the board, its port and a device that
    answers the RQ/ID frame with the status payload. *)
Example get_status_end_to_end :
  (DeadBolt.get_status default_board
     (opened (scripted_device
                (build_command_frame RQ ID (bytes_of "C     L     "))))).1
  = Return (CLOSED, LOCKED).
Proof. vm_compute. reflexivity. Qed.

(** The test suite's successful status query: a mock dispatcher returning
    the payload "O     U     ". *)
Lemma get_status_decodes_witness :
  ∃ w2, DeadBolt.get_status {| return_value := (true, bytes_of "O     U     ") |}
          (opened mute_device)
        = (Return (OPENED, UNLOCKED), w2).
Proof.
  destruct (get_status_decodes MagicMock
              {| return_value := (true, bytes_of "O     U     ") |}
              (opened mute_device) _ (bytes_of "O     U     ") eq_refl)
    as (_ & Hopen & _).
  apply Hopen. reflexivity.
Defined.





(** ** system.py *)

Lemma is_ascii_take (n : nat) (s : list Z) :
  is_ascii s = true → is_ascii (take n s) = true.
Proof.
  unfold is_ascii. rewrite !forallb_forall. intros Hall x Hx.
  apply Hall. apply list_elem_of_In. apply list_elem_of_In in Hx.
  by apply (subseteq_take n s).
Qed.

Lemma get_info_success (T : Type) `{Dispatcher T} (io : T) (w w1 : World)
    (data : bytes) :
  send_command io RQ MI [] None w = (Return (true, data), w1) →
  is_ascii (take 11 data) = true →
  SystemManager.get_info io w
  = (Return {| SystemManager.production_number := py_strip (take 11 data);
               SystemManager.raw := data |},
     add_log (INFO, LogSystemInfo (py_strip (take 11 data))) w1).
Proof.
  intros Hsend Hascii. unfold SystemManager.get_info. cbv [mbind M_bind].
  rewrite Hsend. cbn [negb]. unfold try_exceptM, PRODUCTION_NUMBER_LENGTH.
  change 11 with (Z.of_nat 11). rewrite py_slice_to_nat.
  unfold decode_ascii. rewrite Hascii. done.
Qed.

(** C8, as the code has it: on a successful dispatch whose payload is ASCII,
    [get_info] returns the first 11 payload bytes decoded as ASCII with the
    whitespace stripped at both ends as the production number, and the full
    payload as [raw]. *)
Theorem get_info_production_number (T : Type) `{Dispatcher T} (io : T)
    (w w1 : World) (data : bytes) :
  send_command io RQ MI [] None w = (Return (true, data), w1) →
  is_ascii data = true →
  ∃ w2,
    SystemManager.get_info io w
    = (Return {| SystemManager.production_number :=
                   py_strip (py_slice_to data 11);
                 SystemManager.raw := data |}, w2).
Proof.
  intros Hsend Hascii. eexists.
  change 11 with (Z.of_nat 11). rewrite py_slice_to_nat.
  apply (get_info_success T io w w1 data Hsend). by apply is_ascii_take.
Qed.

(** The test suite's padded production number. *)
Lemma get_info_production_number_witness :
  ∃ w2,
    SystemManager.get_info {| return_value := (true, bytes_of "TEST       ") |}
      (opened mute_device)
    = (Return {| SystemManager.production_number := bytes_of "TEST";
                 SystemManager.raw := bytes_of "TEST       " |}, w2).
Proof.
  apply (get_info_production_number MagicMock
           {| return_value := (true, bytes_of "TEST       ") |}
           (opened mute_device) _ (bytes_of "TEST       ") eq_refl eq_refl).
Defined.

(** C8 as stated fails: leading whitespace is not preserved.  For the ASCII
    payload " AB" the production number is "AB", not the right-trimmed
    " AB". *)
Lemma get_info_rstrip_counterexample :
  ¬ (∀ (io : MagicMock) (w w1 : World) (data : bytes),
       send_command io RQ MI [] None w = (Return (true, data), w1) →
       is_ascii data = true →
       ∃ w2,
         SystemManager.get_info io w
         = (Return {| SystemManager.production_number :=
                        py_rstrip (py_slice_to data 11);
                      SystemManager.raw := data |}, w2)).
Proof.
  intros Hclaim.
  destruct (Hclaim {| return_value := (true, bytes_of " AB") |}
              (opened mute_device) _ (bytes_of " AB") eq_refl eq_refl)
    as [w2 Hrun].
  vm_compute in Hrun. discriminate Hrun.
Qed.

Lemma set_production_number_rejects (T : Type) `{Dispatcher T} (io : T)
    (w : World) (number : pystr) :
  number = [] ∨ is_ascii number = false →
  ∃ record,
    SystemManager.set_production_number io number w
    = (Return false, add_log record w).
Proof.
  intros Hbad. unfold SystemManager.set_production_number.
  case_bool_decide as Hempty.
  - by eexists.
  - destruct Hbad as [?|Hascii]; [done|].
    unfold encode_ascii. rewrite Hascii. by eexists.
Qed.

Lemma set_production_number_dispatches (T : Type) `{Dispatcher T} (io : T)
    (w w1 : World) (number : pystr) (r : result (bool * bytes)) :
  number ≠ [] → is_ascii number = true →
  send_command io MC WP number None w = (r, w1) →
  SystemManager.set_production_number io number w
  = match r with
    | Return (success, _) =>
        (Return success,
         add_log (if success then (INFO, LogProductionNumberSet number)
                  else (ERROR, LogSetProductionNumberFailed)) w1)
    | Raise e => (Raise e, w1)
    end.
Proof.
  intros Hne Hascii Hsend. unfold SystemManager.set_production_number.
  rewrite bool_decide_eq_false_2 by done.
  unfold encode_ascii. rewrite Hascii. cbv [mbind M_bind]. rewrite Hsend.
  destruct r as [[[] response]|e]; done.
Qed.

(** C9. [set_production_number] with an empty string, or with a string that
    holds a non-ASCII character, returns [False] without invoking the
    dispatcher: whatever the dispatcher is, the world changes by one log
    record only, so nothing is sent, received or dispatched.  For a
    non-empty ASCII string it dispatches exactly one MC/WP command whose
    payload is the ASCII encoding of the string. *)
Theorem set_production_number_dispatch (T : Type) `{Dispatcher T} (io : T)
    (w : World) (number : pystr) :
  (number = [] ∨ is_ascii number = false →
   ∃ w', SystemManager.set_production_number io number w = (Return false, w')
         ∧ trace w' = trace w ∧ calls w' = calls w
         ∧ writes_done w' = writes_done w ∧ reads_done w' = reads_done w)
  ∧ (number ≠ [] → is_ascii number = true →
     encode_ascii number = Return number
     ∧ (∀ r w1, send_command io MC WP number None w = (r, w1) →
          SystemManager.set_production_number io number w
          = match r with
            | Return (success, _) =>
                (Return success,
                 add_log (if success then (INFO, LogProductionNumberSet number)
                          else (ERROR, LogSetProductionNumberFailed)) w1)
            | Raise e => (Raise e, w1)
            end)
     ∧ (∀ mock : MagicMock,
          ∃ w', SystemManager.set_production_number mock number w
                = (Return (return_value mock).1, w')
                ∧ calls w' = calls w ++ [(MC, WP, number, None)]
                ∧ trace w' = trace w)).
Proof.
  split.
  - intros Hbad.
    destruct (set_production_number_rejects T io w number Hbad) as [record Hrun].
    eexists. split; [exact Hrun|]. done.
  - intros Hne Hascii. split; [|split].
    + unfold encode_ascii. by rewrite Hascii.
    + intros r w1 Hsend. by apply set_production_number_dispatches.
    + intros mock.
      rewrite (set_production_number_dispatches MagicMock mock w _ number
                 (Return (return_value mock)) Hne Hascii eq_refl).
      destruct (return_value mock) as [success response].
      eexists. split; [reflexivity|]. done.
Qed.

(** The empty string against the real board: nothing reaches the port.  A
    production number against the mock of the test suite: one recorded
    call. *)
Lemma set_production_number_dispatch_witness :
  (∃ w', SystemManager.set_production_number default_board []
           (opened mute_device) = (Return false, w')
         ∧ trace w' = [])
  ∧ (∃ w', SystemManager.set_production_number
             {| return_value := (true, []) |} (bytes_of "NEWPROD1234")
             (opened mute_device) = (Return true, w')
           ∧ calls w' = [(MC, WP, bytes_of "NEWPROD1234", None)]).
Proof.
  split.
  - destruct (set_production_number_dispatch IOBoard.t default_board
                (opened mute_device) []) as [Hreject _].
    destruct Hreject as (w' & Hrun & Htrace & _); [by left|].
    exists w'. split; [exact Hrun|exact Htrace].
  - destruct (set_production_number_dispatch IOBoard.t default_board
                (opened mute_device) (bytes_of "NEWPROD1234")) as [_ Hsend].
    destruct Hsend as (_ & _ & Hmock); [done|reflexivity|].
    destruct (Hmock {| return_value := (true, []) |}) as (w' & Hrun & Hcalls & _).
    exists w'. split; [exact Hrun|exact Hcalls].
Defined.

(** ** loadcell.py *)

(** Closes the equation of a run with the world it leaves. *)
Ltac world_eq :=
  world_simpl; f_equal; apply Build_World_eq;
  rewrite ?app_nil_r, <- ?app_assoc; (reflexivity || lia).

Section loadcell_facts.
Context {float : Type} (float_zero : float) (py_float : pystr → option float).

Lemma field_reading_channel (data : bytes) (ch : Z) :
  LoadCell.channel (field_reading float_zero py_float data ch) = ch + 1.
Proof. unfold field_reading. cbv zeta. by case_bool_decide. Qed.

Lemma read_channel_body_spec (data : bytes) (ch : Z) (w : World) :
  ∃ logs,
    LoadCell.read_channel_body float_zero py_float data ch w
    = (Return (field_reading float_zero py_float data ch), extend w 0 0 [] logs).
Proof.
  unfold LoadCell.read_channel_body, field_reading, try_exceptM.
  unfold BYTES_PER_CHANNEL. cbv zeta.
  destruct w as [d ser nw nr tr lg cs].
  case_bool_decide as Hempty.
  - eexists [_]. unfold logger, modify. cbv [mbind M_bind mret M_ret].
    world_eq.
  - destruct (py_float _) as [v|]; unfold logger, modify;
      cbv [mbind M_bind mret M_ret]; cbn [default].
    + exists []. world_eq.
    + eexists [_]. world_eq.
Qed.

Lemma read_channels_spec (data : bytes) (chs : list Z) :
  ∀ (readings : list LoadCell.LoadCellReading) (w : World),
    ∃ logs,
      LoadCell.read_channels float_zero py_float data chs readings w
      = (Return (readings ++ map (field_reading float_zero py_float data) chs), extend w 0 0 [] logs).
Proof.
  induction chs as [|ch chs IH]; intros readings w.
  - exists []. cbn [LoadCell.read_channels map]. cbv [mret M_ret].
    by rewrite app_nil_r, extend_id.
  - cbn [LoadCell.read_channels map]. cbv [mbind M_bind].
    destruct (read_channel_body_spec data ch w) as [logs1 ->].
    destruct (IH (readings ++ [field_reading float_zero py_float data ch]) (extend w 0 0 [] logs1))
      as [logs2 ->].
    exists (logs1 ++ logs2). by rewrite extend_extend, <- app_assoc.
Qed.

Lemma field_reading_beyond (data : bytes) (ch : Z) :
  0 ≤ ch → Z.of_nat (length data) ≤ 6 * ch →
  field_reading float_zero py_float data ch = default_reading float_zero ch.
Proof.
  intros Hch Hlen. unfold field_reading, default_reading.
  assert (py_slice data (ch * 6) (ch * 6 + 6) = []) as ->.
  { unfold py_slice, slice_bound.
    rewrite !bool_decide_eq_false_2 by lia.
    rewrite !Nat.min_r by lia. by rewrite Nat.sub_diag, take_0. }
  done.
Qed.

Lemma read_all_success (T : Type) `{Dispatcher T} (io : T) (self : LoadCell.t)
    (w w1 : World) (data : bytes) :
  send_command io RQ IW [] None w = (Return (true, data), w1) →
  ∃ w2,
    LoadCell.read_all float_zero py_float io self w
    = (Return (map (field_reading float_zero py_float data) (py_range 10),
               {| LoadCell._last_readings :=
                    Some (map (field_reading float_zero py_float data) (py_range 10)) |}), w2)
    ∧ trace w2 = trace w1.
Proof.
  intros Hsend. unfold LoadCell.read_all. cbv [mbind M_bind].
  rewrite Hsend. cbn [negb]. unfold NUM_CHANNELS.
  destruct (bool_decide (Z.of_nat (length data) < TOTAL_DATA_BYTES));
    unfold logger, modify; cbv [mret M_ret];
    match goal with
    | |- context [LoadCell.read_channels _ _ _ _ _ ?w'] =>
        destruct (read_channels_spec data (py_range 10) [] w') as [logs ->]
    end;
    (eexists; split; [reflexivity|]);
    cbn [trace add_log extend]; by rewrite !app_nil_r.
Qed.

Lemma read_all_failure (T : Type) `{Dispatcher T} (io : T) (self : LoadCell.t)
    (w w1 : World) (data : bytes) :
  send_command io RQ IW [] None w = (Return (false, data), w1) →
  LoadCell.read_all float_zero py_float io self w
  = (Return ([], self), add_log (ERROR, LogWeightQueryFailed) w1).
Proof.
  intros Hsend. unfold LoadCell.read_all. cbv [mbind M_bind]. by rewrite Hsend.
Qed.

(** C3, as the code has it: every call to [read_all] whose dispatch succeeds
    returns exactly 10 readings with channel numbers 1..10 in order, each the
    decoding of its 6-byte field; a channel whose field lies beyond the data
    of the payload is reported with value 0.0 and raw "" (so a 30-byte payload
    yields its first 5 channels parsed and the last 5 defaulted).  A call
    whose dispatch fails returns the empty list. *)
Theorem read_all_ten_readings (T : Type) `{Dispatcher T} (io : T)
    (self : LoadCell.t) (w w1 : World) (success : bool) (data : bytes) :
  send_command io RQ IW [] None w = (Return (success, data), w1) →
  ∃ readings self' w2,
    LoadCell.read_all float_zero py_float io self w = (Return (readings, self'), w2)
    ∧ (success = false → readings = [])
    ∧ (success = true →
       length readings = 10%nat
       ∧ map LoadCell.channel readings = [1; 2; 3; 4; 5; 6; 7; 8; 9; 10]
       ∧ (∀ ch : nat, (ch < 10)%nat →
            readings !! ch = Some (field_reading float_zero py_float data (Z.of_nat ch)))
       ∧ (∀ ch : nat, (ch < 10)%nat → (length data ≤ 6 * ch)%nat →
            readings !! ch = Some (default_reading float_zero (Z.of_nat ch)))
       ∧ (length data = 30%nat →
          readings = map (field_reading float_zero py_float data) [0; 1; 2; 3; 4]
                     ++ map (default_reading float_zero) [5; 6; 7; 8; 9])).
Proof.
  intros Hsend. destruct success.
  - destruct (read_all_success T io self w w1 data Hsend) as (w2 & Hrun & _).
    eexists _, _, _. split; [exact Hrun|]. split; [done|]. intros _.
    assert (∀ ch : nat, (ch < 10)%nat →
              map (field_reading float_zero py_float data) (py_range 10) !! ch
              = Some (field_reading float_zero py_float data (Z.of_nat ch))) as Hnth.
    { intros ch Hch. rewrite list_lookup_fmap.
      change (py_range 10) with (map Z.of_nat (seq 0 10)).
      rewrite list_lookup_fmap, lookup_seq_lt by done. done. }
    split; [|split; [|split; [|split]]].
    + by rewrite length_map.
    + rewrite map_map.
      rewrite (map_ext _ (λ ch, ch + 1) (field_reading_channel data)).
      reflexivity.
    + exact Hnth.
    + intros ch Hch Hlen. rewrite Hnth by done.
      by rewrite field_reading_beyond by lia.
    + intros Hlen.
      change (py_range 10) with ([0; 1; 2; 3; 4] ++ [5; 6; 7; 8; 9]).
      rewrite map_app. f_equal. cbn [map].
      by rewrite !field_reading_beyond by lia.
  - rewrite (read_all_failure T io self w w1 data Hsend).
    eexists _, _, _. split; [reflexivity|]. split; [done|]. intros [=].
Qed.

End loadcell_facts.

(** The test suite's incomplete payload: 30 bytes, five channels. *)
Lemma read_all_ten_readings_witness :
  ∃ self' w2,
    LoadCell.read_all 0 digits_float
      {| return_value := (true, bytes_of "000100000100000100000100000100") |}
      {| LoadCell._last_readings := None |} (opened mute_device)
    = (Return
         ([ {| LoadCell.channel := 1; LoadCell.value := 100; LoadCell.raw := bytes_of "000100" |};
            {| LoadCell.channel := 2; LoadCell.value := 100; LoadCell.raw := bytes_of "000100" |};
            {| LoadCell.channel := 3; LoadCell.value := 100; LoadCell.raw := bytes_of "000100" |};
            {| LoadCell.channel := 4; LoadCell.value := 100; LoadCell.raw := bytes_of "000100" |};
            {| LoadCell.channel := 5; LoadCell.value := 100; LoadCell.raw := bytes_of "000100" |};
            {| LoadCell.channel := 6; LoadCell.value := 0; LoadCell.raw := [] |};
            {| LoadCell.channel := 7; LoadCell.value := 0; LoadCell.raw := [] |};
            {| LoadCell.channel := 8; LoadCell.value := 0; LoadCell.raw := [] |};
            {| LoadCell.channel := 9; LoadCell.value := 0; LoadCell.raw := [] |};
            {| LoadCell.channel := 10; LoadCell.value := 0; LoadCell.raw := [] |} ],
          self'), w2).
Proof.
  destruct (read_all_ten_readings 0 digits_float MagicMock
              {| return_value := (true, bytes_of "000100000100000100000100000100") |}
              {| LoadCell._last_readings := None |} (opened mute_device) _
              true (bytes_of "000100000100000100000100000100") eq_refl)
    as (readings & self' & w2 & Hrun & _ & Hten).
  destruct (Hten eq_refl) as (_ & _ & _ & _ & Hthirty).
  exists self', w2. rewrite Hrun. rewrite (Hthirty eq_refl). reflexivity.
Defined.

(** Ten fields "000100" .. "001000" in steps of 100, end to end: channels
    1..10 read 100, 200, .., 1000. *)
Example read_all_end_to_end :
  (λ r, match r with
        | Return (readings, _) => map LoadCell.value readings
        | Raise _ => []
        end)
    (LoadCell.read_all 0 digits_float default_board
       {| LoadCell._last_readings := None |}
       (opened (scripted_device
                  (build_command_frame RQ IW
                     (bytes_of "000100000200000300000400000500000600000700000800000900001000"))))).1
  = [100; 200; 300; 400; 500; 600; 700; 800; 900; 1000].
Proof. vm_compute. reflexivity. Qed.

(** C3 as stated fails: a call whose dispatch fails returns no reading at
    all. *)
Lemma read_all_failure_counterexample :
  ¬ (∀ (io : MagicMock) (self : LoadCell.t) (w : World),
       ∃ readings self' w',
         LoadCell.read_all 0 digits_float io self w = (Return (readings, self'), w')
         ∧ length readings = 10%nat).
Proof.
  intros Hclaim.
  destruct (Hclaim {| return_value := (false, []) |}
              {| LoadCell._last_readings := None |} (opened mute_device))
    as (readings & self' & w' & Hrun & Hlen).
  vm_compute in Hrun. injection Hrun as <- _ _. discriminate Hlen.
Qed.

(** ** protocol.py: the codes of the enumerations *)

Lemma enum_of_value_inv {E} (members : list E) (value : E → bytes) (b : bytes) (m : E) :
  enum_of_value members value b = Return m → value m = b.
Proof.
  unfold enum_of_value. destruct (find _ _) as [m'|] eqn:Hfind; [|done].
  intros [= <-]. apply find_some in Hfind as [_ Hm].
  by apply bool_decide_eq_true in Hm.
Qed.

(** X1. The two enumerations are closed and their codes distinct: a 2-byte
    code decodes to a member exactly when it is that member's code, and
    every other byte string is refused with [ValueError]. *)
Theorem enum_codes_decode :
  (∀ (b : bytes) (c : Command), Command_of_value b = Return c ↔ b = Command_value c)
  ∧ (∀ (b : bytes) (s : SubCommand),
       SubCommand_of_value b = Return s ↔ b = SubCommand_value s)
  ∧ (∀ b : bytes, (∀ c, b ≠ Command_value c) ↔ Command_of_value b = Raise ValueError)
  ∧ (∀ b : bytes,
       (∀ s, b ≠ SubCommand_value s) ↔ SubCommand_of_value b = Raise ValueError).
Proof.
  assert (∀ (b : bytes) (c : Command),
            Command_of_value b = Return c ↔ b = Command_value c) as Hc.
  { intros b c. split.
    - intros Hdec. symmetry. by apply (enum_of_value_inv _ _ _ _ Hdec).
    - intros ->. apply Command_of_value_value. }
  assert (∀ (b : bytes) (s : SubCommand),
            SubCommand_of_value b = Return s ↔ b = SubCommand_value s) as Hs.
  { intros b s. split.
    - intros Hdec. symmetry. by apply (enum_of_value_inv _ _ _ _ Hdec).
    - intros ->. apply SubCommand_of_value_value. }
  split; [exact Hc|]. split; [exact Hs|]. split.
  - intros b. split.
    + intros Hnone. destruct (Command_of_value b) as [c|e] eqn:Hdec.
      * apply Hc in Hdec. by destruct (Hnone c).
      * by apply enum_of_value_raises in Hdec as ->.
    + intros Hraise c ->. rewrite Command_of_value_value in Hraise. discriminate.
  - intros b. split.
    + intros Hnone. destruct (SubCommand_of_value b) as [s|e] eqn:Hdec.
      * apply Hs in Hdec. by destruct (Hnone s).
      * by apply enum_of_value_raises in Hdec as ->.
    + intros Hraise s ->. rewrite SubCommand_of_value_value in Hraise. discriminate.
Qed.

(** ** protocol.py: how [parse] fails *)

Lemma check_lrc_raises_lrc (raw : bytes) (p : nat) (e : exn) :
  Frame.check_lrc raw (Z.of_nat p) = Raise e →
  ∃ expected actual, e = LRCError expected actual.
Proof.
  unfold Frame.check_lrc. cbv zeta. case_bool_decide as Hp.
  - destruct (py_index_in_range raw (Z.of_nat p + 1)) as (x & _ & ->); [lia|].
    rsimpl. case_bool_decide; [|done]. intros [= <-]. eauto.
  - rsimpl. case_bool_decide; [|done]. intros [= <-]. eauto.
Qed.

(** X2. Every failure of [parse] is a [FrameError], or an [LRCError] and
    then checksum validation is on; the frame error is never the one of the
    second length check, which the first makes unreachable; and a buffer
    shorter than 7 bytes fails as too short whatever it holds. *)
Theorem parse_failure_kinds (raw : bytes) (validate_lrc : bool) :
  (∀ e, Frame.parse raw validate_lrc = Raise e →
     ((∃ msg, e = FrameError msg ∧ ∀ n, msg ≠ EtxPositionTooShort n)
      ∨ (validate_lrc = true ∧ ∃ expected actual, e = LRCError expected actual)))
  ∧ ((length raw < 7)%nat →
     Frame.parse raw validate_lrc = Raise (FrameError (FrameTooShort (length raw)))).
Proof.
  split; [|by apply parse_too_short].
  intros e.
  destruct (decide (length raw < 7)%nat) as [Hshort|Hlen].
  { rewrite parse_too_short by done. intros [= <-]. left. eauto. }
  destruct (lookup_lt_is_Some_2 raw 0) as [b0 Hb0]; [lia|].
  destruct (decide (b0 = STX)) as [->|Hstx].
  2:{ rewrite (parse_bad_start raw validate_lrc b0) by (done || lia).
      intros [= <-]. left. eauto. }
  rewrite parse_unfold by (done || lia).
  destruct (etx_window_cases raw) as [Hnone|[p Hp]]; [lia| |].
  { rewrite locate_etx_not_found by (done || lia). intros [= <-]. left. eauto. }
  rewrite (locate_etx_found raw p) by (done || lia). rsimpl.
  destruct (if validate_lrc then _ else _) as [[]|e1] eqn:Hcheck.
  2:{ intros [= <-]. destruct validate_lrc; [|done]. right. split; [done|].
      by apply (check_lrc_raises_lrc raw p). }
  destruct (Command_of_value _) as [c|e1] eqn:Hc; cbn [try_except].
  2:{ apply enum_of_value_raises in Hc as ->. intros [= <-]. left. eauto. }
  destruct (SubCommand_of_value _) as [s|e1] eqn:Hs; cbn [try_except].
  2:{ apply enum_of_value_raises in Hs as ->. intros [= <-]. left. eauto. }
  done.
Qed.

Lemma parse_failure_kinds_witness :
  Frame.parse [0x02; 0x4D; 0x43] true = Raise (FrameError (FrameTooShort 3)).
Proof.
  destruct (parse_failure_kinds [0x02; 0x4D; 0x43] true) as [_ Hshort].
  apply Hshort. simpl. lia.
Defined.

(** ** protocol.py: the byte after ETX *)

Lemma py_slice_app_l {A} (l l' : list A) (lo hi : nat) :
  (lo ≤ hi ≤ length l)%nat →
  py_slice (l ++ l') (Z.of_nat lo) (Z.of_nat hi) = py_slice l (Z.of_nat lo) (Z.of_nat hi).
Proof.
  intros Hb. rewrite !py_slice_nat by (rewrite ?length_app; lia).
  rewrite drop_app_le by lia. rewrite take_app_le; [done|].
  rewrite length_drop. lia.
Qed.

Lemma last_etx_in_window_snoc (l : bytes) (b b' : Z) (p : nat) :
  last_etx_in_window (l ++ [b]) p → last_etx_in_window (l ++ [b']) p.
Proof.
  unfold last_etx_in_window. rewrite !length_app. cbn [length].
  intros (Hp & Hetx & Hlast). split; [done|]. split.
  - rewrite lookup_app_l in Hetx by lia. by rewrite lookup_app_l by lia.
  - intros j Hj. specialize (Hlast j Hj).
    rewrite lookup_app_l in Hlast by lia. by rewrite lookup_app_l by lia.
Qed.

Lemma no_etx_in_window_snoc (l : bytes) (b b' : Z) :
  no_etx_in_window (l ++ [b]) → no_etx_in_window (l ++ [b']).
Proof.
  unfold no_etx_in_window. rewrite !length_app. cbn [length].
  intros Hnone j Hj. specialize (Hnone j Hj).
  rewrite lookup_app_l in Hnone by lia. by rewrite lookup_app_l by lia.
Qed.

(** The ETX search never looks at the last byte. *)
Lemma locate_etx_snoc (l : bytes) (b b' : Z) :
  (6 ≤ length l)%nat →
  Frame.locate_etx (l ++ [b]) = Frame.locate_etx (l ++ [b']).
Proof.
  intros Hlen.
  assert (7 ≤ length (l ++ [b]))%nat as Hb by (rewrite length_app; simpl; lia).
  assert (7 ≤ length (l ++ [b']))%nat as Hb' by (rewrite length_app; simpl; lia).
  destruct (etx_window_cases (l ++ [b]) Hb) as [Hnone|[p Hp]].
  - rewrite !locate_etx_not_found; eauto using no_etx_in_window_snoc.
  - rewrite !(locate_etx_found _ p); eauto using last_etx_in_window_snoc.
Qed.

Lemma locate_etx_range (raw : bytes) (etx_pos : Z) :
  (7 ≤ length raw)%nat → Frame.locate_etx raw = Return etx_pos →
  ∃ p : nat, etx_pos = Z.of_nat p ∧ last_etx_in_window raw p.
Proof.
  intros Hlen Hloc. destruct (etx_window_cases raw Hlen) as [Hnone|[p Hp]].
  - rewrite locate_etx_not_found in Hloc by done. discriminate.
  - rewrite (locate_etx_found raw p) in Hloc by done.
    injection Hloc as <-. eauto.
Qed.

Lemma parse_last_byte_irrelevant (l : bytes) (b b' : Z) :
  Frame.parse (l ++ [b]) false = Frame.parse (l ++ [b']) false.
Proof.
  destruct (decide (length l < 6)%nat) as [Hshort|Hlen].
  { rewrite !parse_too_short by (rewrite length_app; simpl; lia).
    by rewrite !length_app. }
  destruct (lookup_lt_is_Some_2 l 0) as [b0 Hb0]; [lia|].
  assert (∀ x, (l ++ [x]) !! 0%nat = Some b0) as Hhead.
  { intros x. rewrite lookup_app_l by lia. done. }
  assert (∀ x, (7 ≤ length (l ++ [x]))%nat) as Hlens.
  { intros x. rewrite length_app. simpl. lia. }
  destruct (decide (b0 = STX)) as [->|Hstx].
  2:{ by rewrite !(parse_bad_start _ false b0). }
  rewrite !parse_unfold by done.
  rewrite (locate_etx_snoc l b b') by lia.
  destruct (Frame.locate_etx (l ++ [b'])) as [etx_pos|e] eqn:Hloc; [|done].
  destruct (locate_etx_range _ _ (Hlens b') Hloc) as (p & -> & Hp & _ & _).
  rewrite length_app in Hp. cbn [length] in Hp.
  rsimpl.
  change 1 with (Z.of_nat 1). change 3 with (Z.of_nat 3). change 5 with (Z.of_nat 5).
  by rewrite !(py_slice_app_l l) by lia.
Qed.

(** X3. With checksum validation off the last byte of the buffer is not
    looked at: two buffers that differ only in their last byte parse
    alike. *)
Theorem parse_ignores_checksum_byte (l : bytes) (b b' : Z) :
  Frame.parse (l ++ [b]) false = Frame.parse (l ++ [b']) false.
Proof. apply parse_last_byte_irrelevant. Qed.

(** ** protocol.py: the checksum of an encoded frame *)

Lemma build_last_etx (f : Frame.t) (c : Z) :
  last_etx_in_window (STX :: frame_body f ++ [c]) (5 + length (Frame.data f)).
Proof.
  assert (length (frame_body f) = 5 + length (Frame.data f))%nat as Hbody.
  { unfold frame_body. rewrite !length_app, Command_value_length,
      SubCommand_value_length. simpl. lia. }
  apply (last_etx_in_window_snoc (STX :: frame_body f) (xor_all (frame_body f)) c).
  change ((STX :: frame_body f) ++ [xor_all (frame_body f)])
    with (STX :: frame_body f ++ [xor_all (frame_body f)]).
  rewrite <- build_layout.
  split; [rewrite build_layout; cbn [length]; rewrite length_app; simpl; lia|].
  split; [apply build_etx_at|].
  intros j Hj. rewrite build_layout in Hj. cbn [length] in Hj.
  rewrite length_app in Hj. simpl in Hj. lia.
Qed.

(** X4. Checksum validation catches every wrong checksum byte on an
    encoded frame: the frame [build] emits with its last byte replaced by
    any other value fails with [LRCError] when validation is on, and still
    decodes to the frame when it is off. *)
Theorem wrong_checksum_detected (f : Frame.t) (c : Z) :
  c ≠ xor_all (frame_body f) →
  Frame.parse (STX :: frame_body f ++ [c]) true
  = Raise (LRCError (xor_all (frame_body f)) c)
  ∧ Frame.parse (STX :: frame_body f ++ [c]) false = Return (f, Frame.data f).
Proof.
  intros Hc.
  assert (length (frame_body f) = 5 + length (Frame.data f))%nat as Hbody.
  { unfold frame_body. rewrite !length_app, Command_value_length,
      SubCommand_value_length. simpl. lia. }
  split.
  - rewrite parse_unfold; [|cbn [length]; rewrite length_app; simpl; lia|done].
    rewrite (locate_etx_found _ (5 + length (Frame.data f)));
      [|cbn [length]; rewrite length_app; simpl; lia|apply build_last_etx].
    rsimpl. unfold Frame.check_lrc. cbv zeta.
    replace (Z.of_nat (5 + length (Frame.data f)) + 1)
      with (Z.of_nat (length (STX :: frame_body f))) by (cbn [length]; lia).
    rewrite py_slice_to_nat, app_comm_cons, take_app_length.
    rewrite bool_decide_eq_true_2 by (rewrite length_app; simpl; lia).
    rewrite (py_index_nat _ _ c) by (by rewrite lookup_app_r, Nat.sub_diag by done).
    rsimpl. rewrite calculate_lrc_cons.
    by rewrite bool_decide_eq_true_2 by done.
  - change (STX :: frame_body f ++ [c]) with ((STX :: frame_body f) ++ [c]).
    rewrite (parse_last_byte_irrelevant _ c (xor_all (frame_body f))).
    change ((STX :: frame_body f) ++ [xor_all (frame_body f)])
      with (STX :: frame_body f ++ [xor_all (frame_body f)]).
    rewrite <- build_layout. apply parse_build.
Qed.

Lemma wrong_checksum_detected_witness :
  Frame.parse [0x02; 0x52; 0x51; 0x49; 0x44; 0x03; 0x00] true
  = Raise (LRCError 0x0D 0x00).
Proof.
  destruct (wrong_checksum_detected (Frame.mk RQ ID []) 0x00) as [Hon _].
  - vm_compute. discriminate.
  - exact Hon.
Defined.

(** ** protocol.py: encoding what [parse] decodes *)

Lemma take_add_drop {A} (a b : nat) (l : list A) :
  take (a + b) l = take a l ++ take b (drop a l).
Proof.
  revert l. induction a as [|a IH]; intros l; [done|].
  destruct l as [|x l]; [by rewrite drop_nil, !take_nil|]. cbn. by rewrite IH.
Qed.

Lemma take_S_lookup {A} (n : nat) (l : list A) (x : A) :
  l !! n = Some x → take (S n) l = take n l ++ [x].
Proof. intros Hn. by apply take_S_r. Qed.

(** What [check_lrc] has compared when it returns. *)
Lemma check_lrc_returns (raw : bytes) (p : nat) :
  (S p < length raw)%nat →
  Frame.check_lrc raw (Z.of_nat p) = Return () →
  raw !! S p = Some (calculate_lrc (take (S p) raw)).
Proof.
  intros Hp. unfold Frame.check_lrc. cbv zeta.
  replace (Z.of_nat p + 1) with (Z.of_nat (S p)) by lia.
  rewrite py_slice_to_nat.
  rewrite bool_decide_eq_true_2 by lia.
  destruct (lookup_lt_is_Some_2 raw (S p)) as [x Hx]; [lia|].
  rewrite (py_index_nat _ _ _ Hx). rsimpl.
  case_bool_decide as Hne; [done|]. intros _. rewrite Hx. f_equal.
  destruct (decide (calculate_lrc (take (S p) raw) = x)); [done|by destruct Hne].
Qed.

Lemma parse_returns_layout (raw : bytes) (validate_lrc : bool) (f : Frame.t)
    (d : bytes) :
  Frame.parse raw validate_lrc = Return (f, d) →
  ∃ p : nat,
    last_etx_in_window raw p
    ∧ (7 ≤ length raw)%nat
    ∧ take (S p) raw = STX :: frame_body f
    ∧ (validate_lrc = true → take (S (S p)) raw = Frame.build f).
Proof.
  intros Hparse.
  destruct (decide (length raw < 7)%nat) as [Hshort|Hlen].
  { by rewrite parse_too_short in Hparse. }
  destruct (lookup_lt_is_Some_2 raw 0) as [b0 Hb0]; [lia|].
  destruct (decide (b0 = STX)) as [->|Hstx].
  2:{ by rewrite (parse_bad_start raw validate_lrc b0) in Hparse by (done || lia). }
  rewrite parse_unfold in Hparse by (done || lia).
  destruct (Frame.locate_etx raw) as [etx_pos|e] eqn:Hloc; [|done].
  destruct (locate_etx_range raw etx_pos ltac:(lia) Hloc) as (p & -> & Hp).
  revert Hparse. rsimpl.
  destruct (if validate_lrc then _ else _) as [[]|e1] eqn:Hcheck; [|done].
  destruct (Command_of_value _) as [c|e1] eqn:Hc; cbn [try_except].
  2:{ by apply enum_of_value_raises in Hc as ->. }
  destruct (SubCommand_of_value _) as [s|e1] eqn:Hs; cbn [try_except].
  2:{ by apply enum_of_value_raises in Hs as ->. }
  intros [= <- <-].
  apply (enum_of_value_inv _ _ _ _) in Hc. apply (enum_of_value_inv _ _ _ _) in Hs.
  destruct Hp as (Hrange & Hetx & Hlast).
  assert (take (S p) raw = STX :: frame_body (Frame.mk c s (py_slice raw 5 (Z.of_nat p))))
    as Hbody.
  { unfold frame_body. cbn [Frame.command Frame.subcommand Frame.data].
    rewrite Hc, Hs.
    change 1 with (Z.of_nat 1). change 3 with (Z.of_nat 3). change 5 with (Z.of_nat 5).
    rewrite !py_slice_nat by lia.
    rewrite (take_S_lookup p raw ETX Hetx).
    replace p with (1 + (2 + (2 + (p - 5))))%nat at 1 by lia.
    rewrite !take_add_drop, !drop_drop. cbn [Nat.add Nat.sub].
    rewrite (take_S_lookup 0 raw STX Hb0). cbn [take app].
    by rewrite <- !app_assoc. }
  exists p. split; [done|]. split; [lia|]. split; [exact Hbody|].
  intros ->. apply check_lrc_returns in Hcheck; [|lia].
  rewrite (take_S_lookup (S p) raw _ Hcheck), Hbody, build_layout.
  by rewrite calculate_lrc_cons.
Qed.

(** X5. Decoding then encoding: whenever [parse] returns a frame, the
    buffer starts with STX, command, subcommand, payload and ETX of that
    frame; with checksum validation on, the buffer starts with exactly the
    bytes [build] emits for it, and is those bytes when its ETX sits at
    [len(raw) - 2]. *)
Theorem parse_then_build (raw : bytes) (validate_lrc : bool) (f : Frame.t)
    (d : bytes) :
  Frame.parse raw validate_lrc = Return (f, d) →
  ∃ p : nat,
    last_etx_in_window raw p
    ∧ take (S p) raw = STX :: frame_body f
    ∧ (validate_lrc = true →
       take (S (S p)) raw = Frame.build f
       ∧ (raw !! (length raw - 2)%nat = Some ETX → Frame.build f = raw)).
Proof.
  intros Hparse.
  destruct (parse_returns_layout raw validate_lrc f d Hparse)
    as (p & Hp & Hlen & Hbody & Hbuild).
  exists p. split; [done|]. split; [done|]. intros Hv.
  split; [by apply Hbuild|]. intros Hetx. rewrite <- (Hbuild Hv).
  destruct Hp as (Hrange & _ & Hlast).
  destruct (decide (p = length raw - 2)%nat) as [->|Hne].
  - replace (S (S (length raw - 2))) with (length raw) by lia. by rewrite take_ge.
  - destruct (Hlast (length raw - 2)%nat); [lia|done].
Qed.

Lemma parse_then_build_witness :
  Frame.build (Frame.mk RQ MI (bytes_of "PROD1234567"))
  = [0x02; 0x52; 0x51; 0x4D; 0x49] ++ bytes_of "PROD1234567" ++ [0x03; 0x3D].
Proof.
  destruct (parse_then_build
              ([0x02; 0x52; 0x51; 0x4D; 0x49] ++ bytes_of "PROD1234567" ++ [0x03; 0x3D])
              true (Frame.mk RQ MI (bytes_of "PROD1234567")) (bytes_of "PROD1234567"))
    as (p & _ & _ & Hbuild).
  - vm_compute. reflexivity.
  - destruct (Hbuild eq_refl) as [_ Hwhole]. apply Hwhole. reflexivity.
Defined.

(** ** protocol.py: the bytes [build] emits *)

Lemma lxor_byte (a b : Z) : 0 ≤ a < 256 → 0 ≤ b < 256 → 0 ≤ Z.lxor a b < 256.
Proof.
  intros Ha Hb. split; [apply Z.lxor_nonneg; lia|].
  destruct (decide (Z.lxor a b = 0)) as [->|Hnz]; [lia|].
  assert (0 < Z.lxor a b) as Hpos.
  { assert (0 ≤ Z.lxor a b) by (apply Z.lxor_nonneg; lia). lia. }
  change 256 with (2 ^ 8). apply Z.log2_lt_pow2; [done|].
  pose proof (Z.log2_lxor a b ltac:(lia) ltac:(lia)) as Hlog.
  assert (Z.log2 a < 8) as Hla.
  { destruct (decide (a = 0)) as [->|]; [done|]. apply Z.log2_lt_pow2; lia. }
  assert (Z.log2 b < 8) as Hlb.
  { destruct (decide (b = 0)) as [->|]; [done|]. apply Z.log2_lt_pow2; lia. }
  lia.
Qed.

Lemma xor_all_byte (l : bytes) : wf_bytes l → 0 ≤ xor_all l < 256.
Proof.
  induction 1 as [|x l Hx Hl IH]; cbn [xor_all foldr]; [lia|].
  by apply lxor_byte.
Qed.

Lemma Command_value_wf (c : Command) : wf_bytes (Command_value c).
Proof. destruct c; repeat constructor; lia. Qed.

Lemma SubCommand_value_wf (s : SubCommand) : wf_bytes (SubCommand_value s).
Proof. destruct s; repeat constructor; lia. Qed.

(** X6. What [build] emits is a well-formed frame of bytes: 7 bytes more
    than the payload, STX first, and every element in 0..255 when those of
    the payload are, the checksum included; [calculate_lrc] of bytes is a
    byte. *)
Theorem build_emits_bytes (f : Frame.t) :
  length (Frame.build f) = (7 + length (Frame.data f))%nat
  ∧ Frame.build f !! 0%nat = Some STX
  ∧ (wf_bytes (Frame.data f) → wf_bytes (Frame.build f))
  ∧ (∀ data : bytes, wf_bytes data → 0 ≤ calculate_lrc data < 256).
Proof.
  split; [|split; [|split]].
  - rewrite build_layout. cbn [length]. unfold frame_body.
    rewrite !length_app, Command_value_length, SubCommand_value_length. simpl. lia.
  - by rewrite build_layout.
  - intros Hdata. rewrite build_layout.
    assert (wf_bytes (frame_body f)) as Hbody.
    { unfold frame_body, wf_bytes. rewrite !Forall_app.
      split; [apply Command_value_wf|]. split; [apply SubCommand_value_wf|].
      split; [done|]. repeat constructor; unfold ETX; lia. }
    unfold wf_bytes. constructor; [unfold STX; lia|].
    rewrite Forall_app. split; [done|].
    constructor; [by apply xor_all_byte|constructor].
  - intros [|b data] Hdata; [done|]. rewrite calculate_lrc_cons.
    apply xor_all_byte. by inversion Hdata.
Qed.

Lemma build_emits_bytes_witness :
  wf_bytes (Frame.build (Frame.mk MC WP (bytes_of "NEWPROD1234"))).
Proof.
  destruct (build_emits_bytes (Frame.mk MC WP (bytes_of "NEWPROD1234")))
    as (_ & _ & Hwf & _).
  apply Hwf. repeat constructor; lia.
Defined.

(** ** serial_comm.py: [send] *)

(** X7. [send] on an open port resets the input buffer, resets the output
    buffer, writes the data and flushes, in that order, and stops at the
    first of the four calls that fails: a [SerialTimeoutException] from any
    of them becomes [TimeoutError], any other [SerialException]
    [CommunicationError].  Nothing is written when a reset failed, and the
    transmission is logged only when all four calls went through.  On a
    closed or absent port it raises [CommunicationError] and touches
    nothing. *)
Theorem send_on_port (tx : bytes) (w : World) :
  (connected w →
   let reply := next_send w tx in
   SerialConnection.send tx w
   = (send_result reply,
      extend w (send_writes reply) 0 (send_events tx reply) (send_logs tx reply))
   ∧ (writes_of (send_events tx reply) = replicate (send_writes reply) tx)
   ∧ (send_writes reply = 0%nat
      ↔ failed_at reply = Some AtResetInput ∨ failed_at reply = Some AtResetOutput))
  ∧ (¬ connected w →
     SerialConnection.send tx w
     = (Raise (CommunicationError "Not connected to serial port"), w)).
Proof.
  split.
  - intros Hconn reply. split; [by apply send_spec|].
    destruct reply as [n|[] msg|[] msg]; (split; [reflexivity|]);
      cbn [send_writes failed_at]; (split; [intros ?|intros [?|?]]);
      first [done|by left|by right].
  - intros Hnot. unfold SerialConnection.send, SerialConnection.is_connected.
    cbv [mbind M_bind].
    destruct (serial w) as [s|] eqn:Hs; [|done].
    destruct (is_open s) eqn:Hopen; [|done].
    destruct Hnot. by exists s.
Qed.

(** A reset that fails: nothing is written. *)
Lemma send_on_port_witness :
  SerialConnection.send [0x02; 0x52; 0x51; 0x49; 0x44; 0x03; 0x0D]
    (opened jammed_device)
  = (Raise (CommunicationError "Failed to send data: Input/output error"),
     extend (opened jammed_device) 0 0 [ResetInput] []).
Proof.
  destruct (send_on_port [0x02; 0x52; 0x51; 0x49; 0x44; 0x03; 0x0D]
              (opened jammed_device)) as [Hopen _].
  destruct Hopen as [Hrun _].
  - exists {| is_open := true; timeout := 1%Q |}. split; reflexivity.
  - rewrite Hrun. reflexivity.
Defined.

(** ** serial_comm.py: the receive loop *)

Lemma extend_read (w : World) (k : nat) (evs : list event) logs :
  extend (tick_read (add_event (Read 1) w)) 0 k evs logs
  = extend w 0 (S k) (Read 1 :: evs) logs.
Proof.
  destruct w. world_simpl. apply Build_World_eq; rewrite <- ?app_assoc; done || lia.
Qed.

Lemma extend_log (w : World) nw nr evs logs r :
  add_log r (extend w nw nr evs logs) = extend w nw nr evs (logs ++ [r]).
Proof. destruct w. world_simpl. apply Build_World_eq; by rewrite <- ?app_assoc. Qed.

Lemma answers_tail (d : Device) (from : nat) (b : Z) (rest : bytes) :
  answers d from (b :: rest) → answers d (S from) rest.
Proof.
  intros Hans i. specialize (Hans (S i)). by rewrite <- Nat.add_succ_comm in Hans.
Qed.

Lemma receive_loop_stream (stream : bytes) :
  ∀ (data : bytes) (etx_received : bool) (fuel : nat) (w : World),
    answers (device w) (reads_done w) stream →
    (length data + length (frame_cut etx_received stream)
     < SerialConnection.max_buffer_size)%nat →
    (frame_reads etx_received stream ≤ fuel)%nat →
    ∃ logs,
      SerialConnection.receive_loop fuel data etx_received w
      = (if bool_decide (data ++ frame_cut etx_received stream = [])
         then Raise (TimeoutError "No response received (timeout)")
         else Return (data ++ frame_cut etx_received stream),
         extend w 0 (frame_reads etx_received stream)
           (replicate (frame_reads etx_received stream) (Read 1)) logs).
Proof.
  induction stream as [|b rest IH]; intros data etx_received fuel w Hans Hroom Hfuel.
  - cbn [frame_cut frame_reads replicate] in *. rewrite app_nil_r in *.
    destruct fuel as [|fuel]; [lia|]. cbn [SerialConnection.receive_loop].
    rewrite bool_decide_eq_true_2 by lia.
    cbv [mbind M_bind]. unfold serial_read.
    pose proof (Hans 0%nat) as H0. rewrite Nat.add_0_r in H0. rewrite H0. cbn [lookup list_lookup].
    rewrite (bool_decide_eq_true_2 ([] = [])) by done.
    destruct (decide (data = [])) as [->|Hne].
    + rewrite !bool_decide_eq_true_2 by done. exists []. unfold raise.
      f_equal. destruct w. world_simpl. apply Build_World_eq; rewrite ?app_nil_r; done || lia.
    + rewrite !bool_decide_eq_false_2 by done.
      exists [(WARNING, LogPartialData (length data))].
      unfold logger, modify. cbv [mret M_ret]. f_equal.
      destruct w. world_simpl. apply Build_World_eq; rewrite ?app_nil_r; done || lia.
  - cbn [frame_cut frame_reads length] in Hroom, Hfuel.
    destruct fuel as [|fuel]; [lia|]. cbn [SerialConnection.receive_loop].
    rewrite bool_decide_eq_true_2 by lia.
    cbv [mbind M_bind]. unfold serial_read.
    pose proof (Hans 0%nat) as H0. rewrite Nat.add_0_r in H0. rewrite H0. cbn [lookup list_lookup].
    rewrite (bool_decide_eq_false_2 ([b] = [])) by done.
    rewrite (py_index_0 [b] b eq_refl). unfold lift. cbv beta iota.
    rewrite (bool_decide_eq_false_2 (data ++ frame_cut etx_received (b :: rest) = []))
      by (cbn [frame_cut]; by destruct data).
    cbn [frame_cut frame_reads replicate]. change 3 with ETX.
    apply answers_tail in Hans.
    case_bool_decide as Hetx.
    + destruct (IH (data ++ [b]) true fuel (tick_read (add_event (Read 1) w)))
        as [logs Hloop]; [exact Hans|rewrite length_app; simpl; lia|lia|].
      rewrite Hloop. exists logs.
      rewrite bool_decide_eq_false_2 by (by destruct data).
      rewrite <- app_assoc. cbn [app]. by rewrite extend_read.
    + destruct etx_received.
      * exists []. cbv [mret M_ret]. f_equal.
        destruct w. world_simpl. apply Build_World_eq; rewrite ?app_nil_r; done || lia.
      * destruct (IH (data ++ [b]) false fuel (tick_read (add_event (Read 1) w)))
          as [logs Hloop]; [exact Hans|rewrite length_app; simpl; lia|lia|].
        rewrite Hloop. exists logs.
        rewrite bool_decide_eq_false_2 by (by destruct data).
        rewrite <- app_assoc. cbn [app]. by rewrite extend_read.
Qed.

(** The loop against any device: it only reads, at most [fuel] times, and
    what it returns extends [data]. *)
Lemma receive_loop_effect (fuel : nat) :
  ∀ (data : bytes) (etx_received : bool) (w : World),
    ∃ r k logs,
      SerialConnection.receive_loop fuel data etx_received w
      = (r, extend w 0 k (replicate k (Read 1)) logs)
      ∧ (k ≤ fuel)%nat
      ∧ (∀ e, r = Raise e →
           e = TimeoutError "No response received (timeout)"
           ∨ ∃ msg, e = SerialException msg)
      ∧ (∀ d, r = Return d →
           (length data ≤ length d)%nat
           ∧ (length d ≤ Nat.max (length data) SerialConnection.max_buffer_size)%nat).
Proof.
  induction fuel as [|fuel IH]; intros data etx_received w.
  - exists (Return data), 0%nat, []. rewrite extend_id.
    split; [done|]. split; [done|]. split; [by intros e [=]|].
    intros d [= <-]. lia.
  - cbn [SerialConnection.receive_loop]. case_bool_decide as Hroom.
    2:{ exists (Return data), 0%nat, []. rewrite extend_id.
        split; [done|]. split; [lia|]. split; [by intros e [=]|].
        intros d [= <-]. lia. }
    cbv [mbind M_bind]. unfold serial_read.
    destruct (on_read (device w) (reads_done w)) as [b| |msg].
    + rewrite bool_decide_eq_false_2 by done.
      rewrite (py_index_0 [b] b eq_refl). unfold lift. cbv beta iota.
      assert (∃ r k logs,
                SerialConnection.receive_loop fuel (data ++ [b]) true
                  (tick_read (add_event (Read 1) w))
                = (r, extend w 0 k (replicate k (Read 1)) logs)
                ∧ (k ≤ S fuel)%nat
                ∧ (∀ e, r = Raise e →
                     e = TimeoutError "No response received (timeout)"
                     ∨ ∃ msg, e = SerialException msg)
                ∧ (∀ d, r = Return d →
                     (length data ≤ length d)%nat
                     ∧ (length d ≤ Nat.max (length data)
                                     SerialConnection.max_buffer_size)%nat)) as Hrec1.
      { destruct (IH (data ++ [b]) true (tick_read (add_event (Read 1) w)))
          as (r & k & logs & -> & Hk & Hr & Hd).
        exists r, (S k), logs. rewrite extend_read. split; [done|]. split; [lia|].
        split; [done|]. intros d Hret. specialize (Hd d Hret).
        rewrite length_app in Hd. cbn [length] in Hd. lia. }
      assert (∃ r k logs,
                SerialConnection.receive_loop fuel (data ++ [b]) etx_received
                  (tick_read (add_event (Read 1) w))
                = (r, extend w 0 k (replicate k (Read 1)) logs)
                ∧ (k ≤ S fuel)%nat
                ∧ (∀ e, r = Raise e →
                     e = TimeoutError "No response received (timeout)"
                     ∨ ∃ msg, e = SerialException msg)
                ∧ (∀ d, r = Return d →
                     (length data ≤ length d)%nat
                     ∧ (length d ≤ Nat.max (length data)
                                     SerialConnection.max_buffer_size)%nat)) as Hrec2.
      { destruct (IH (data ++ [b]) etx_received (tick_read (add_event (Read 1) w)))
          as (r & k & logs & -> & Hk & Hr & Hd).
        exists r, (S k), logs. rewrite extend_read. split; [done|]. split; [lia|].
        split; [done|]. intros d Hret. specialize (Hd d Hret).
        rewrite length_app in Hd. cbn [length] in Hd. lia. }
      case_bool_decide; [exact Hrec1|]. destruct etx_received; [|exact Hrec2].
      exists (Return (data ++ [b])), 1%nat, []. cbv [mret M_ret].
      split.
      { f_equal. destruct w. world_simpl.
        apply Build_World_eq; rewrite ?app_nil_r; done || lia. }
      split; [lia|]. split; [by intros e [=]|].
      intros d [= <-]. rewrite length_app. cbn [length]. lia.
    + rewrite bool_decide_eq_true_2 by done. case_bool_decide.
      * exists (Raise (TimeoutError "No response received (timeout)")), 1%nat, [].
        unfold raise. split.
        { f_equal. destruct w. world_simpl.
          apply Build_World_eq; rewrite ?app_nil_r; done || lia. }
        split; [lia|]. split; [intros e [= <-]; by left|]. by intros d [=].
      * exists (Return data), 1%nat, [(WARNING, LogPartialData (length data))].
        unfold logger, modify. cbv [mret M_ret]. split.
        { f_equal. destruct w. world_simpl.
          apply Build_World_eq; rewrite ?app_nil_r; done || lia. }
        split; [lia|]. split; [by intros e [=]|]. intros d [= <-]. lia.
    + exists (Raise (SerialException msg)), 1%nat, []. split.
      { f_equal. destruct w. world_simpl.
        apply Build_World_eq; rewrite ?app_nil_r; done || lia. }
      split; [lia|]. split; [intros e [= <-]; right; eauto|]. by intros d [=].
Qed.

(** ** serial_comm.py: [receive_until_etx] around its loop *)

#[local] Opaque SerialConnection.receive_loop.

Lemma receive_until_etx_from_loop (t : option seconds) (w : World)
    (r : result bytes) (k : nat) (evs : list event) logs :
  connected w →
  SerialConnection.receive_loop SerialConnection.max_buffer_size [] false (with_timeout t w)
  = (r, extend (with_timeout t w) 0 k evs logs) →
  SerialConnection.receive_until_etx t w
  = (receive_finish r, extend w 0 k evs (logs ++ receive_finish_logs r)).
Proof.
  intros (s & Hs & Hopen) Hloop.
  destruct w as [d ser nw nr tr lg cs]. cbn [serial device] in *. subst ser.
  destruct s as [o t0]. cbn [is_open] in Hopen. subst o.
  unfold with_timeout in Hloop. cbn [serial] in Hloop.
  unfold SerialConnection.receive_until_etx, SerialConnection.is_connected.
  cbv [mbind M_bind mret M_ret serial is_open]. cbn [negb].
  unfold serial_get_timeout, serial_set_timeout, try_finally, try_exceptM.
  cbv [mbind M_bind mret M_ret]. cbn [serial].
  destruct t as [t1|]; world_simpl; unfold extend, set_serial in Hloop;
    cbn [device serial writes_done reads_done trace log calls is_open timeout] in Hloop;
    rewrite Hloop; clear Hloop;
    (destruct r as [data|e];
     [ unfold logger, modify; cbv [mret M_ret];
       cbn [receive_finish receive_finish_logs];
       destruct (bool_decide (length data < SerialConnection.min_frame_size)%nat);
       (destruct data as [|b0 data']; [|destruct (bool_decide (b0 ≠ 2))]);
       world_simpl; f_equal; apply Build_World_eq;
       by rewrite <- ?app_assoc, ?app_nil_r
     | destruct e; unfold raise; world_simpl; cbn [receive_finish receive_finish_logs];
       by rewrite ?app_nil_r ]).
Qed.

#[local] Transparent SerialConnection.receive_loop.

Lemma with_timeout_device (t : option seconds) (w : World) :
  device (with_timeout t w) = device w ∧ reads_done (with_timeout t w) = reads_done w.
Proof. unfold with_timeout. destruct t, (serial w); done. Qed.

Lemma writes_of_reads (k : nat) : writes_of (replicate k (Read 1)) = [].
Proof. induction k; [done|]. exact IHk. Qed.

Lemma sleeps_of_reads (k : nat) : sleeps_of (replicate k (Read 1)) = [].
Proof. induction k; [done|]. exact IHk. Qed.

Lemma receive_loop_nonempty (fuel : nat) (etx_received : bool) (w w' : World)
    (r : result bytes) :
  SerialConnection.receive_loop (S fuel) [] etx_received w = (r, w') → r ≠ Return [].
Proof.
  intros Hloop. cbn [SerialConnection.receive_loop] in Hloop.
  rewrite bool_decide_eq_true_2 in Hloop
    by (unfold SerialConnection.max_buffer_size; cbn [length]; lia).
  cbv [mbind M_bind] in Hloop. unfold serial_read in Hloop.
  destruct (on_read _ _) as [b| |msg].
  - rewrite bool_decide_eq_false_2 in Hloop by done.
    rewrite (py_index_0 [b] b eq_refl) in Hloop. unfold lift in Hloop.
    cbv beta iota in Hloop. cbn [app] in Hloop.
    assert (∀ etx w0 r0 w1,
              SerialConnection.receive_loop fuel [b] etx w0 = (r0, w1) → r0 ≠ Return [])
      as Hne.
    { intros etx w0 r0 w1 Hrun ->.
      destruct (receive_loop_effect fuel [b] etx w0) as (r1 & k1 & l1 & Hl & _ & _ & Hd1).
      rewrite Hl in Hrun. injection Hrun as -> _.
      destruct (Hd1 [] eq_refl) as [Hlen _]. cbn [length] in Hlen. lia. }
    case_bool_decide; [by eapply Hne|].
    destruct etx_received; [|by eapply Hne].
    cbv [mret M_ret] in Hloop. by injection Hloop as <- _.
  - rewrite !bool_decide_eq_true_2 in Hloop by done.
    unfold raise in Hloop. by injection Hloop as <- _.
  - by injection Hloop as <- _.
Qed.

(** [receive_until_etx] on an open port, against any device. *)
Lemma receive_until_etx_effect (t : option seconds) (w : World) :
  connected w →
  ∃ r k logs,
    SerialConnection.receive_until_etx t w
    = (r, extend w 0 k (replicate k (Read 1)) logs)
    ∧ (k ≤ SerialConnection.max_buffer_size)%nat
    ∧ (∀ d, r = Return d →
         d ≠ [] ∧ (length d ≤ SerialConnection.max_buffer_size)%nat).
Proof.
  intros Hconn.
  destruct (receive_loop_effect SerialConnection.max_buffer_size [] false (with_timeout t w))
    as (r & k & logs & Hloop & Hk & Hr & Hd).
  exists (receive_finish r), k, (logs ++ receive_finish_logs r).
  split; [by apply receive_until_etx_from_loop|]. split; [done|].
  intros d Hret. destruct r as [d'|e].
  - injection Hret as ->. destruct (Hd d eq_refl) as [_ Hlen].
    cbn [length] in Hlen. split; [|lia].
    intros ->. by apply (receive_loop_nonempty 499) in Hloop.
  - destruct e; discriminate Hret.
Qed.

Lemma frame_cut_etxs (n : nat) (etx_received : bool) :
  frame_cut etx_received (replicate n ETX) = replicate n ETX
  ∧ frame_reads etx_received (replicate n ETX) = S n.
Proof.
  revert etx_received. induction n as [|n IH]; intros etx_received; [done|].
  cbn [replicate frame_cut frame_reads]. rewrite bool_decide_eq_true_2 by done.
  destruct (IH true) as [-> ->]. done.
Qed.

Lemma frame_cut_before_etx (pre tail : bytes) :
  ETX ∉ pre →
  frame_cut false (pre ++ tail) = pre ++ frame_cut false tail
  ∧ frame_reads false (pre ++ tail) = (length pre + frame_reads false tail)%nat.
Proof.
  induction pre as [|b pre IH]; intros Hpre; [done|].
  apply not_elem_of_cons in Hpre as [Hb Hpre].
  cbn [app frame_cut frame_reads length]. rewrite bool_decide_eq_false_2 by done.
  destruct (IH Hpre) as [-> ->]. done.
Qed.

Lemma frame_cut_after_etx (c : Z) (rest : bytes) :
  c ≠ ETX →
  frame_cut false (ETX :: c :: rest) = [ETX; c]
  ∧ frame_reads false (ETX :: c :: rest) = 2%nat.
Proof.
  intros Hc. cbn [frame_cut frame_reads].
  rewrite bool_decide_eq_true_2 by done. by rewrite bool_decide_eq_false_2 by done.
Qed.

Lemma receive_until_etx_stream (t : option seconds) (w : World) (stream : bytes) :
  connected w →
  answers (device w) (reads_done w) stream →
  (length (frame_cut false stream) < SerialConnection.max_buffer_size)%nat →
  ∃ logs,
    SerialConnection.receive_until_etx t w
    = (if bool_decide (frame_cut false stream = [])
       then Raise (TimeoutError "No response received (timeout)")
       else Return (frame_cut false stream),
       extend w 0 (frame_reads false stream)
         (replicate (frame_reads false stream) (Read 1)) logs).
Proof.
  intros Hconn Hans Hroom.
  destruct (with_timeout_device t w) as [Hdev Hreads].
  destruct (receive_loop_stream stream [] false SerialConnection.max_buffer_size
              (with_timeout t w)) as [logs Hloop].
  { by rewrite Hdev, Hreads. }
  { cbn [length]. lia. }
  { clear -Hroom. revert Hroom. generalize SerialConnection.max_buffer_size.
    generalize false. induction stream as [|b rest IH]; intros etx m Hroom.
    - cbn in *. lia.
    - cbn [frame_cut frame_reads length] in *. destruct m as [|m]; [lia|].
      apply le_n_S. case_bool_decide; [apply IH; lia|].
      destruct etx; [lia|apply IH; lia]. }
  cbn [app] in Hloop.
  eexists. rewrite (receive_until_etx_from_loop t w _ _ _ _ Hconn Hloop).
  f_equal. by case_bool_decide.
Qed.

(** X8. [receive_until_etx] on an open port, whatever the device does: it
    only reads, one byte at a time and at most 500 times; it leaves the
    port's time-out as it found it; what it returns is not empty and has at
    most 500 bytes; what it raises is a [TimeoutError] or a
    [CommunicationError]. *)
Theorem receive_until_etx_only_reads (t : option seconds) (w : World) :
  connected w →
  ∃ r w' k,
    SerialConnection.receive_until_etx t w = (r, w')
    ∧ serial w' = serial w
    ∧ writes_done w' = writes_done w
    ∧ reads_done w' = (reads_done w + k)%nat
    ∧ trace w' = trace w ++ replicate k (Read 1)
    ∧ (k ≤ 500)%nat
    ∧ (∀ d, r = Return d → d ≠ [] ∧ (length d ≤ 500)%nat)
    ∧ (∀ e, r = Raise e → timeout_or_communication e).
Proof.
  intros Hconn.
  destruct (receive_until_etx_effect t w Hconn) as (r & k & logs & Hrun & Hk & Hd).
  exists r, (extend w 0 k (replicate k (Read 1)) logs), k.
  split; [done|]. cbn [extend serial writes_done reads_done trace].
  repeat split; try done; try lia.
  - by apply Hd.
  - by apply Hd.
  - intros e ->. by apply (receive_until_etx_raises t w e _ Hrun).
Qed.

Lemma receive_until_etx_only_reads_witness :
  ∃ r w' k,
    SerialConnection.receive_until_etx (Some 1%Q) (opened mute_device) = (r, w')
    ∧ trace w' = trace (opened mute_device) ++ replicate k (Read 1)
    ∧ (k ≤ 500)%nat.
Proof.
  destruct (receive_until_etx_only_reads (Some 1%Q) (opened mute_device))
    as (r & w' & k & Hrun & _ & _ & _ & Htrace & Hk & _).
  - exists {| is_open := true; timeout := 1%Q |}. split; reflexivity.
  - exists r, w', k. repeat split; assumption.
Defined.

(** X9. When the device sends [pre], then ETX, then a byte [c] other than
    ETX, with no ETX in [pre] and these [len(pre) + 2] bytes fewer than the
    500 of the receive buffer, [receive_until_etx] returns exactly
    [pre ++ [ETX; c]]: it stops after the byte that follows the first ETX
    and reads nothing of what the device would send next. *)
Theorem receive_until_etx_cuts_frame (t : option seconds) (w : World)
    (pre : bytes) (c : Z) (rest : bytes) :
  connected w →
  answers (device w) (reads_done w) (pre ++ ETX :: c :: rest) →
  ETX ∉ pre → c ≠ ETX →
  (length pre + 2 < 500)%nat →
  ∃ logs,
    SerialConnection.receive_until_etx t w
    = (Return (pre ++ [ETX; c]),
       extend w 0 (length pre + 2) (replicate (length pre + 2) (Read 1)) logs).
Proof.
  intros Hconn Hans Hpre Hc Hlen.
  destruct (frame_cut_before_etx pre (ETX :: c :: rest) Hpre) as [Hcut Hreads].
  destruct (frame_cut_after_etx c rest Hc) as [Hcut' Hreads'].
  rewrite Hcut' in Hcut. rewrite Hreads' in Hreads.
  destruct (receive_until_etx_stream t w _ Hconn Hans) as [logs Hrun].
  { rewrite Hcut, length_app. cbn [length].
    unfold SerialConnection.max_buffer_size. lia. }
  rewrite Hcut, Hreads in Hrun. exists logs. rewrite Hrun.
  rewrite bool_decide_eq_false_2; [done|]. by destruct pre.
Qed.

(** X10. When the device's bytes run out before the loop has seen a byte
    after an ETX (the stream is [pre] without ETX, then any number of ETX)
    and they are fewer than the 500 of the receive buffer,
    [receive_until_etx] waits for one more [read(1)] to time out and returns
    the bytes received so far; with no byte at all it raises
    [TimeoutError]. *)
Theorem receive_until_etx_stream_ends (t : option seconds) (w : World)
    (pre : bytes) (n : nat) :
  connected w →
  answers (device w) (reads_done w) (pre ++ replicate n ETX) →
  ETX ∉ pre →
  (length pre + n < 500)%nat →
  ∃ logs,
    SerialConnection.receive_until_etx t w
    = (if bool_decide (pre ++ replicate n ETX = [])
       then Raise (TimeoutError "No response received (timeout)")
       else Return (pre ++ replicate n ETX),
       extend w 0 (length pre + n + 1)
         (replicate (length pre + n + 1) (Read 1)) logs).
Proof.
  intros Hconn Hans Hpre Hlen.
  destruct (frame_cut_before_etx pre (replicate n ETX) Hpre) as [Hcut Hreads].
  destruct (frame_cut_etxs n false) as [Hcut' Hreads'].
  rewrite Hcut' in Hcut. rewrite Hreads' in Hreads.
  destruct (receive_until_etx_stream t w _ Hconn Hans) as [logs Hrun].
  { rewrite Hcut, length_app, length_replicate.
    unfold SerialConnection.max_buffer_size. lia. }
  rewrite Hcut, Hreads in Hrun. exists logs. rewrite Hrun.
  by replace (length pre + S n)%nat with (length pre + n + 1)%nat by lia.
Qed.

Lemma answers_scripted (response : bytes) :
  answers (device (opened (scripted_device response)))
    (reads_done (opened (scripted_device response))) response.
Proof. intros i. reflexivity. Qed.

Lemma opened_connected (d : Device) : connected (opened d).
Proof. exists {| is_open := true; timeout := 1%Q |}. split; reflexivity. Qed.

Lemma receive_until_etx_cuts_frame_witness :
  ∃ logs,
    SerialConnection.receive_until_etx (Some 1%Q)
      (opened (scripted_device [0x02; 0x52; 0x51; 0x49; 0x44; 0x03; 0x0D; 0x02; 0x52]))
    = (Return [0x02; 0x52; 0x51; 0x49; 0x44; 0x03; 0x0D],
       extend (opened (scripted_device
                         [0x02; 0x52; 0x51; 0x49; 0x44; 0x03; 0x0D; 0x02; 0x52]))
         0 7 (replicate 7 (Read 1)) logs).
Proof.
  apply (receive_until_etx_cuts_frame (Some 1%Q)
           (opened (scripted_device [0x02; 0x52; 0x51; 0x49; 0x44; 0x03; 0x0D; 0x02; 0x52]))
           [0x02; 0x52; 0x51; 0x49; 0x44] 0x0D [0x02; 0x52]).
  - apply opened_connected.
  - apply answers_scripted.
  - rewrite !not_elem_of_cons. repeat split; try discriminate. apply not_elem_of_nil.
  - discriminate.
  - simpl. lia.
Defined.

Lemma receive_until_etx_stream_ends_witness :
  ∃ logs,
    SerialConnection.receive_until_etx (Some 1%Q)
      (opened (scripted_device [0x02; 0x52; 0x51; 0x03; 0x03]))
    = (Return [0x02; 0x52; 0x51; 0x03; 0x03],
       extend (opened (scripted_device [0x02; 0x52; 0x51; 0x03; 0x03]))
         0 6 (replicate 6 (Read 1)) logs).
Proof.
  apply (receive_until_etx_stream_ends (Some 1%Q)
           (opened (scripted_device [0x02; 0x52; 0x51; 0x03; 0x03]))
           [0x02; 0x52; 0x51] 2).
  - apply opened_connected.
  - apply answers_scripted.
  - rewrite !not_elem_of_cons. repeat split; try discriminate. apply not_elem_of_nil.
  - simpl. lia.
Defined.

(** ** Traces of computations *)

Lemma runs_here {A} (r0 : result A) (m : M A) (w : World) (tx : bytes) :
  m w = (r0, w) → runs 0 tx m w.
Proof.
  intros Hm r w' Hrun. rewrite Hm in Hrun. injection Hrun as _ <-.
  split_and!; try done. exists [], 0%nat.
  rewrite app_nil_r, Nat.add_0_r. split_and!; done.
Qed.

Lemma quiet_ret {A} (a : A) : quiet (mret a).
Proof. intros w tx. by apply (runs_here (Return a)). Qed.

Lemma quiet_raise {A} (e : exn) : quiet (raise (A:=A) e).
Proof. intros w tx. by apply (runs_here (Raise e)). Qed.

Lemma quiet_lift {A} (r : result A) : quiet (lift r).
Proof. intros w tx. by apply (runs_here r). Qed.

Lemma quiet_logger lvl msg : quiet (logger lvl msg).
Proof.
  intros w tx r w' [= <- <-]. cbn [add_log serial device calls writes_done trace].
  split_and!; try done. exists [], 0%nat.
  rewrite app_nil_r, Nat.add_0_r. split_and!; done.
Qed.

Lemma runs_bind {A B} (n1 n2 : nat) (tx : bytes) (m : M A) (f : A → M B)
    (w : World) :
  runs n1 tx m w →
  (∀ a w1, m w = (Return a, w1) → runs n2 tx (f a) w1) →
  (∀ e w1, m w = (Raise e, w1) → n2 = 0%nat) →
  runs (n1 + n2) tx (m ≫= f) w.
Proof.
  intros Hm Hf Hraise r w' Hrun. unfold mbind, M_bind in Hrun.
  destruct (m w) as [[a|e] w1] eqn:Hmw.
  - destruct (Hm _ _ Hmw)
      as (Hs & Hd & Hc & evs1 & j1 & Ht & Hn & Hws & Hj & Hok & Hw & Hsl).
    destruct (Hf a w1 eq_refl _ _ Hrun)
      as (Hs' & Hd' & Hc' & evs2 & j2 & Ht' & Hn' & Hws' & Hj' & Hok' & Hw' & Hsl').
    split_and!; [congruence..|].
    exists (evs1 ++ evs2), (j1 + j2)%nat.
    rewrite sends_of_app, writes_of_app, sleeps_of_app, Hws, Hws', Hsl, Hsl', Hn, Hn',
      replicate_add.
    split_and!; try done; try lia.
    + by rewrite Ht', Ht, app_assoc.
    + intros Hres. rewrite Hok by done. by rewrite Hok' by (by rewrite Hd).
  - injection Hrun as <- <-. rewrite (Hraise e w1 eq_refl), Nat.add_0_r.
    by apply (Hm _ _ Hmw).
Qed.

Lemma quiet_bind {A B} (m : M A) (f : A → M B) :
  quiet m → (∀ a, quiet (f a)) → quiet (m ≫= f).
Proof.
  intros Hm Hf w tx. apply (runs_bind 0 0 tx m f w); [apply Hm| |done].
  intros a w1 _. apply Hf.
Qed.

Lemma runs_try {A} (n : nat) (tx : bytes) (body : M A)
    (handler : exn → option (M A)) (w : World) :
  runs n tx body w →
  (∀ e h, handler e = Some h → quiet h) →
  runs n tx (try_exceptM body handler) w.
Proof.
  intros Hbody Hh r w' Hrun. unfold try_exceptM in Hrun.
  destruct (body w) as [[a|e] w1] eqn:Hbw.
  - injection Hrun as <- <-. by apply (Hbody _ _ Hbw).
  - destruct (handler e) as [h|] eqn:Hhe.
    + destruct (Hbody _ _ Hbw)
        as (Hs & Hd & Hc & evs1 & j1 & Ht & Hn & Hws & Hj & Hok & Hw & Hsl).
      destruct (Hh e h Hhe w1 tx _ _ Hrun)
        as (Hs' & Hd' & Hc' & evs2 & j2 & Ht' & Hn' & Hws' & Hj' & Hok' & Hw' & Hsl').
      assert (j2 = 0%nat) as -> by lia.
      split_and!; [congruence..|].
      exists (evs1 ++ evs2), j1.
      rewrite sends_of_app, writes_of_app, sleeps_of_app, Hws, Hws', Hsl, Hsl', Hn, Hn'.
      cbn [replicate]. rewrite !app_nil_r, Nat.add_0_r.
      split_and!; try done; try lia.
      by rewrite Ht', Ht, app_assoc.
    + injection Hrun as <- <-. by apply (Hbody _ _ Hbw).
Qed.


Lemma sends_of_send tx reply : sends_of (send_events tx reply) = 1%nat.
Proof. by destruct reply as [n|[] msg|[] msg]. Qed.
Lemma writes_of_send tx reply :
  writes_of (send_events tx reply) = replicate (send_writes reply) tx.
Proof. by destruct reply as [n|[] msg|[] msg]. Qed.
Lemma sleeps_of_send tx reply : sleeps_of (send_events tx reply) = [].
Proof. by destruct reply as [n|[] msg|[] msg]. Qed.
Lemma send_writes_le reply : (send_writes reply ≤ 1)%nat.
Proof. destruct reply as [n|[] msg|[] msg]; cbn; lia. Qed.

(** A send whose buffer resets go through reaches the write. *)
Lemma send_writes_resets (w : World) (tx : bytes) :
  resets_succeed (device w) → send_writes (next_send w tx) = 1%nat.
Proof.
  intros Hres. unfold next_send, send_reply_of.
  destruct (Hres (length (trace w))) as [-> _].
  destruct (Hres (S (length (trace w)))) as [_ ->]. cbn [port_failure].
  destruct (on_write _ _ _); [|done..].
  by destruct (on_flush _ _).
Qed.

Lemma runs_send (tx : bytes) (w : World) :
  connected w → runs 1 tx (SerialConnection.send tx) w.
Proof.
  intros Hconn r w' Hrun. rewrite send_spec in Hrun by done.
  injection Hrun as _ <-. cbn [extend serial device calls writes_done trace].
  split_and!; try done.
  exists (send_events tx (next_send w tx)), (send_writes (next_send w tx)).
  split_and!; try done.
  - apply sends_of_send.
  - apply writes_of_send.
  - apply send_writes_le.
  - apply send_writes_resets.
  - apply sleeps_of_send.
Qed.

Lemma quiet_receive_until_etx (t : option seconds) :
  quiet (SerialConnection.receive_until_etx t).
Proof.
  intros w tx.
  destruct (serial w) as [s|] eqn:Hs; [destruct (is_open s) eqn:Hopen|].
  - destruct (receive_until_etx_effect t w) as (r & k & logs & Hrun & _); [by exists s|].
    intros r' w' Hrun'. rewrite Hrun in Hrun'. injection Hrun' as _ <-.
    cbn [extend serial device calls writes_done trace].
    split_and!; try done. exists (replicate k (Read 1)), 0%nat.
    rewrite writes_of_reads, sleeps_of_reads, Nat.add_0_r.
    split_and!; try done. clear. by induction k.
  - eapply runs_here.
    unfold SerialConnection.receive_until_etx, SerialConnection.is_connected.
    cbv [mbind M_bind]. rewrite Hs, Hopen. reflexivity.
  - eapply runs_here.
    unfold SerialConnection.receive_until_etx, SerialConnection.is_connected.
    cbv [mbind M_bind]. rewrite Hs. reflexivity.
Qed.

Lemma bind_run {A B} (m : M A) (f : A → M B) (w w1 : World) (a : A) :
  m w = (Return a, w1) → (m ≫= f) w = f a w1.
Proof. intros Hm. unfold mbind, M_bind. by rewrite Hm. Qed.

Lemma is_connected_true (w : World) :
  connected w → SerialConnection.is_connected w = (Return true, w).
Proof.
  intros (s & Hs & Hopen). unfold SerialConnection.is_connected. by rewrite Hs, Hopen.
Qed.



(** ** io_board.py: one attempt, any device *)


(** ** io_board.py: the retry loop, any device *)

Lemma sends_of_nonempty (evs : list event) : sends_of evs ≠ 0%nat → evs ≠ [].
Proof. by intros Hn ->. Qed.





(** ** io_board.py: a negative [retry_delay] *)




(** ** io_board.py: a device that answers *)

Lemma build_before_etx (f : Frame.t) :
  ETX ∉ Frame.data f →
  ∃ pre c,
    Frame.build f = pre ++ [ETX; c] ∧ (ETX ∉ pre)
    ∧ length pre = (5 + length (Frame.data f))%nat
    ∧ c = xor_all (frame_body f).
Proof.
  intros Hdata. destruct (build_shape f) as (a & b & a' & b' & Hc & Hs & Hraw).
  exists ([STX; a; b; a'; b'] ++ Frame.data f), (xor_all (frame_body f)).
  split; [|split; [|split; [|done]]]; [by rewrite Hraw, <- app_assoc| |by rewrite length_app].
  rewrite not_elem_of_app. split; [|done].
  destruct f as [c s d]. cbn [Frame.command Frame.subcommand] in Hc, Hs.
  destruct c, s; injection Hc as <- <-; injection Hs as <- <-;
    rewrite !not_elem_of_cons; repeat split; try discriminate; apply not_elem_of_nil.
Qed.

Lemma frame_cut_whole (pre : bytes) (c : Z) :
  ETX ∉ pre →
  frame_cut false (pre ++ [ETX; c]) = pre ++ [ETX; c]
  ∧ frame_reads false (pre ++ [ETX; c])
    = (length pre + 2 + if bool_decide (c = ETX) then 1 else 0)%nat.
Proof.
  intros Hpre. destruct (frame_cut_before_etx pre [ETX; c] Hpre) as [-> ->].
  case_bool_decide as Hc.
  - subst c. destruct (frame_cut_etxs 2 false) as [Hcut Hreads].
    cbn [replicate] in Hcut, Hreads. rewrite Hcut, Hreads. split; [done|lia].
  - destruct (frame_cut_after_etx c [] Hc) as [-> ->]. split; [done|lia].
Qed.

(** An attempt whose send goes through, against a device whose answer the
    loop cuts to a frame that parses. *)
Lemma attempt_body_stream (self : IOBoard.t) (subcommand : SubCommand)
    (tx : bytes) (timeout : option seconds) (attempt : Z) (w : World)
    (stream : bytes) (n : Z) (f : Frame.t) (d : bytes) :
  connected w →
  next_send w tx = SendOk n →
  answers (device w) (reads_done w) stream →
  (length (frame_cut false stream) < 500)%nat →
  Frame.parse (frame_cut false stream) (IOBoard.validate_lrc self) = Return (f, d) →
  ∃ logs,
    IOBoard.attempt_body self subcommand tx timeout attempt w
    = (Return (inl d),
       extend w 1 (frame_reads false stream)
         ([ResetInput; ResetOutput; Write tx; Flush]
          ++ replicate (frame_reads false stream) (Read 1)) logs).
Proof.
  intros Hconn Hsend Hans Hlen Hparse.
  assert (frame_cut false stream ≠ []) as Hne.
  { intros Hnil. rewrite Hnil in Hparse. by rewrite parse_too_short in Hparse by (simpl; lia). }
  set (w1 := extend w 1 0 (send_events tx (SendOk n)) (send_logs tx (SendOk n))).
  destruct (receive_until_etx_stream
              (Some (default (IOBoard.timeout self) timeout)) w1 stream)
    as [logs Hrx].
  { by apply connected_extend. }
  { subst w1. cbn [extend device reads_done]. by rewrite Nat.add_0_r. }
  { unfold SerialConnection.max_buffer_size. lia. }
  rewrite bool_decide_eq_false_2 in Hrx by done.
  unfold IOBoard.attempt_body. cbv [mbind M_bind]. unfold try_exceptM at 1.
  cbv [mbind M_bind]. rewrite send_spec by done. rewrite Hsend.
  cbn [send_result send_writes failed_at]. fold w1. rewrite Hrx.
  unfold try_exceptM, lift. cbv [mbind M_bind]. rewrite Hparse.
  unfold logger, modify. cbv [mret M_ret].
  case_bool_decide; eexists; f_equal;
    rewrite ?extend_log; subst w1; rewrite extend_extend;
    cbn [send_events send_logs failed_at]; f_equal.
Qed.

Lemma send_command_stream (self : IOBoard.t) (command : Command)
    (subcommand : SubCommand) (data : bytes) (timeout : option seconds) (w : World)
    (stream : bytes) (n : Z) (f : Frame.t) (d : bytes) :
  connected w →
  0 < IOBoard.retry_count self →
  next_send w (build_command_frame command subcommand data) = SendOk n →
  answers (device w) (reads_done w) stream →
  (length (frame_cut false stream) < 500)%nat →
  Frame.parse (frame_cut false stream) (IOBoard.validate_lrc self) = Return (f, d) →
  ∃ w',
    IOBoard.send_command self command subcommand data timeout w = (Return (true, d), w')
    ∧ trace w'
      = trace w
        ++ [ResetInput; ResetOutput;
            Write (build_command_frame command subcommand data); Flush]
        ++ replicate (frame_reads false stream) (Read 1)
    ∧ serial w' = serial w.
Proof.
  intros Hconn Hretry Hsend Hans Hlen Hparse. pose proof Hconn as (s & Hs & Hopen).
  unfold IOBoard.send_command, IOBoard.is_connected, SerialConnection.is_connected.
  cbv [mbind M_bind]. rewrite Hs, Hopen. cbn [negb].
  unfold logger at 1. unfold modify.
  set (tx := build_command_frame command subcommand data) in *.
  set (w0 := add_log (DEBUG, LogSending command subcommand tx) w).
  unfold py_range.
  destruct (Z.to_nat (IOBoard.retry_count self)) as [|m] eqn:Hm; [lia|].
  cbn [seq map IOBoard.attempts].
  destruct (attempt_body_stream self subcommand tx timeout (Z.of_nat 0) w0 stream n f d)
    as (logs & Hrun); [by exists s|done..|].
  rewrite (bind_run _ _ _ _ _ Hrun). cbv [mret M_ret].
  eexists. split; [reflexivity|].
  subst w0. cbn [extend add_log trace serial]. done.
Qed.

(** X12. A device that lets the send through and answers with a
    well-formed frame whose payload holds no ETX and which fits the receive
    buffer (fewer than 500 bytes): [send_command] succeeds at the first
    attempt and returns that payload, whatever subcommand the answer names
    and with checksum validation on or off.  The frame is written once,
    nothing is slept, and the [read(1)] calls are as many as the answer has
    bytes, plus one exactly when the answer's checksum byte is itself
    0x03. *)
Theorem send_command_answered (self : IOBoard.t) (command : Command)
    (subcommand : SubCommand) (data : bytes) (timeout : option seconds) (w : World)
    (reply : Frame.t) (n : Z) :
  connected w →
  0 < IOBoard.retry_count self →
  next_send w (build_command_frame command subcommand data) = SendOk n →
  answers (device w) (reads_done w) (Frame.build reply) →
  ETX ∉ Frame.data reply →
  (length (Frame.data reply) + 7 < 500)%nat →
  ∃ w' : World,
    IOBoard.send_command self command subcommand data timeout w
    = (Return (true, Frame.data reply), w')
    ∧ trace w'
      = trace w
        ++ [ResetInput; ResetOutput;
            Write (build_command_frame command subcommand data); Flush]
        ++ replicate
             (length (Frame.build reply)
              + if bool_decide (xor_all (frame_body reply) = ETX) then 1 else 0)
             (Read 1)
    ∧ serial w' = serial w.
Proof.
  intros Hconn Hretry Hsend Hans Hdata Hlen.
  destruct (build_before_etx reply Hdata) as (pre & c & Hbuild & Hpre & Hprelen & ->).
  destruct (frame_cut_whole pre (xor_all (frame_body reply)) Hpre) as [Hcut Hreads].
  rewrite <- Hbuild in Hcut, Hreads.
  assert (length (Frame.build reply) = length pre + 2)%nat as Hblen.
  { rewrite Hbuild, length_app. cbn [length]. lia. }
  destruct (send_command_stream self command subcommand data timeout w
              (Frame.build reply) n reply (Frame.data reply))
    as (w' & Hrun & Htrace & Hserial); [done..| |by rewrite Hcut, parse_build|].
  { rewrite Hcut. lia. }
  exists w'. rewrite Hreads, <- Hblen in Htrace. done.
Qed.

Lemma send_command_answered_witness :
  ∃ w' : World,
    IOBoard.send_command default_board RQ ID [] None
      (opened (scripted_device (Frame.build (Frame.mk RQ ID (bytes_of "C     L     ")))))
    = (Return (true, bytes_of "C     L     "), w')
    ∧ trace w'
      = [ResetInput; ResetOutput; Write (build_command_frame RQ ID []); Flush]
        ++ replicate 19 (Read 1).
Proof.
  destruct (send_command_answered default_board RQ ID [] None
              (opened (scripted_device
                         (Frame.build (Frame.mk RQ ID (bytes_of "C     L     ")))))
              (Frame.mk RQ ID (bytes_of "C     L     ")) 7)
    as (w' & Hrun & Htrace & _).
  - apply opened_connected.
  - reflexivity.
  - reflexivity.
  - apply answers_scripted.
  - cbn [Frame.data bytes_of]. vm_compute. intros H.
    repeat (apply elem_of_cons in H as [H|H]; [discriminate H|]).
    by apply elem_of_nil in H.
  - vm_compute. lia.
  - exists w'. split; [exact Hrun|]. rewrite Htrace. reflexivity.
Defined.



(** ** What a computation returns *)

Lemma returns_only_ret {A} (Q : A → Prop) (a : A) : Q a → returns_only Q (mret a).
Proof. intros Ha w a' w' [= <- _]. exact Ha. Qed.

Lemma returns_only_bind {A B} (Q : B → Prop) (m : M A) (f : A → M B) :
  (∀ a, returns_only Q (f a)) → returns_only Q (m ≫= f).
Proof.
  intros Hf w b w' Hrun. cbv [mbind M_bind] in Hrun.
  destruct (m w) as [[a|e] w1]; [|done]. by apply (Hf a w1 b w').
Qed.

Lemma returns_only_try {A} (Q : A → Prop) (body : M A) (handler : exn → option (M A)) :
  returns_only Q body →
  (∀ e h, handler e = Some h → returns_only Q h) →
  returns_only Q (try_exceptM body handler).
Proof.
  intros Hbody Hh w a w' Hrun. unfold try_exceptM in Hrun.
  destruct (body w) as [[a1|e] w1] eqn:Hbw.
  - injection Hrun as <- <-. by apply (Hbody w a1 w1).
  - destruct (handler e) as [h|] eqn:He; [|done]. by apply (Hh e h He w1 a w').
Qed.

Lemma raises_only_weaken {A} (P Q : exn → Prop) (m : M A) :
  (∀ e, P e → Q e) → raises_only P m → raises_only Q m.
Proof. intros HPQ Hm w e w' Hrun. apply HPQ. by apply (Hm w e w'). Qed.

Lemma timeout_or_communication_IOBoardError (e : exn) :
  timeout_or_communication e → is_IOBoardError e = true.
Proof. by intros [[msg ->]|[msg ->]]. Qed.

(** ** io_board.py: [send_raw] *)

(** X13. [send_raw] looks the key up before anything else: an unknown key
    raises [ValueError] even on a board that is not connected, and nothing
    happens at the port.  With a known key, a board that is not connected
    raises [CommunicationError]; a connected one makes a single attempt
    (one [send], nothing is slept, no retry), in which the pre-built frame
    is written at most once, and exactly once when the resets of the port's
    buffers do not fail; it returns whatever the device does, and returns
    an empty payload with [False]. *)
Theorem send_raw_single_attempt (self : IOBoard.t) (frame_key : string)
    (timeout : option seconds) (w : World) :
  (dict_lookup FRAMES frame_key = None →
   IOBoard.send_raw self frame_key timeout w = (Raise ValueError, w))
  ∧ (∀ tx, dict_lookup FRAMES frame_key = Some tx →
       ¬ connected w →
       IOBoard.send_raw self frame_key timeout w
       = (Raise (CommunicationError "Not connected to IO board"), w))
  ∧ (∀ tx, dict_lookup FRAMES frame_key = Some tx →
       connected w →
       ∃ (ok : bool) (response : bytes) (w' : World) (evs : list event) (j : nat),
         IOBoard.send_raw self frame_key timeout w = (Return (ok, response), w')
         ∧ serial w' = serial w
         ∧ trace w' = trace w ++ evs
         ∧ sends_of evs = 1%nat
         ∧ writes_of evs = replicate j tx
         ∧ (j ≤ 1)%nat
         ∧ (resets_succeed (device w) → j = 1%nat)
         ∧ sleeps_of evs = []
         ∧ (ok = false → response = [])).
Proof.
  unfold IOBoard.send_raw. split; [by intros ->|]. split.
  - intros tx -> Hnot. unfold IOBoard.is_connected, SerialConnection.is_connected.
    cbv [mbind M_bind].
    destruct (serial w) as [s|] eqn:Hs; [|done].
    destruct (is_open s) eqn:Hopen; [|done]. destruct Hnot. by exists s.
  - intros tx -> Hconn. unfold IOBoard.is_connected.
    rewrite (bind_run _ _ _ _ _ (is_connected_true w Hconn)). cbn [negb].
    match goal with
    | |- context [try_exceptM ?body ?handler w] =>
        assert (never_raises (try_exceptM body handler)) as Hnr;
        [|assert (runs 1 tx (try_exceptM body handler) w) as Hruns;
          [|assert (returns_only (λ r : bool * bytes, r.1 = false → r.2 = [])
                      (try_exceptM body handler)) as Hret]]
    end.
    { apply (never_raises_try (λ e, is_IOBoardError e = true)).
      - apply raises_only_bind.
        { eapply raises_only_weaken;
            [apply timeout_or_communication_IOBoardError|apply send_raises]. }
        intros _. apply raises_only_bind.
        { eapply raises_only_weaken;
            [apply timeout_or_communication_IOBoardError|apply receive_until_etx_raises]. }
        intros rx_data. apply raises_only_bind; [apply raises_only_lift, parse_raises|].
        intros [frame response_data]. apply never_raises_raises_only, never_raises_ret.
      - intros e ->. eexists. split; [reflexivity|].
        apply never_raises_bind; [apply never_raises_logger|].
        intros _. apply never_raises_ret. }
    { apply runs_try.
      - apply (runs_bind 1 0); [by apply runs_send| |done].
        intros _ w1 _. apply quiet_bind; [apply quiet_receive_until_etx|].
        intros rx_data. apply quiet_bind; [apply quiet_lift|].
        intros [frame response_data]. apply quiet_ret.
      - intros e h. destruct (is_IOBoardError e); [|done]. intros [= <-].
        apply quiet_bind; [apply quiet_logger|]. intros _. apply quiet_ret. }
    { apply returns_only_try.
      - apply returns_only_bind. intros _. apply returns_only_bind. intros rx_data.
        apply returns_only_bind. intros [frame response_data].
        by apply returns_only_ret.
      - intros e h. destruct (is_IOBoardError e); [|done]. intros [= <-].
        apply returns_only_bind. intros _. by apply returns_only_ret. }
    destruct (Hnr w) as ([ok response] & w' & Hrun).
    destruct (Hruns _ _ Hrun)
      as (Hs' & _ & _ & evs & j & Ht & Hn & Hws & Hj & Hok & _ & Hsl).
    exists ok, response, w', evs, j.
    split_and!; try done.
    apply (Hret _ _ _ Hrun).
Qed.

Lemma send_raw_single_attempt_witness :
  IOBoard.send_raw default_board "XX" None (opened mute_device)
  = (Raise ValueError, opened mute_device).
Proof.
  destruct (send_raw_single_attempt default_board "XX" None (opened mute_device))
    as [Hunknown _].
  apply Hunknown. reflexivity.
Defined.

(** ** serial_comm.py: [disconnect] *)

(** X14. [disconnect] never raises and drops the port object without any
    exchange with the device; doing it again changes nothing; and on the
    disconnected connection [send], [receive_until_etx] and the board's
    [send_command] raise [CommunicationError] and leave everything as it
    is. *)
Theorem disconnect_closes (port : string) (w : World) :
  ∃ w',
    SerialConnection.disconnect port w = (Return (), w')
    ∧ serial w' = None
    ∧ trace w' = trace w
    ∧ SerialConnection.disconnect port w' = (Return (), w')
    ∧ (∀ tx, SerialConnection.send tx w'
             = (Raise (CommunicationError "Not connected to serial port"), w'))
    ∧ (∀ t, SerialConnection.receive_until_etx t w'
            = (Raise (CommunicationError "Not connected to serial port"), w'))
    ∧ (∀ self command subcommand data timeout,
         IOBoard.send_command self command subcommand data timeout w'
         = (Raise (CommunicationError "Not connected to IO board"), w')).
Proof.
  assert (∃ w', SerialConnection.disconnect port w = (Return (), w')
                ∧ serial w' = None ∧ trace w' = trace w) as (w' & Hrun & Hs & Ht).
  { unfold SerialConnection.disconnect.
    destruct (serial w) as [s|] eqn:Hser; [|by exists w].
    destruct (is_open s);
      unfold try_finally, try_exceptM, SerialConnection.serial_close, logger, modify;
      cbv [mbind M_bind mret M_ret]; rewrite ?Hser; by eexists. }
  exists w'. split; [exact Hrun|]. split; [exact Hs|]. split; [exact Ht|].
  split; [|split; [|split]].
  - unfold SerialConnection.disconnect. by rewrite Hs.
  - intros tx. unfold SerialConnection.send, SerialConnection.is_connected.
    cbv [mbind M_bind]. by rewrite Hs.
  - intros t. unfold SerialConnection.receive_until_etx, SerialConnection.is_connected.
    cbv [mbind M_bind]. by rewrite Hs.
  - intros self command subcommand data timeout.
    unfold IOBoard.send_command, IOBoard.is_connected, SerialConnection.is_connected.
    cbv [mbind M_bind]. by rewrite Hs.
Qed.

(** ** io_board.py: [write_production_number] *)

(** X15. [write_production_number] encodes before it looks at the
    connection: a number with a non-ASCII character raises
    [UnicodeEncodeError], which is not an [IOBoardError], and nothing is
    sent.  Any ASCII number, the empty one and those longer than eleven
    characters included, is dispatched as MC-WP with the number's bytes as
    payload, and the flag of [send_command] is returned. *)
Theorem write_production_number_encodes (self : IOBoard.t) (number : pystr) (w : World) :
  (is_ascii number = false →
   IOBoard.write_production_number self number w = (Raise UnicodeEncodeError, w)
   ∧ is_IOBoardError UnicodeEncodeError = false)
  ∧ (is_ascii number = true →
     ∀ r w', IOBoard.send_command self MC WP number None w = (r, w') →
       IOBoard.write_production_number self number w
       = (match r with Return (ok, _) => Return ok | Raise e => Raise e end, w')).
Proof.
  unfold IOBoard.write_production_number, encode_ascii, lift. cbv [mbind M_bind].
  split; intros ->; [done|]. intros r w' ->. by destruct r as [[ok response]|e].
Qed.

Lemma write_production_number_encodes_witness :
  IOBoard.write_production_number default_board [0xC9] (opened mute_device)
  = (Raise UnicodeEncodeError, opened mute_device).
Proof.
  destruct (write_production_number_encodes default_board [0xC9] (opened mute_device))
    as [Hbad _].
  apply Hbad. reflexivity.
Defined.

(** ** deadbolt.py: the four predicates *)

(** X16. The four predicates of [DeadBolt] each make one status query and
    compare one payload byte: [is_door_open] holds exactly when the query
    succeeded with at least 7 bytes and byte 0 is 'O', [is_door_closed] when
    it is 'C', [is_locked] when byte 6 is 'L', [is_unlocked] when it is
    'U'.  On a failed query or a short answer all four are [False], so
    neither pair is complementary. *)
Theorem door_predicates (T : Type) `{Dispatcher T} (io : T) (w w1 : World)
    (success : bool) (data : bytes) :
  send_command io RQ ID [] None w = (Return (success, data), w1) →
  ∃ w2,
    DeadBolt.is_door_open io w = (Return (status_byte success data 0 0x4F), w2)
    ∧ DeadBolt.is_door_closed io w = (Return (status_byte success data 0 0x43), w2)
    ∧ DeadBolt.is_locked io w = (Return (status_byte success data 6 0x4C), w2)
    ∧ DeadBolt.is_unlocked io w = (Return (status_byte success data 6 0x55), w2)
    ∧ trace w2 = trace w1 ∧ calls w2 = calls w1.
Proof.
  intros Hsend.
  unfold DeadBolt.is_door_open, DeadBolt.is_door_closed, DeadBolt.is_locked,
    DeadBolt.is_unlocked, status_byte.
  destruct success.
  - destruct (decide (length data < 7)%nat) as [Hlen|Hlen].
    + exists (add_log (WARNING, LogShortResponse (length data) data) w1).
      rewrite !(bind_run _ _ _ _ _ (get_status_short T io w w1 data Hsend Hlen)).
      cbv [mret M_ret]. rewrite (bool_decide_eq_false_2 (7 ≤ length data)%nat) by lia.
      cbn [andb]. repeat split; f_equal; f_equal; by apply bool_decide_eq_false_2.
    + destruct (lookup_lt_is_Some_2 data 0) as [b0 H0]; [lia|].
      destruct (lookup_lt_is_Some_2 data 6) as [b6 H6]; [lia|].
      destruct (get_status_long T io w w1 data b0 b6 Hsend H0 H6) as [logs Hrun].
      exists (extend w1 0 0 [] logs). rewrite !(bind_run _ _ _ _ _ Hrun). cbv [mret M_ret].
      rewrite (bool_decide_eq_true_2 (7 ≤ length data)%nat) by lia.
      rewrite H0, H6. cbn [andb extend trace calls]. rewrite app_nil_r.
      unfold door_of_byte, lock_of_byte.
      repeat split; f_equal; f_equal;
        repeat case_bool_decide; simplify_eq; done.
  - exists (add_log (ERROR, LogDoorQueryFailed) w1).
    rewrite !(bind_run _ _ _ _ _ (get_status_failed T io w w1 data Hsend)).
    cbv [mret M_ret]. cbn [andb].
    repeat split; f_equal; f_equal; by apply bool_decide_eq_false_2.
Qed.

Lemma door_predicates_witness :
  ∃ w2,
    DeadBolt.is_door_open {| return_value := (true, bytes_of "O     U     ") |}
      (opened mute_device) = (Return true, w2)
    ∧ DeadBolt.is_locked {| return_value := (true, bytes_of "O     U     ") |}
        (opened mute_device) = (Return false, w2).
Proof.
  destruct (door_predicates MagicMock {| return_value := (true, bytes_of "O     U     ") |}
              (opened mute_device) _ true (bytes_of "O     U     ") eq_refl)
    as (w2 & Hopen & _ & Hlocked & _).
  exists w2. split; [exact Hopen|exact Hlocked].
Defined.

(** ** The one-shot commands on the board *)






(** ** loadcell.py: [read_channel], the cache and [get_channel_values] *)

Section loadcell_more.
Context {float : Type} (float_zero : float) (py_float : pystr → option float).

(** X18. [read_channel] checks the channel number before anything else: a
    number outside 1..10 raises [ValueError] and nothing is dispatched.  For
    a channel in range, a successful query returns the reading of exactly
    that channel (its 6-byte field decoded, whatever the length of the
    payload), and a failed query returns [None] and leaves the object as it
    was. *)
Theorem read_channel_checks (T : Type) `{Dispatcher T} (io : T)
    (self : LoadCell.t) (ch : Z) (w : World) :
  (¬ (1 ≤ ch ≤ 10) →
   LoadCell.read_channel float_zero py_float io self ch w = (Raise ValueError, w))
  ∧ (1 ≤ ch ≤ 10 →
     ∀ data w1, send_command io RQ IW [] None w = (Return (true, data), w1) →
       ∃ self' w2,
         LoadCell.read_channel float_zero py_float io self ch w
         = (Return (Some (field_reading float_zero py_float data (ch - 1)), self'), w2)
         ∧ LoadCell.channel (field_reading float_zero py_float data (ch - 1)) = ch)
  ∧ (1 ≤ ch ≤ 10 →
     ∀ data w1, send_command io RQ IW [] None w = (Return (false, data), w1) →
       ∃ w2,
         LoadCell.read_channel float_zero py_float io self ch w
         = (Return (None, self), w2)).
Proof.
  unfold LoadCell.read_channel, NUM_CHANNELS. split; [|split].
  - intros Hch. by rewrite bool_decide_eq_false_2 by done.
  - intros Hch data w1 Hsend. rewrite bool_decide_eq_true_2 by done. cbn [negb].
    destruct (read_all_success float_zero py_float T io self w w1 data Hsend)
      as (w2 & Hrun & _).
    rewrite (bind_run _ _ _ _ _ Hrun). cbv beta iota.
    set (readings := map (field_reading float_zero py_float data) (py_range 10)).
    assert (length readings = 10%nat) as Hlen by (subst readings; by rewrite length_map).
    rewrite (bool_decide_eq_true_2 (readings ≠ [])) by (by destruct readings).
    rewrite bool_decide_eq_true_2 by lia. cbn [andb].
    assert (readings !! Z.to_nat (ch - 1)
            = Some (field_reading float_zero py_float data (ch - 1))) as Hnth.
    { subst readings. rewrite list_lookup_fmap.
      change (py_range 10) with (map Z.of_nat (seq 0 10)).
      rewrite list_lookup_fmap, lookup_seq_lt by lia. cbn [fmap option_fmap option_map].
      do 2 f_equal. lia. }
    rewrite (py_index_Z readings (ch - 1) _ ltac:(lia) Hnth).
    eexists _, w2. split; [reflexivity|].
    rewrite field_reading_channel. lia.
  - intros Hch data w1 Hsend. rewrite bool_decide_eq_true_2 by done. cbn [negb].
    rewrite (bind_run _ _ _ _ _ (read_all_failure float_zero py_float T io self w w1 data Hsend)).
    cbv beta iota. rewrite (bool_decide_eq_false_2 ([] ≠ [])) by (by intros []).
    by eexists.
Qed.

(** X19. The cache of the last readings: after a [read_all] whose query
    succeeded, [get_last_readings] gives the very list that was returned;
    after one whose query failed, the object is unchanged, so it still gives
    the readings of the last successful call.  [get_channel_values] makes
    the same query and returns the values of those readings, in channel
    order. *)
Theorem read_all_caches (T : Type) `{Dispatcher T} (io : T)
    (self : LoadCell.t) (w w1 : World) (success : bool) (data : bytes) :
  send_command io RQ IW [] None w = (Return (success, data), w1) →
  ∃ readings self' w2,
    LoadCell.read_all float_zero py_float io self w = (Return (readings, self'), w2)
    ∧ LoadCell.get_channel_values float_zero py_float io self w
      = (Return (map LoadCell.value readings, self'), w2)
    ∧ (success = true → LoadCell.get_last_readings self' = Some readings)
    ∧ (success = false → self' = self ∧ readings = []).
Proof.
  intros Hsend. unfold LoadCell.get_channel_values. destruct success.
  - destruct (read_all_success float_zero py_float T io self w w1 data Hsend)
      as (w2 & Hrun & _).
    eexists _, _, w2. split; [exact Hrun|].
    rewrite (bind_run _ _ _ _ _ Hrun). done.
  - pose proof (read_all_failure float_zero py_float T io self w w1 data Hsend) as Hrun.
    eexists _, _, _. split; [exact Hrun|].
    rewrite (bind_run _ _ _ _ _ Hrun). done.
Qed.

End loadcell_more.

Lemma read_channel_checks_witness :
  LoadCell.read_channel 0 digits_float default_board
    {| LoadCell._last_readings := None |} 11 (opened mute_device)
  = (Raise ValueError, opened mute_device).
Proof.
  destruct (read_channel_checks 0 digits_float IOBoard.t default_board
              {| LoadCell._last_readings := None |} 11 (opened mute_device))
    as [Hrange _].
  apply Hrange. lia.
Defined.

Lemma read_all_caches_witness :
  ∃ readings self' w2,
    LoadCell.read_all 0 digits_float {| return_value := (false, []) |}
      {| LoadCell._last_readings := Some [] |} (opened mute_device)
    = (Return (readings, self'), w2)
    ∧ self' = {| LoadCell._last_readings := Some [] |}.
Proof.
  destruct (read_all_caches 0 digits_float MagicMock {| return_value := (false, []) |}
              {| LoadCell._last_readings := Some [] |} (opened mute_device) _
              false [] eq_refl)
    as (readings & self' & w2 & Hrun & _ & _ & Hfail).
  exists readings, self', w2. split; [exact Hrun|]. by destruct (Hfail eq_refl).
Defined.

(** ** system.py: [get_info] and [get_error_history] *)

Lemma py_lstrip_length (s : pystr) : (length (py_lstrip s) ≤ length s)%nat.
Proof.
  induction s as [|c s IH]; [done|]. cbn [py_lstrip length].
  destruct (py_isspace c); cbn [length]; lia.
Qed.

Lemma py_strip_length (s : pystr) : (length (py_strip s) ≤ length s)%nat.
Proof.
  unfold py_strip, py_rstrip. rewrite length_rev.
  etrans; [apply py_lstrip_length|]. rewrite length_rev. apply py_lstrip_length.
Qed.

(** X20. [get_info] apart from the plain success: a failed query gives an
    empty production number and an empty [raw], whatever payload came with
    it; a byte above 0x7F among the first eleven raises [ResponseError]
    carrying the payload; and bytes above 0x7F after the eleventh do no
    harm, the production number being read from the first eleven bytes only
    and hence at most eleven characters long. *)
Theorem get_info_edges (T : Type) `{Dispatcher T} (io : T) (w w1 : World)
    (success : bool) (data : bytes) :
  send_command io RQ MI [] None w = (Return (success, data), w1) →
  (success = false →
   SystemManager.get_info io w
   = (Return {| SystemManager.production_number := []; SystemManager.raw := [] |},
      add_log (ERROR, LogInfoQueryFailed) w1))
  ∧ (success = true → is_ascii (take 11 data) = false →
     ∃ w2, SystemManager.get_info io w = (Raise (ResponseError data), w2)
           ∧ trace w2 = trace w1)
  ∧ (success = true → is_ascii (take 11 data) = true →
     ∃ info w2,
       SystemManager.get_info io w = (Return info, w2)
       ∧ SystemManager.production_number info = py_strip (take 11 data)
       ∧ SystemManager.raw info = data
       ∧ (length (SystemManager.production_number info) ≤ 11)%nat).
Proof.
  intros Hsend. split; [|split].
  - intros ->. unfold SystemManager.get_info.
    by rewrite (bind_run _ _ _ _ _ Hsend).
  - intros -> Hascii. unfold SystemManager.get_info.
    rewrite (bind_run _ _ _ _ _ Hsend). cbn [negb].
    unfold try_exceptM, PRODUCTION_NUMBER_LENGTH.
    change 11 with (Z.of_nat 11). rewrite py_slice_to_nat.
    unfold decode_ascii. rewrite Hascii. unfold lift. cbv [mbind M_bind].
    unfold logger, modify, raise. by eexists.
  - intros -> Hascii. rewrite (get_info_success T io w w1 data Hsend Hascii).
    eexists _, _. split; [reflexivity|]. cbn [SystemManager.production_number
      SystemManager.raw]. repeat split.
    etrans; [apply py_strip_length|]. rewrite length_take. lia.
Qed.

Lemma get_info_edges_witness :
  ∃ w2,
    SystemManager.get_info {| return_value := (true, [0x41; 0xC9]) |} (opened mute_device)
    = (Raise (ResponseError [0x41; 0xC9]), w2).
Proof.
  destruct (get_info_edges MagicMock {| return_value := (true, [0x41; 0xC9]) |}
              (opened mute_device) _ true [0x41; 0xC9] eq_refl)
    as (_ & Hbad & _).
  destruct (Hbad eq_refl eq_refl) as (w2 & Hrun & _). by exists w2.
Defined.

Lemma error_entry_body_spec (data : bytes) (i : Z) (w : World) :
  ∃ logs,
    SystemManager.error_entry_body data i w
    = (Return (error_entry data i), extend w 0 0 [] logs).
Proof.
  unfold SystemManager.error_entry_body, error_entry, try_exceptM.
  unfold SystemManager.ERROR_ENTRY_SIZE, decode_ascii, lift. cbv zeta.
  cbv [mbind M_bind].
  destruct (is_ascii _).
  - exists []. cbv [mret M_ret]. by rewrite extend_id.
  - eexists [_]. unfold logger, modify. cbv [mret M_ret]. f_equal.
    destruct w. world_simpl. apply Build_World_eq; by rewrite ?app_nil_r, ?Nat.add_0_r.
Qed.

Lemma error_entries_spec (data : bytes) (indices : list Z) :
  ∀ (entries : list SystemManager.ErrorEntry.t) (w : World),
    ∃ logs,
      SystemManager.error_entries data indices entries w
      = (Return (entries ++ map (error_entry data) indices), extend w 0 0 [] logs).
Proof.
  induction indices as [|i indices IH]; intros entries w.
  - exists []. cbn [SystemManager.error_entries map]. cbv [mret M_ret].
    by rewrite app_nil_r, extend_id.
  - cbn [SystemManager.error_entries map].
    destruct (error_entry_body_spec data i w) as [logs1 Hrun1].
    rewrite (bind_run _ _ _ _ _ Hrun1).
    destruct (IH (entries ++ [error_entry data i]) (extend w 0 0 [] logs1))
      as [logs2 ->].
    exists (logs1 ++ logs2). by rewrite extend_extend, <- app_assoc.
Qed.

Lemma error_entry_index (data : bytes) (i : Z) :
  SystemManager.ErrorEntry.index (error_entry data i) = i + 1.
Proof. unfold error_entry. cbv zeta. by destruct (is_ascii _). Qed.

(** X21. [get_error_history] never raises on its own.  After a successful
    query it returns exactly four entries, numbered 1..4, entry [i + 1]
    decoded from payload bytes [4i .. 4i+3]; a field with a byte above 0x7F
    blanks its own entry only, and a field beyond the end of the payload
    gives an entry with empty code and empty raw.  After a failed query the
    history is empty.  Nothing but the query reaches the port. *)
Theorem get_error_history_entries (T : Type) `{Dispatcher T} (io : T)
    (w w1 : World) (success : bool) (data : bytes) :
  send_command io RQ ER [] None w = (Return (success, data), w1) →
  ∃ entries w2,
    SystemManager.get_error_history io w
    = (Return {| SystemManager.entries := entries |}, w2)
    ∧ trace w2 = trace w1
    ∧ (success = false → entries = [])
    ∧ (success = true →
       entries = map (error_entry data) [0; 1; 2; 3]
       ∧ map SystemManager.ErrorEntry.index entries = [1; 2; 3; 4]
       ∧ (∀ i, 0 ≤ i → Z.of_nat (length data) ≤ 4 * i →
            error_entry data i
            = {| SystemManager.ErrorEntry.index := i + 1;
                 SystemManager.ErrorEntry.code := [];
                 SystemManager.ErrorEntry.raw := [] |})).
Proof.
  intros Hsend. unfold SystemManager.get_error_history.
  rewrite (bind_run _ _ _ _ _ Hsend). destruct success; cbn [negb].
  - destruct (error_entries_spec data (py_range SystemManager.ERROR_HISTORY_COUNT) [] w1)
      as [logs Hrun].
    rewrite (bind_run _ _ _ _ _ Hrun). cbn [app].
    change (py_range SystemManager.ERROR_HISTORY_COUNT) with [0; 1; 2; 3].
    assert (∃ w2, (if bool_decide
                        (omap (λ e, if bool_decide (SystemManager.ErrorEntry.code e ≠ [])
                                    then Some (SystemManager.ErrorEntry.index e,
                                               SystemManager.ErrorEntry.code e)
                                    else None)
                           (map (error_entry data) [0; 1; 2; 3]) ≠ [])
                   then logger DEBUG
                          (LogErrorHistory
                             (omap (λ e, if bool_decide (SystemManager.ErrorEntry.code e ≠ [])
                                         then Some (SystemManager.ErrorEntry.index e,
                                                    SystemManager.ErrorEntry.code e)
                                         else None)
                                (map (error_entry data) [0; 1; 2; 3])))
                   else logger DEBUG LogErrorHistoryEmpty) (extend w1 0 0 [] logs)
                  = (Return (), w2) ∧ trace w2 = trace w1) as (w2 & Hlog & Htrace).
    { case_bool_decide; (eexists; split; [reflexivity|]);
        cbn [add_log extend trace]; by rewrite app_nil_r. }
    rewrite (bind_run _ _ _ _ _ Hlog). cbv [mret M_ret].
    eexists _, w2. split; [reflexivity|]. split; [exact Htrace|].
    split; [done|]. intros _. split; [done|]. split.
    + cbn [map]. by rewrite !error_entry_index.
    + intros i Hi Hlen. unfold error_entry.
      assert (py_slice data (i * 4) (i * 4 + 4) = []) as ->.
      { unfold py_slice, slice_bound.
        rewrite !bool_decide_eq_false_2 by lia.
        rewrite !Nat.min_r by lia. by rewrite Nat.sub_diag, take_0. }
      done.
  - unfold logger, modify. cbv [mbind M_bind mret M_ret].
    eexists _, _. split; [reflexivity|]. done.
Qed.

Lemma get_error_history_entries_witness :
  ∃ w2,
    SystemManager.get_error_history
      {| return_value := (true, bytes_of "E01 " ++ [0xC9; 0x20; 0x20; 0x20] ++ bytes_of "E03") |}
      (opened mute_device)
    = (Return {| SystemManager.entries :=
                   [ {| SystemManager.ErrorEntry.index := 1;
                        SystemManager.ErrorEntry.code := bytes_of "E01";
                        SystemManager.ErrorEntry.raw := bytes_of "E01 " |};
                     {| SystemManager.ErrorEntry.index := 2;
                        SystemManager.ErrorEntry.code := [];
                        SystemManager.ErrorEntry.raw := [] |};
                     {| SystemManager.ErrorEntry.index := 3;
                        SystemManager.ErrorEntry.code := bytes_of "E03";
                        SystemManager.ErrorEntry.raw := bytes_of "E03" |};
                     {| SystemManager.ErrorEntry.index := 4;
                        SystemManager.ErrorEntry.code := [];
                        SystemManager.ErrorEntry.raw := [] |} ] |}, w2).
Proof.
  destruct (get_error_history_entries MagicMock
              {| return_value :=
                   (true, bytes_of "E01 " ++ [0xC9; 0x20; 0x20; 0x20] ++ bytes_of "E03") |}
              (opened mute_device) _ true
              (bytes_of "E01 " ++ [0xC9; 0x20; 0x20; 0x20] ++ bytes_of "E03") eq_refl)
    as (entries & w2 & Hrun & _ & _ & Hok).
  destruct (Hok eq_refl) as (-> & _). exists w2. rewrite Hrun. reflexivity.
Defined.

(** ** The decoders over the board *)

Lemma send_command_not_connected (self : IOBoard.t) (command : Command)
    (subcommand : SubCommand) (data : bytes) (timeout : option seconds) (w : World) :
  ¬ connected w →
  IOBoard.send_command self command subcommand data timeout w
  = (Raise (CommunicationError "Not connected to IO board"), w).
Proof.
  intros Hnot. unfold IOBoard.send_command, IOBoard.is_connected,
    SerialConnection.is_connected. cbv [mbind M_bind].
  destruct (serial w) as [s|] eqn:Hs; [|done].
  destruct (is_open s) eqn:Hopen; [|done]. destruct Hnot. by exists s.
Qed.

Lemma bind_raise {A B} (m : M A) (f : A → M B) (w w1 : World) (e : exn) :
  m w = (Raise e, w1) → (m ≫= f) w = (Raise e, w1).
Proof. intros Hm. unfold mbind, M_bind. by rewrite Hm. Qed.

Section decoders_on_board.
Context {float : Type} (float_zero : float) (py_float : pystr → option float).


(** X24. On a board whose port is not open every operation of the decoders
    raises [CommunicationError] ("Not connected to IO board"): none of them
    catches it or turns it into a [False] or an unknown status, and nothing
    is written or read.  [factory_reset] has logged its warning by then;
    [set_production_number] still returns [False] for an empty or non-ASCII
    number, which it rejects before looking at the board. *)
Theorem decoders_need_connection (self : IOBoard.t) (cell : LoadCell.t)
    (number : pystr) (ch : Z) (w : World) :
  ¬ connected w →
  DeadBolt.get_status self w
  = (Raise (CommunicationError "Not connected to IO board"), w)
  ∧ DeadBolt.open self w = (Raise (CommunicationError "Not connected to IO board"), w)
  ∧ DeadBolt.close self w = (Raise (CommunicationError "Not connected to IO board"), w)
  ∧ DeadBolt.is_door_open self w
    = (Raise (CommunicationError "Not connected to IO board"), w)
  ∧ LoadCell.read_all float_zero py_float self cell w
    = (Raise (CommunicationError "Not connected to IO board"), w)
  ∧ (1 ≤ ch ≤ 10 →
     LoadCell.read_channel float_zero py_float self cell ch w
     = (Raise (CommunicationError "Not connected to IO board"), w))
  ∧ LoadCell.zero_calibration self w
    = (Raise (CommunicationError "Not connected to IO board"), w)
  ∧ SystemManager.get_info self w
    = (Raise (CommunicationError "Not connected to IO board"), w)
  ∧ SystemManager.get_error_history self w
    = (Raise (CommunicationError "Not connected to IO board"), w)
  ∧ SystemManager.clear_error_history self w
    = (Raise (CommunicationError "Not connected to IO board"), w)
  ∧ SystemManager.system_reset self w
    = (Raise (CommunicationError "Not connected to IO board"), w)
  ∧ SystemManager.factory_reset self w
    = (Raise (CommunicationError "Not connected to IO board"),
       add_log (WARNING, LogFactoryResetWarning) w)
  ∧ (number ≠ [] → is_ascii number = true →
     SystemManager.set_production_number self number w
     = (Raise (CommunicationError "Not connected to IO board"), w)).
Proof.
  intros Hnot.
  pose proof (λ c s d, send_command_not_connected self c s d None w Hnot) as Hsend.
  assert (DeadBolt.get_status self w
          = (Raise (CommunicationError "Not connected to IO board"), w)) as Hstatus.
  { unfold DeadBolt.get_status. by rewrite (bind_raise _ _ _ _ _ (Hsend RQ ID [])). }
  assert (LoadCell.read_all float_zero py_float self cell w
          = (Raise (CommunicationError "Not connected to IO board"), w)) as Hread.
  { unfold LoadCell.read_all. by rewrite (bind_raise _ _ _ _ _ (Hsend RQ IW [])). }
  split; [exact Hstatus|]. split; [|split; [|split; [|split; [exact Hread|]]]].
  - unfold DeadBolt.open. by rewrite (bind_raise _ _ _ _ _ (Hsend MC DC _)).
  - unfold DeadBolt.close. by rewrite (bind_raise _ _ _ _ _ (Hsend MC DC _)).
  - unfold DeadBolt.is_door_open. by rewrite (bind_raise _ _ _ _ _ Hstatus).
  - split; [|split; [|split; [|split; [|split; [|split; [|split]]]]]].
    + intros Hch. unfold LoadCell.read_channel, NUM_CHANNELS.
      rewrite bool_decide_eq_true_2 by done. cbn [negb].
      by rewrite (bind_raise _ _ _ _ _ Hread).
    + unfold LoadCell.zero_calibration. by rewrite (bind_raise _ _ _ _ _ (Hsend MC LZ [])).
    + unfold SystemManager.get_info. by rewrite (bind_raise _ _ _ _ _ (Hsend RQ MI [])).
    + unfold SystemManager.get_error_history.
      by rewrite (bind_raise _ _ _ _ _ (Hsend RQ ER [])).
    + unfold SystemManager.clear_error_history.
      by rewrite (bind_raise _ _ _ _ _ (Hsend MC EZ [])).
    + unfold SystemManager.system_reset. by rewrite (bind_raise _ _ _ _ _ (Hsend MC RT [])).
    + unfold SystemManager.factory_reset.
      rewrite (bind_run (logger WARNING LogFactoryResetWarning) _ w
                 (add_log (WARNING, LogFactoryResetWarning) w) () eq_refl).
      apply bind_raise.
      apply (send_command_not_connected self MC PD [] None
               (add_log (WARNING, LogFactoryResetWarning) w)).
      exact Hnot.
    + intros Hne Hascii.
      exact (set_production_number_dispatches IOBoard.t self w w number _
               Hne Hascii (Hsend MC WP number)).
Qed.

End decoders_on_board.


Lemma decoders_need_connection_witness :
  DeadBolt.open default_board
    {| device := mute_device; serial := None; writes_done := 0; reads_done := 0;
       trace := []; log := []; calls := [] |}
  = (Raise (CommunicationError "Not connected to IO board"),
     {| device := mute_device; serial := None; writes_done := 0; reads_done := 0;
        trace := []; log := []; calls := [] |}).
Proof.
  destruct (decoders_need_connection 0 digits_float default_board
              {| LoadCell._last_readings := None |} [] 1
              {| device := mute_device; serial := None; writes_done := 0;
                 reads_done := 0; trace := []; log := []; calls := [] |})
    as (_ & Hopen & _).
  - intros (s & Hs & _). discriminate Hs.
  - exact Hopen.
Defined.
